(** * GridZen microgrid core: dispatch optimizer, payload normalisation,
      state-of-charge tracking and the rolling-window ingestion pipeline.

    The Python sources compute on [float] (IEEE 754 binary64).  The
    embedding keeps that representation: numbers are Rocq's primitive
    binary64 floats, so [0.1 + 0.2] is [0.30000000000000004] here as it is
    in the program, and the Python builtins the sources call ([min], [max],
    [round], [statistics.mean], [statistics.stdev]) are modelled on the
    CPython 3.11 algorithms in module [Py].

    Layout: [Py] (builtins), [Optimization] (backend/optimization.py),
    [Ingestion] (backend/ingestion.py), [Forecast] (backend/forecast.py),
    [Simulator] (backend/simulator.py),
    [Main] (backend/main.py), [Engine] (backend/engine/ingestion.py),
    [Props] (the predicates of the statements and sample feeds), then the
    lemmas and the theorems about them.  What the sources read from the
    clock, the environment or a random generator is an explicit argument
    here; a call that raises returns [None]. *)

From Stdlib Require Import ZArith QArith List Bool Floats Lia.
From stdpp Require Import gmap strings sorting.
Import ListNotations.
Set Warnings "-inexact-float".

Close Scope Q_scope.

(* ===================================================================== *)
(** ** Python builtins on floats                                          *)
(* ===================================================================== *)

Module Py.
Local Open Scope float_scope.

(** [max(a, b)]: the later argument replaces the running result only when it
    compares strictly greater, so a NaN in second position is dropped. *)
Definition max2 (a b : float) : float := if a <? b then b else a.

(** [min(a, b)] and [min(a, b, c)], scanned left to right in the same way. *)
Definition min2 (a b : float) : float := if b <? a then b else a.
Definition min3 (a b c : float) : float := min2 (min2 a b) c.

(** The rational [m * 2^e]. *)
Definition dyadic (m e : Z) : Q :=
  match e with
  | Zneg k => Qmake m (Pos.shiftl 1 (Npos k))
  | _ => Qmake (Z.shiftl m e) 1
  end.

(** [float.as_integer_ratio]: the exact value of a finite float; [None]
    for NaN and the infinities. *)
Definition exact_ratio (x : float) : option Q :=
  match Prim2SF x with
  | S754_zero _ => Some (Qmake 0 1)
  | S754_finite s m e => Some (dyadic (if s then Zneg m else Zpos m) e)
  | _ => None
  end.

Definition is_finite (x : float) : bool :=
  match exact_ratio x with Some _ => true | None => false end.

Definition sign_bit (x : float) : bool :=
  match Prim2SF x with
  | S754_zero s | S754_infinity s | S754_finite s _ _ => s
  | S754_nan => false
  end.

(** [n / d] on Python ints (true division): the binary64 value nearest to
    the exact quotient, ties to even. *)
Definition int_true_div (n : Z) (d : positive) : float :=
  match n with
  | Z0 => 0
  | Zpos p => SF2Prim (SFdiv prec emax (S754_finite false p 0) (S754_finite false d 0))
  | Zneg p => SF2Prim (SFdiv prec emax (S754_finite true p 0) (S754_finite false d 0))
  end.

(** [n / d] as the interpreter evaluates it on ints: [OverflowError]
    ([None]) when the quotient is too large for a float, which is the case
    exactly when the nearest binary64 value is an infinity.  The callers
    of [int_true_div] itself divide where the quotient cannot be that
    large. *)
Definition int_truediv (n : Z) (d : positive) : option float :=
  let q := int_true_div n d in
  if is_infinity q then None else Some q.

(** [float(Fraction(n, d))]. *)
Definition fraction_to_float (q : Q) : float := int_true_div (Qnum q) (Qden q).

(** Nearest integer to a rational, ties to the even neighbour. *)
Definition round_half_even (q : Q) : Z :=
  let d := Zpos (Qden q) in
  let fl := (Qnum q / d)%Z in
  match (2 * (Qnum q mod d) ?= d)%Z with
  | Lt => fl
  | Gt => (fl + 1)%Z
  | Eq => if Z.even fl then fl else (fl + 1)%Z
  end.

(** [round(x, ndigits)] for a float and [0 <= ndigits]: NaN and the
    infinities are returned unchanged; otherwise the exact value of [x] is
    rounded half-even to [ndigits] decimals (the decimal string of CPython's
    [double_round]) and that decimal is converted back to the nearest float.
    The sign of [x] is kept when the result is zero. *)
Definition round (x : float) (ndigits : nat) : float :=
  match exact_ratio x with
  | None => x
  | Some q =>
      let p := Z.to_pos (10 ^ Z.of_nat ndigits) in
      match round_half_even (Qmult q (Qmake (Zpos p) 1)) with
      | Z0 => if sign_bit x then (-0) else 0
      | n => int_true_div n p
      end
  end.

(** Exact sum of finite floats, as [statistics._sum] accumulates it;
    [None] as soon as one summand is NaN or infinite. *)
Fixpoint sum_exact (xs : list float) : option Q :=
  match xs with
  | [] => Some (Qmake 0 1)
  | x :: xs' =>
      match exact_ratio x, sum_exact xs' with
      | Some q, Some t => Some (Qred (Qplus q t))
      | _, _ => None
      end
  end.

(** The float sum of the non-finite entries ([partials[None]]). *)
Definition sum_special (xs : list float) : float :=
  fold_left add (List.filter (fun x => negb (is_finite x)) xs) 0.

Definition count (xs : list float) : Q := inject_Z (Z.of_nat (length xs)).

(** [statistics.mean(data)]: [None] stands for [StatisticsError] on empty
    data.  For finite data the exact mean is rounded once to a float. *)
Definition mean (data : list float) : option float :=
  match data with
  | [] => None
  | _ :: _ =>
      match sum_exact data with
      | Some total => Some (fraction_to_float (Qred (Qdiv total (count data))))
      | None => Some (sum_special data / fraction_to_float (count data))
      end
  end.

Definition bit_length (n : Z) : Z :=
  if (n =? 0)%Z then 0%Z else (Z.log2 (Z.abs n) + 1)%Z.

(** [statistics._integer_sqrt_of_frac_rto]. *)
Definition integer_sqrt_of_frac_rto (n m : Z) : Z :=
  let a := Z.sqrt (n / m) in
  Z.lor a (if (a * a * m =? n)%Z then 0 else 1).

Definition sqrt_bit_width : Z := 2 * 53 + 3.

(** [statistics._float_sqrt_of_frac]: the correctly rounded square root of
    [n / m]; its last step, [numerator / denominator], raises
    [OverflowError] when that root is beyond the float range. *)
Definition float_sqrt_of_frac (n m : Z) : option float :=
  let q := ((bit_length n - bit_length m - sqrt_bit_width) / 2)%Z in
  if (0 <=? q)%Z
  then int_truediv (Z.shiftl (integer_sqrt_of_frac_rto n (Z.shiftl m (2 * q))) q) 1
  else int_truediv (integer_sqrt_of_frac_rto (Z.shiftl n (-2 * q)) m)
                   (Z.to_pos (Z.shiftl 1 (- q))).

(** Exact sum of squares of the finite entries. *)
Definition sum_squares (xs : list float) : Q :=
  fold_right
    (fun x acc =>
       match exact_ratio x with
       | Some q => Qred (Qplus (Qmult q q) acc)
       | None => acc
       end)
    (Qmake 0 1) xs.

(** [statistics._ss]: exact sum of squared deviations from the mean,
    [(count * sxx - sx * sx) / count]; [None] when the data holds a NaN or
    an infinity. *)
Definition ss (data : list float) : option Q :=
  match sum_exact data with
  | Some sx =>
      Some (Qred (Qdiv (Qminus (Qmult (count data) (sum_squares data)) (Qmult sx sx))
                       (count data)))
  | None => None
  end.

(** [statistics.stdev(data)]: [None] stands for the exception raised on
    fewer than two points ([StatisticsError]), on non-finite data
    ([AttributeError] in CPython 3.11) or on finite data whose deviation
    is beyond the float range ([OverflowError]). *)
Definition stdev (data : list float) : option float :=
  match data with
  | [] | [_] => None
  | _ =>
      match ss data with
      | Some s =>
          let mss := Qred (Qdiv s (inject_Z (Z.of_nat (length data) - 1))) in
          float_sqrt_of_frac (Qnum mss) (Zpos (Qden mss))
      | None => None
      end
  end.

(** [min(values)] and [max(values)] on a list: the first item, replaced
    in turn by each later item that compares strictly less (greater);
    [None] stands for the [ValueError] raised on an empty list. *)
Definition min_list (xs : list float) : option float :=
  match xs with
  | [] => None
  | x :: xs' => Some (fold_left min2 xs' x)
  end.

Definition max_list (xs : list float) : option float :=
  match xs with
  | [] => None
  | x :: xs' => Some (fold_left max2 xs' x)
  end.

(** [float(n)] for an int: the nearest binary64 value. *)
Definition of_int (n : Z) : float := int_true_div n 1.

(** C's [fmod(x, y)] for a non-zero [y]: the exact value of
    [x - trunc(x / y) * y], which is representable, with the sign of [x];
    [x] itself when [y] is infinite, NaN when [x] is infinite or either
    argument is NaN. *)
Definition fmod (x y : float) : float :=
  match exact_ratio x, exact_ratio y with
  | Some qx, Some qy =>
      let t := Z.quot (Qnum qx * Zpos (Qden qy)) (Qnum qy * Zpos (Qden qx)) in
      let r := Qred (Qminus qx (Qmult (inject_Z t) qy)) in
      if (Qnum r =? 0)%Z then (if sign_bit x then (-0) else 0) else fraction_to_float r
  | Some _, None => if is_nan y then nan else x
  | None, _ => nan
  end.

(** [x % y] on floats (CPython's [float_rem]): a zero divisor raises
    [ZeroDivisionError]; otherwise the remainder of [fmod] is given the
    sign of the divisor. *)
Definition mod_ (x y : float) : option float :=
  if y =? 0 then None
  else
    let m := fmod x y in
    if m =? 0 then Some (if sign_bit y then (-0) else 0)
    else if xorb (y <? 0) (m <? 0) then Some (m + y)
    else Some m.

End Py.

(* ===================================================================== *)
(** ** backend/optimization.py                                            *)
(* ===================================================================== *)

Module Optimization.
Local Open Scope float_scope.

(** The strategy label of a dispatch result.  The source returns a string;
    every label is a literal except the curtailment one, the f-string
    [f"CURTAILING_GEN_{round(curtailed_kw, 1)}KW"], which is kept here as
    the constructor carrying the formatted number. *)
Inductive strategy_label : Type :=
  | MANUAL_CHARGE
  | MANUAL_DISCHARGE
  | NORMAL_BALANCING
  | DELAYED_CHARGE_EXPORTING
  | GRID_IMPORT_SAVE_BATTERY
  | PEAK_GRID_IMPORT_WARNING
  | CURTAILING_GEN (kw : float).

(** The dict returned by [optimize_power_flow]. *)
Record dispatch : Type := {
  battery_power_kw : float;
  grid_import_kw : float;
  grid_export_kw : float;
  strategy : strategy_label
}.

(** What the function reads besides its arguments, once it has been read:
    the hour of [datetime.now(pytz.timezone("Asia/Kolkata"))] and the value
    of [float(os.getenv("GRID_MAX_EXPORT_KW", 50.0))].  The function below
    computes on these values; the reads themselves, the second of which
    can raise, are [read_ambient] further down, and the call as a whole is
    [optimize_power_flow_run]. *)
Record ambient : Type := {
  local_hour : Z;
  GRID_MAX_EXPORT_KW : float
}.

Definition is_peak_pricing_hour (env : ambient) : bool :=
  ((14 <=? local_hour env) && (local_hour env <=? 18))%Z.

Definition optimize_power_flow (env : ambient)
    (current_solar_kw current_wind_kw current_load_kw : float)
    (battery_soc_pct battery_cap_kwh battery_max_pw_kw : float)
    (forecast_surplus_kwh_3h : float)
    (mode : string) (manual_override_kw : float) : dispatch :=
  let total_gen := current_solar_kw + current_wind_kw in
  let surplus_kw := total_gen - current_load_kw in
  if String.eqb mode "MANUAL_CHARGE" then
    let charge_rate :=
      Py.min2 battery_max_pw_kw
        (if 0 <? manual_override_kw then manual_override_kw else battery_max_pw_kw) in
    let charge_limit := (100.0 - battery_soc_pct) / 100.0 * battery_cap_kwh / (5 / 3600) in
    let actual_charge := Py.min2 charge_rate charge_limit in
    let grid_import := Py.max2 0.0 (actual_charge - surplus_kw) in
    let grid_export := Py.max2 0.0 (surplus_kw - actual_charge) in
    {| battery_power_kw := Py.round actual_charge 2;
       grid_import_kw := Py.round grid_import 2;
       grid_export_kw := Py.round grid_export 2;
       strategy := MANUAL_CHARGE |}
  else if String.eqb mode "MANUAL_DISCHARGE" then
    let discharge_rate :=
      Py.min2 battery_max_pw_kw
        (if 0 <? manual_override_kw then manual_override_kw else battery_max_pw_kw) in
    let actual_discharge :=
      Py.min2 discharge_rate
        ((battery_soc_pct - 5.0) * battery_cap_kwh / 100.0 / (5 / 3600)) in
    let actual_discharge := Py.max2 0.0 actual_discharge in
    let total_available := surplus_kw + actual_discharge in
    let grid_import := Py.max2 0.0 (- total_available) in
    let grid_export := Py.max2 0.0 total_available in
    {| battery_power_kw := - Py.round actual_discharge 2;
       grid_import_kw := Py.round grid_import 2;
       grid_export_kw := Py.round grid_export 2;
       strategy := MANUAL_DISCHARGE |}
  else
    let is_peak := is_peak_pricing_hour env in
    if 0 <? surplus_kw then
      let '(strategy0, charge_kw) :=
        if (15.0 <? forecast_surplus_kwh_3h) && (70.0 <? battery_soc_pct) && is_peak
        then (DELAYED_CHARGE_EXPORTING, 0.0)
        else (NORMAL_BALANCING,
              Py.min3 surplus_kw battery_max_pw_kw
                ((100.0 - battery_soc_pct) / 100.0 * battery_cap_kwh / (5 / 3600))) in
      let battery_pw_kw := Py.round (Py.max2 0.0 charge_kw) 2 in
      let remaining_surplus := surplus_kw - battery_pw_kw in
      let grid_export_kw0 := Py.round (Py.max2 0.0 remaining_surplus) 2 in
      if GRID_MAX_EXPORT_KW env <? grid_export_kw0 then
        let curtailed_kw := grid_export_kw0 - GRID_MAX_EXPORT_KW env in
        {| battery_power_kw := battery_pw_kw;
           grid_import_kw := 0.0;
           grid_export_kw := GRID_MAX_EXPORT_KW env;
           strategy := CURTAILING_GEN (Py.round curtailed_kw 1) |}
      else
        {| battery_power_kw := battery_pw_kw;
           grid_import_kw := 0.0;
           grid_export_kw := grid_export_kw0;
           strategy := strategy0 |}
    else
      let deficit_kw := abs surplus_kw in
      let '(strategy0, discharge_kw) :=
        if (forecast_surplus_kwh_3h <? -10.0) && negb is_peak && (battery_soc_pct <? 40.0)
        then (GRID_IMPORT_SAVE_BATTERY, 0.0)
        else (NORMAL_BALANCING,
              Py.min3 deficit_kw battery_max_pw_kw
                ((battery_soc_pct - 5.0) / 100.0 * battery_cap_kwh / (5 / 3600))) in
      let discharge_kw := Py.max2 0.0 discharge_kw in
      let battery_pw_kw := - Py.round discharge_kw 2 in
      let remaining_deficit := deficit_kw - discharge_kw in
      let strategy1 :=
        if is_peak && (0 <? remaining_deficit) then PEAK_GRID_IMPORT_WARNING else strategy0 in
      {| battery_power_kw := battery_pw_kw;
         grid_import_kw := Py.round (Py.max2 0.0 remaining_deficit) 2;
         grid_export_kw := 0.0;
         strategy := strategy1 |}.

(** What the process environment holds under a name that the program
    reads with [float(os.getenv(name, default))]: no such variable, a
    string that [float] converts (given by the float it converts to), or a
    string that [float] rejects. *)
Inductive setting : Type :=
  | Unset
  | Numeric (f : float)
  | NonNumeric.

(** [float(os.getenv(name, dflt))] for a float [dflt]; [None] stands for
    the [ValueError] of [float]. *)
Definition getenv_float (s : setting) (dflt : float) : option float :=
  match s with
  | Unset => Some dflt
  | Numeric f => Some f
  | NonNumeric => None
  end.

(** The reads of [optimize_power_flow] (lines 64 to 72) in a process whose
    clock shows the local hour [hour] and whose environment holds [s]
    under GRID_MAX_EXPORT_KW.  A manual mode returns before these lines
    and reads nothing: the record it is given is not consulted.  Any other
    mode reads the clock and converts the setting, which raises
    [ValueError] on a string that is not a number.  The two imports and
    the time zone lookup of these lines are taken to succeed. *)
Definition read_ambient (mode : string) (hour : Z) (s : setting) : option ambient :=
  if String.eqb mode "MANUAL_CHARGE" || String.eqb mode "MANUAL_DISCHARGE"
  then Some {| local_hour := hour; GRID_MAX_EXPORT_KW := 50.0 |}
  else
    ceiling ← getenv_float s 50.0;
    Some {| local_hour := hour; GRID_MAX_EXPORT_KW := ceiling |}.

(** [optimize_power_flow] as a process runs it, the reads included. *)
Definition optimize_power_flow_run (hour : Z) (s : setting)
    (current_solar_kw current_wind_kw current_load_kw : float)
    (battery_soc_pct battery_cap_kwh battery_max_pw_kw : float)
    (forecast_surplus_kwh_3h : float)
    (mode : string) (manual_override_kw : float) : option dispatch :=
  env ← read_ambient mode hour s;
  Some (optimize_power_flow env current_solar_kw current_wind_kw current_load_kw
          battery_soc_pct battery_cap_kwh battery_max_pw_kw forecast_surplus_kwh_3h
          mode manual_override_kw).

End Optimization.

(* ===================================================================== *)
(** ** backend/ingestion.py                                               *)
(* ===================================================================== *)

Module Ingestion.
Import Optimization.
Local Open Scope float_scope.

(** The values held by a sensor payload or a processed reading: [None], a
    float, a timestamp (a [datetime] or its ISO string, as microseconds),
    a strategy label, or the string [str(v)] that Python prints for a
    value [v] that is not a label: the text of [None], of a float or of a
    timestamp. *)
Inductive value : Type :=
  | VNone
  | VFloat (f : float)
  | VTimestamp (t : Z)
  | VStrategy (s : strategy_label)
  | VStr (v : value).

(** A payload or reading: a dict with string keys. *)
Abbreviation payload := (gmap string value).

(** [float(v)]: a float is returned as it is, and the string printed
    for a float is read back as that float ([repr] round-trips); [None], a
    timestamp, a strategy label and the other strings raise ([None]
    here). *)
Definition to_float (v : value) : option float :=
  match v with
  | VFloat f | VStr (VFloat f) => Some f
  | _ => None
  end.

(** A value used as a number, in arithmetic, in a comparison with a number
    or under a numeric format: anything but a float raises. *)
Definition as_float (v : value) : option float :=
  match v with
  | VFloat f => Some f
  | _ => None
  end.

(** [bool(v)]: [None] and a zero of either sign are false; a NaN, any
    other float, a timestamp and a non-empty string are true. *)
Definition truthy (v : value) : bool :=
  match v with
  | VNone => false
  | VFloat f => negb (f =? 0)
  | VTimestamp _ | VStrategy _ | VStr _ => true
  end.

(** [str(v)]: a string is returned as it is. *)
Definition str (v : value) : value :=
  match v with
  | VNone | VFloat _ | VTimestamp _ => VStr v
  | VStrategy _ | VStr _ => v
  end.

(** [float(d.get(key, dflt))]. *)
Definition get_float (d : payload) (key : string) (dflt : float) : option float :=
  match d !! key with
  | Some v => to_float v
  | None => Some dflt
  end.

(** [d[key]] used as a number: a missing key raises, and so does an entry
    that is not a float. *)
Definition item_float (d : payload) (key : string) : option float :=
  d !! key ≫= as_float.

(** [process_sensor_payload(raw_payload, timestamp)]; [utcnow] is the value
    of [datetime.utcnow()]. *)
Definition process_sensor_payload (utcnow : Z) (raw_payload : payload)
    (timestamp : option Z) : option payload :=
  let timestamp :=
    match timestamp with
    | Some t => VTimestamp t
    | None => default (VTimestamp utcnow) (raw_payload !! "timestamp_utc")
    end in
  solar ← get_float raw_payload "solar_kw" 0.0;
  wind ← get_float raw_payload "wind_kw" 0.0;
  total ← get_float raw_payload "total_generation_kw" 0.0;
  load ← get_float raw_payload "load_kw" 0.0;
  soc ← get_float raw_payload "battery_soc_pct" 50.0;
  battery ← get_float raw_payload "battery_power_kw" 0.0;
  grid_import ← get_float raw_payload "grid_import_kw" 0.0;
  grid_export ← get_float raw_payload "grid_export_kw" 0.0;
  self_consumption ← get_float raw_payload "self_consumption_pct" 0.0;
  co2 ← get_float raw_payload "co2_saved_kg" 0.0;
  cost ← get_float raw_payload "cost_saved_inr" 0.0;
  let processed_reading : payload :=
    list_to_map
      [ ("timestamp_utc", timestamp);
        ("solar_kw", VFloat (Py.max2 0.0 solar));
        ("wind_kw", VFloat (Py.max2 0.0 wind));
        ("total_generation_kw", VFloat (Py.max2 0.0 total));
        ("load_kw", VFloat (Py.max2 0.0 load));
        ("battery_soc_pct", VFloat (Py.max2 0.0 (Py.min2 100.0 soc)));
        ("battery_power_kw", VFloat battery);
        ("grid_import_kw", VFloat (Py.max2 0.0 grid_import));
        ("grid_export_kw", VFloat (Py.max2 0.0 grid_export));
        ("self_consumption_pct", VFloat (Py.max2 0.0 (Py.min2 100.0 self_consumption)));
        ("co2_saved_kg", VFloat co2);
        ("cost_saved_inr", VFloat cost) ] in
  let strategy := default VNone (raw_payload !! "active_strategy") in
  if truthy strategy
  then Some (<["active_strategy" := str strategy]> processed_reading)
  else Some processed_reading.

End Ingestion.

(* ===================================================================== *)
(** ** backend/forecast.py                                                *)
(* ===================================================================== *)

Module Forecast.
Local Open Scope float_scope.

(** [_load_profile_kw(hour)], with the draw [random.gauss(0, 2.5)] as the
    input [noise]. *)
Definition _load_profile_kw (hour noise : float) : option float :=
  local_hour ← Py.mod_ (hour + 5.5) 24;
  let base :=
    if (0 <=? local_hour) && (local_hour <? 6) then 15.0
    else if (6 <=? local_hour) && (local_hour <? 9) then 15.0 + (local_hour - 6) * 10.0
    else if (9 <=? local_hour) && (local_hour <? 13) then 45.0 + (local_hour - 9) * 3.0
    else if (13 <=? local_hour) && (local_hour <? 14) then 57.0 - (local_hour - 13) * 5.0
    else if (14 <=? local_hour) && (local_hour <? 18) then 52.0 + (local_hour - 14) * 1.5
    else if (18 <=? local_hour) && (local_hour <? 22) then 40.0 - (local_hour - 18) * 5.0
    else 18.0 in
  Some (Py.max2 5.0 (base + noise)).

End Forecast.

(* ===================================================================== *)
(** ** backend/simulator.py                                               *)
(* ===================================================================== *)

Module Simulator.
Import Optimization Ingestion.
Local Open Scope float_scope.

(** Campus hardware figures, read from the process environment when the
    module is loaded. *)
Record hardware : Type := {
  SOLAR_CAP_KW : float;
  WIND_CAP_KW : float;
  BATTERY_CAP_KWH : float;
  BATTERY_MAX_KW : float
}.

(** The values used when the environment sets none. *)
Definition default_hardware : hardware :=
  {| SOLAR_CAP_KW := 50.0; WIND_CAP_KW := 15.0;
     BATTERY_CAP_KWH := 80.0; BATTERY_MAX_KW := 20.0 |}.

Definition CO2_KG_PER_KWH : float := 0.71.
Definition TARIFF_INR_PER_KWH : float := 7.50.

Record SensorState : Type := {
  battery_soc_pct : float;
  last_ts : Z
}.

(** [main.current_opt_config]. *)
Record OptimizationConfig : Type := {
  mode : string;
  manual_override_kw : float
}.

(** [a / b] on floats: a zero divisor raises [ZeroDivisionError]. *)
Definition truediv (a b : float) : option float :=
  if b =? 0 then None else Some (a / b).

(** The state-of-charge update of [generate_reading], with the elapsed
    time and the efficiency (the locals [delta_t_h = 5 / 3600] and
    [efficiency = 0.95]) as arguments. *)
Definition update_soc (delta_t_h efficiency : float) (cap_kwh : float)
    (soc battery_pw_kw : float) : option float :=
  q ← truediv (battery_pw_kw * delta_t_h * efficiency) cap_kwh;
  let soc_delta := q * 100 in
  Some (Py.round (Py.max2 5.0 (Py.min2 95.0 (soc + soc_delta))) 2).

(** [generate_reading(state, cloud_cover_pct)].  The clock and the random
    draws are inputs: [now] is the current time, [solar_factor] and
    [wind_factor] the results of [_solar_irradiance_factor] and
    [_wind_speed_factor], [load_profile_kw] the result of
    [_load_profile_kw], and [surplus_3h] the sum computed by the
    three-hour loop. *)
Definition generate_reading (env : ambient) (hw : hardware) (cfg : OptimizationConfig)
    (now : Z) (solar_factor wind_factor load_profile_kw surplus_3h : float)
    (state : SensorState) : option (SensorState * payload) :=
  let solar_kw := Py.round (SOLAR_CAP_KW hw * solar_factor) 2 in
  let wind_kw := Py.round (WIND_CAP_KW hw * wind_factor) 2 in
  let total_gen := Py.round (solar_kw + wind_kw) 2 in
  let load_kw := Py.round load_profile_kw 2 in
  let opt_result :=
    optimize_power_flow env solar_kw wind_kw load_kw (battery_soc_pct state)
      (BATTERY_CAP_KWH hw) (BATTERY_MAX_KW hw) surplus_3h
      (mode cfg) (manual_override_kw cfg) in
  let battery_pw_kw := battery_power_kw opt_result in
  let delta_t_h := 5 / 3600 in
  let efficiency := 0.95 in
  soc ← update_soc delta_t_h efficiency (BATTERY_CAP_KWH hw) (battery_soc_pct state) battery_pw_kw;
  let state := {| battery_soc_pct := soc; last_ts := last_ts state |} in
  let self_consumption_pct :=
    Py.round (if 0 <? load_kw then Py.min2 100.0 (total_gen / load_kw * 100) else 0.0) 1 in
  let grid_avoided_kwh := total_gen * delta_t_h in
  let co2_saved_kg := Py.round (grid_avoided_kwh * CO2_KG_PER_KWH) 4 in
  let cost_saved_inr := Py.round (grid_avoided_kwh * TARIFF_INR_PER_KWH) 4 in
  Some (state,
        list_to_map
          [ ("timestamp", VTimestamp now);
            ("solar_kw", VFloat solar_kw);
            ("wind_kw", VFloat wind_kw);
            ("total_generation_kw", VFloat total_gen);
            ("load_kw", VFloat load_kw);
            ("battery_soc_pct", VFloat (battery_soc_pct state));
            ("battery_power_kw", VFloat battery_pw_kw);
            ("grid_import_kw", VFloat (grid_import_kw opt_result));
            ("grid_export_kw", VFloat (grid_export_kw opt_result));
            ("self_consumption_pct", VFloat self_consumption_pct);
            ("co2_saved_kg", VFloat co2_saved_kg);
            ("cost_saved_inr", VFloat cost_saved_inr);
            ("active_strategy", VStrategy (strategy opt_result)) ]).

(** [now.hour + now.minute / 60.0], the hour [generate_reading] hands to
    the three profiles. *)
Definition hour_utc (hour minute : Z) : float :=
  Py.of_int hour + Py.of_int minute / 60.0.

(** The entries of a recommendation.  The message is an f-string: it is
    kept as the rule that wrote it together with the numbers it formats;
    the ["reason"] entry is a literal fixed by the rule. *)
Inductive action_label : Type := CHARGE | IMPORT | CURTAIL | SHIFT_LOAD | OPTIMAL.

Inductive priority_label : Type := LOW | MEDIUM | HIGH.

Inductive message_text : Type :=
  | BatteryCharging (power soc : float)
  | BatteryCriticallyLow (soc grid_import : float)
  | SurplusForecast (surplus : float)
  | BatteryFull (soc gen load grid_export : float)
  | HighPeakLoad
  | OperatingOptimally (renewable_share : float).

Record recommendation : Type := {
  action : action_label;
  priority : priority_label;
  message : message_text
}.

(** [generate_recommendations(reading, forecast_surplus_kwh)]; [utc_hour]
    is [datetime.now(timezone.utc).hour].  A missing key raises, and so
    does a comparison or a format of an entry that is not a float, at the
    point where the source evaluates it. *)
Definition generate_recommendations (utc_hour : Z) (reading : payload)
    (forecast_surplus_kwh : float) : option (list recommendation) :=
  soc ← reading !! "battery_soc_pct";
  gen ← reading !! "total_generation_kw";
  load ← reading !! "load_kw";
  grid_import ← reading !! "grid_import_kw";
  recs1 ←
    (battery ← item_float reading "battery_power_kw";
     if 5 <? battery then
       (soc ← as_float soc;
        if soc <? 80
        then Some [ {| action := CHARGE; priority := LOW;
                       message := BatteryCharging battery soc |} ]
        else Some [])
     else Some []);
  recs2 ←
    (soc ← as_float soc;
     if soc <? 20 then
       (grid_import ← as_float grid_import;
        if 5 <? grid_import
        then Some [ {| action := IMPORT; priority := HIGH;
                       message := BatteryCriticallyLow soc grid_import |} ]
        else Some [])
     else Some []);
  recs3 ←
    (if 10 <? forecast_surplus_kwh then
       (soc ← as_float soc;
        if soc <? 60
        then Some [ {| action := CHARGE; priority := MEDIUM;
                       message := SurplusForecast forecast_surplus_kwh |} ]
        else Some [])
     else Some []);
  recs4 ←
    (load ← as_float load;
     gen ← as_float gen;
     if load * 1.3 <? gen then
       (soc ← as_float soc;
        if 85 <? soc then
          (grid_export ← item_float reading "grid_export_kw";
           Some [ {| action := CURTAIL; priority := LOW;
                     message := BatteryFull soc gen load grid_export |} ])
        else Some [])
     else Some []);
  hour_local ← Py.mod_ (Py.of_int utc_hour + 5.5) 24;
  recs5 ←
    (if (14 <=? hour_local) && (hour_local <=? 17) then
       (load ← as_float load;
        if 50 <? load then
          (gen ← as_float gen;
           if gen <? 20
           then Some [ {| action := SHIFT_LOAD; priority := MEDIUM;
                          message := HighPeakLoad |} ]
           else Some [])
        else Some [])
     else Some []);
  let recs := recs1 ++ recs2 ++ recs3 ++ recs4 ++ recs5 in
  match recs with
  | [] =>
      share ← item_float reading "self_consumption_pct";
      Some [ {| action := OPTIMAL; priority := LOW; message := OperatingOptimally share |} ]
  | _ :: _ => Some recs
  end.

End Simulator.

(* ===================================================================== *)
(** ** backend/main.py                                                    *)
(* ===================================================================== *)

Module Main.
Import Optimization Ingestion Simulator.
Local Open Scope float_scope.

(** The request body of [/api/v1/ingest]; [payload_soc_pct] is its
    [battery_soc_pct] field. *)
Record IngestPayload : Type := {
  timestamp_utc : option Z;
  solar_kw : float;
  wind_kw : float;
  load_kw : float;
  payload_soc_pct : float
}.

(** [payload.model_dump()]. *)
Definition model_dump (p : IngestPayload) : payload :=
  list_to_map
    [ ("timestamp_utc", match timestamp_utc p with Some t => VTimestamp t | None => VNone end);
      ("solar_kw", VFloat (solar_kw p));
      ("wind_kw", VFloat (wind_kw p));
      ("load_kw", VFloat (load_kw p));
      ("battery_soc_pct", VFloat (payload_soc_pct p)) ].

(** The state-of-charge update of [ingest_data], with the elapsed time
    (the literal [5 / 3600]) as an argument. *)
Definition update_soc (delta_t_h : float) (cap_kwh : float)
    (soc battery_pw_kw : float) : option float :=
  let kwh_change := battery_pw_kw * delta_t_h in
  q ← truediv kwh_change cap_kwh;
  let soc := soc + q * 100 in
  Some (Py.max2 0.0 (Py.min2 100.0 soc)).

(** [ingest_data(payload)] up to the point where the reading is stored:
    the new sensor state and the reading. *)
Definition ingest_data (env : ambient) (hw : hardware) (cfg : OptimizationConfig)
    (utcnow : Z) (sensor_state : SensorState) (p : IngestPayload)
    : option (SensorState * payload) :=
  let raw_payload := model_dump p in
  reading ← process_sensor_payload utcnow raw_payload None;
  solar ← item_float reading "solar_kw";
  wind ← item_float reading "wind_kw";
  load ← item_float reading "load_kw";
  let opt_result :=
    optimize_power_flow env solar wind load (battery_soc_pct sensor_state)
      (BATTERY_CAP_KWH hw) (BATTERY_MAX_KW hw) 0.0
      (mode cfg) (manual_override_kw cfg) in
  let reading := <["battery_power_kw" := VFloat (battery_power_kw opt_result)]> reading in
  let reading := <["grid_import_kw" := VFloat (grid_import_kw opt_result)]> reading in
  let reading := <["grid_export_kw" := VFloat (grid_export_kw opt_result)]> reading in
  let reading := <["active_strategy" := VStrategy (strategy opt_result)]> reading in
  soc ← update_soc (5 / 3600) (BATTERY_CAP_KWH hw) (battery_soc_pct sensor_state)
          (battery_power_kw opt_result);
  let sensor_state := {| battery_soc_pct := soc; last_ts := last_ts sensor_state |} in
  let reading := <["battery_soc_pct" := VFloat (Py.round soc 1)]> reading in
  solar ← item_float reading "solar_kw";
  wind ← item_float reading "wind_kw";
  let total_gen := solar + wind in
  let reading := <["total_generation_kw" := VFloat total_gen]> reading in
  load ← item_float reading "load_kw";
  q ← truediv total_gen (Py.max2 1 load);
  let reading := <["self_consumption_pct" := VFloat (Py.round (Py.min2 100.0 (q * 100)) 1)]> reading in
  Some (sensor_state, reading).

(** What [tick()] computes: the new sensor state, the reading and the
    recommendations.  The cloud-cover request before them and the database
    and WebSocket steps around them are left out.  The arguments after
    [cfg] are what [generate_reading], [process_sensor_payload] and
    [generate_recommendations] read from the clock and the random
    generator. *)
Definition tick (env : ambient) (hw : hardware) (cfg : OptimizationConfig)
    (now utcnow utc_hour : Z)
    (solar_factor wind_factor load_profile_kw surplus_3h : float)
    (sensor_state : SensorState)
    : option (SensorState * payload * list recommendation) :=
  match generate_reading env hw cfg now solar_factor wind_factor load_profile_kw
          surplus_3h sensor_state with
  | Some (sensor_state, raw_reading) =>
      reading ← process_sensor_payload utcnow raw_reading None;
      let surplus := 0.0 in
      recs ← generate_recommendations utc_hour reading surplus;
      Some (sensor_state, reading, recs)
  | None => None
  end.

(** What [ingest_data(payload)] computes, the recommendations included;
    the database and WebSocket steps are left out. *)
Definition ingest_data_recommendations (env : ambient) (hw : hardware)
    (cfg : OptimizationConfig) (utcnow utc_hour : Z) (sensor_state : SensorState)
    (p : IngestPayload) : option (SensorState * payload * list recommendation) :=
  match ingest_data env hw cfg utcnow sensor_state p with
  | Some (sensor_state, reading) =>
      recs ← generate_recommendations utc_hour reading 0.0;
      Some (sensor_state, reading, recs)
  | None => None
  end.

(** [tick()] in a process whose clock shows the local hour [hour] and
    whose environment holds [s] under GRID_MAX_EXPORT_KW: the reads of
    [optimize_power_flow], which [generate_reading] calls first among the
    steps that can raise, and then the computation on what was read. *)
Definition tick_run (hour : Z) (s : setting) (hw : hardware) (cfg : OptimizationConfig)
    (now utcnow utc_hour : Z)
    (solar_factor wind_factor load_profile_kw surplus_3h : float)
    (sensor_state : SensorState)
    : option (SensorState * payload * list recommendation) :=
  env ← read_ambient (mode cfg) hour s;
  tick env hw cfg now utcnow utc_hour solar_factor wind_factor load_profile_kw
    surplus_3h sensor_state.

(** [ingest_data(payload)] in such a process.  The normalisation that
    precedes the call of [optimize_power_flow] never raises on the dump of
    an [IngestPayload]. *)
Definition ingest_data_run (hour : Z) (s : setting) (hw : hardware)
    (cfg : OptimizationConfig) (utcnow utc_hour : Z) (sensor_state : SensorState)
    (p : IngestPayload) : option (SensorState * payload * list recommendation) :=
  env ← read_ambient (mode cfg) hour s;
  ingest_data_recommendations env hw cfg utcnow utc_hour sensor_state p.

End Main.

(* ===================================================================== *)
(** ** backend/engine/ingestion.py                                        *)
(* ===================================================================== *)

Module Engine.
Local Open Scope float_scope.

Definition WINDOW_SIZE : nat := 720.
Definition ANOMALY_SIGMA : float := 3.0.

(** [timedelta(minutes=AGGREGATE_MINUTES)], in microseconds, the unit in
    which timestamps are counted. *)
Definition AGGREGATE_MINUTES : Z := 5.
Definition aggregate_delta : Z := AGGREGATE_MINUTES * 60 * 1000000.

(** A reading handed to the pipeline: a dict whose entries are floats or
    [None]. *)
Abbreviation reading := (gmap string (option float)).

Inductive severity_level : Type := HIGH | MEDIUM.

Record AnomalyFlag : Type := {
  field : string;
  value : float;
  mean : float;
  sigma : float;
  severity : severity_level
}.

(** [AnomalyFlag.__init__]. *)
Definition mkAnomalyFlag (field : string) (value mean sigma : float) : AnomalyFlag :=
  {| field := field; value := value; mean := mean; sigma := sigma;
     severity := if ANOMALY_SIGMA * 2 * sigma <? abs (value - mean) then HIGH else MEDIUM |}.

Definition NUMERIC_FIELDS : list string :=
  [ "solar_kw"; "wind_kw"; "total_generation_kw";
    "load_kw"; "battery_soc_pct"; "battery_power_kw";
    "grid_import_kw"; "grid_export_kw";
    "self_consumption_pct"; "co2_saved_kg"; "cost_saved_inr" ]%string.

(** The fields [_detect_anomalies] monitors. *)
Definition MONITORED_FIELDS : list string :=
  [ "solar_kw"; "wind_kw"; "load_kw"; "grid_import_kw" ]%string.

(** One aggregate bin: the ["timestamp"] entry and the numeric entries. *)
Record aggregate : Type := {
  timestamp : Z;
  averages : gmap string float
}.

(** [deque(maxlen=n).append(x)]: the item is appended on the right and,
    when the length then exceeds [maxlen], the leftmost item is dropped. *)
Definition deque_append {A : Type} (maxlen : nat) (d : list A) (x : A) : list A :=
  let d' := d ++ [x] in
  if (maxlen <? length d')%nat then tail d' else d'.

Record IngestionPipeline : Type := {
  maxlen : nat;
  _window : list reading;
  _agg_buf : list reading;
  _aggs : list aggregate;
  _agg_cutoff : option Z
}.

(** [IngestionPipeline(window)]. *)
Definition init (window : nat) : IngestionPipeline :=
  {| maxlen := window; _window := []; _agg_buf := []; _aggs := []; _agg_cutoff := None |}.

(** [[r[field] for r in rs if field in r and r[field] is not None]]. *)
Definition present_values (field : string) (rs : list reading) : list float :=
  omap (fun r : reading => mjoin (r !! field)) rs.

(** [[r[field] for r in rs if field in r]]. *)
Definition field_values (field : string) (rs : list reading) : list (option float) :=
  omap (fun r : reading => r !! field) rs.

(** The value stored for one field of a bin:
    [round(statistics.mean(values), 3) if values else 0.0]. *)
Definition bin_average (field : string) (rs : list reading) : option float :=
  match present_values field rs with
  | [] => Some 0.0
  | values => m ← Py.mean values; Some (Py.round m 3)
  end.

(** [_flush_aggregate(bin_ts)]; [None] when a statistic raises. *)
Definition _flush_aggregate (bin_ts : Z) (p : IngestionPipeline) : option IngestionPipeline :=
  match _agg_buf p with
  | [] => Some p
  | _ =>
      entries ← mapM (fun f => v ← bin_average f (_agg_buf p); Some (f, v)) NUMERIC_FIELDS;
      let agg := {| timestamp := bin_ts; averages := list_to_map entries |} in
      Some {| maxlen := maxlen p; _window := _window p; _agg_buf := _agg_buf p;
              _aggs := deque_append 288 (_aggs p) agg; _agg_cutoff := _agg_cutoff p |}
  end.

(** One turn of the loop of [_detect_anomalies]: the flags the field adds
    (none or one); [None] when the turn raises (a [None] among the values
    or as the reading's value, or a statistic that fails). *)
Definition check_field (window : list reading) (r : reading) (f : string)
    : option (list AnomalyFlag) :=
  let values := field_values f window in
  if (length values <? 10)%nat then Some []
  else
    floats ← mapM id values;
    mu ← Py.mean floats;
    sigma ← (if (1 <? length values)%nat then Py.stdev floats else Some 0.0);
    if sigma <? 0.1 then Some []
    else
      val ← default (Some 0.0) (r !! f);
      if ANOMALY_SIGMA * sigma <? abs (val - mu)
      then Some [mkAnomalyFlag f val mu sigma]
      else Some [].

(** [_detect_anomalies(reading)] over the current window. *)
Definition _detect_anomalies (window : list reading) (r : reading)
    : option (list AnomalyFlag) :=
  if (length window <? 30)%nat then Some []
  else
    flags ← mapM (check_field window r) MONITORED_FIELDS;
    Some (List.concat flags).

(** [ingest(reading)], with [ts], the value of [datetime.now(timezone.utc)],
    as an input.  The result is the pipeline after the call and the flags
    returned, [None] when the call raises (the pipeline is then as the
    statements run so far left it). *)
Definition ingest (ts : Z) (r : reading) (p : IngestionPipeline)
    : IngestionPipeline * option (list AnomalyFlag) :=
  let cutoff := default (ts + aggregate_delta)%Z (_agg_cutoff p) in
  let p1 :=
    {| maxlen := maxlen p;
       _window := deque_append (maxlen p) (_window p) r;
       _agg_buf := _agg_buf p ++ [r];
       _aggs := _aggs p;
       _agg_cutoff := Some cutoff |} in
  if (cutoff <=? ts)%Z then
    match _flush_aggregate cutoff p1 with
    | Some p2 =>
        let p3 :=
          {| maxlen := maxlen p2; _window := _window p2; _agg_buf := [];
             _aggs := _aggs p2; _agg_cutoff := Some (ts + aggregate_delta)%Z |} in
        (p3, _detect_anomalies (_window p3) r)
    | None => (p1, None)
    end
  else (p1, _detect_anomalies (_window p1) r).

(** Python's [items[start:]]. *)
Definition slice_from {A : Type} (start : Z) (items : list A) : list A :=
  let len := Z.of_nat (length items) in
  let start :=
    if (start <? 0)%Z then Z.max 0 (start + len) else Z.min start len in
  drop (Z.to_nat start) items.

(** [recent(n)]: [items[-n:]] on a copy of the window. *)
Definition recent (n : Z) (p : IngestionPipeline) : list reading :=
  slice_from (- n) (_window p).

(** [aggregates(n)]. *)
Definition aggregates (n : Z) (p : IngestionPipeline) : list aggregate :=
  slice_from (- n) (_aggs p).

(** The pipeline after a sequence of [ingest] calls, given with their
    clock readings. *)
Definition ingest_all (calls : list (Z * reading)) (p : IngestionPipeline)
    : IngestionPipeline :=
  fold_left (fun p c => fst (ingest (fst c) (snd c) p)) calls p.

(** The dict [rolling_stats] builds for one field: its entries ["mean"],
    ["std"], ["min"], ["max"], ["current"] and ["n"]. *)
Record FieldStats : Type := {
  stats_mean : float;
  stats_std : float;
  stats_min : float;
  stats_max : float;
  stats_current : float;
  stats_n : nat
}.

(** One turn of the loop of [rolling_stats]: [Some None] is the empty
    dict stored for a field without values, [None] a statistic that
    raises. *)
Definition field_stats (f : string) (snap : list reading) : option (option FieldStats) :=
  let values := present_values f snap in
  match values with
  | [] => Some None
  | _ :: _ =>
      mu ← Py.mean values;
      std ← (if (1 <? length values)%nat then Py.stdev values else Some 0.0);
      lo ← Py.min_list values;
      hi ← Py.max_list values;
      current ← last values;
      Some (Some {| stats_mean := Py.round mu 3;
                    stats_std := Py.round std 3;
                    stats_min := Py.round lo 3;
                    stats_max := Py.round hi 3;
                    stats_current := Py.round current 3;
                    stats_n := length values |})
  end.

(** [rolling_stats()]. *)
Definition rolling_stats (p : IngestionPipeline)
    : option (gmap string (option FieldStats)) :=
  entries ← mapM (fun f => s ← field_stats f (_window p); Some (f, s)) NUMERIC_FIELDS;
  Some (list_to_map entries).

End Engine.

(* ===================================================================== *)
(** ** Predicates used in the statements, and sample data                 *)
(* ===================================================================== *)

Module Props.
Import Optimization Engine.
Local Open Scope float_scope.

(** A float is strictly positive exactly when it is a positive finite
    number or plus infinity. *)
Definition SFpositive (x : spec_float) : bool :=
  match x with
  | S754_infinity false | S754_finite false _ _ => true
  | _ => false
  end.

(** Plus zero, a positive finite float or plus infinity. *)
Definition SFnonnegative (x : spec_float) : bool :=
  match x with
  | S754_zero false | S754_infinity false | S754_finite false _ _ => true
  | _ => false
  end.

(** A dispatch runs in AUTO mode for every mode string other than the two
    manual ones. *)
Definition auto_mode (mode : string) : Prop :=
  String.eqb mode "MANUAL_CHARGE" = false /\ String.eqb mode "MANUAL_DISCHARGE" = false.

(** Grid import and grid export both strictly positive. *)
Definition both_positive (grid_import grid_export : float) : bool :=
  (0 <? grid_import) && (0 <? grid_export).

(** [lo <= x <= hi] as Python evaluates it on floats. *)
Definition within (lo hi x : float) : bool := (lo <=? x) && (x <=? hi).

(** The float nearest to [n] hundredths lies in [5, 95]. *)
Definition hundredth_in_band (n : Z) : bool :=
  (5 <=? Py.int_true_div n 100) && (Py.int_true_div n 100 <=? 95).


(** A bin summarises a buffer when, for every numeric field, it holds the
    mean of the field over the readings of the buffer that carry it,
    rounded to 3 decimals, and 0.0 when none does. *)
Definition bin_summarises (buf : list reading) (bin : aggregate) : Prop :=
  forall f, In f NUMERIC_FIELDS ->
    exists v, averages bin !! f = Some v
      /\ ((present_values f buf = [] /\ v = 0.0)
          \/ exists m, Py.mean (present_values f buf) = Some m /\ v = Py.round m 3).







(** A reading whose solar figure is zero. *)
Definition solar_is_zero (r : reading) : Prop := r !! "solar_kw"%string = Some (Some 0.0).

Definition solar_reading (x : float) : reading := {[ "solar_kw"%string := Some x ]}.

(** Two readings in the first five minutes and a third one second after
    the cutoff. *)
Definition straddling_feed : list (Z * reading) :=
  [ (0, solar_reading 1); (60000000, solar_reading 1); (301000000, solar_reading 2) ]%Z.

Definition zero_solar : reading := solar_reading 0.0.

(** Forty zero-valued solar readings, one every five seconds. *)
Definition night_feed : list (Z * reading) :=
  List.map (fun k => (k * 5000000, zero_solar)%Z) (seqZ 0 40).

Definition day_reading (load : float) : reading :=
  {[ "solar_kw"%string := Some 0.0; "load_kw"%string := Some load ]}.

(** Forty readings with a steady load and no sun, then a load spike. *)
Definition steady_window : list reading :=
  List.repeat (day_reading 10) 20 ++ List.repeat (day_reading 11) 20 ++ [day_reading 50].

(** A zero of either sign, a negative finite float or minus infinity. *)
Definition SFnonpositive (x : spec_float) : bool :=
  match x with
  | S754_zero _ | S754_infinity true | S754_finite true _ _ => true
  | _ => false
  end.

(** A positive finite float. *)
Definition SFpositive_finite (x : spec_float) : bool :=
  match x with
  | S754_finite false _ _ => true
  | _ => false
  end.

(** A zero or a finite float: neither NaN nor an infinity. *)
Definition SFfinite (x : spec_float) : bool :=
  match x with
  | S754_zero _ | S754_finite _ _ _ => true
  | _ => false
  end.

(** The numeric keys of a processed reading, in the order in which
    [process_sensor_payload] writes them. *)
Definition numeric_keys : list string :=
  [ "solar_kw"; "wind_kw"; "total_generation_kw"; "load_kw"; "battery_soc_pct";
    "battery_power_kw"; "grid_import_kw"; "grid_export_kw"; "self_consumption_pct";
    "co2_saved_kg"; "cost_saved_inr" ]%string.

(** What [process_sensor_payload] stores under ["active_strategy"] for a
    payload: the string of the payload's entry when that entry is true,
    nothing otherwise. *)
Definition stored_strategy (raw : Ingestion.payload) : option Ingestion.value :=
  let strategy := default Ingestion.VNone (raw !! "active_strategy"%string) in
  if Ingestion.truthy strategy then Some (Ingestion.str strategy) else None.

(** The keys whose values [process_sensor_payload] floors at zero, and
    those it clamps to the range 0 to 100. *)
Definition floored_keys : list string :=
  [ "solar_kw"; "wind_kw"; "total_generation_kw"; "load_kw";
    "grid_import_kw"; "grid_export_kw" ]%string.

Definition percent_keys : list string :=
  [ "battery_soc_pct"; "self_consumption_pct" ]%string.

(** Whether, for the UTC hour [h], the test [14 <= (h + 5.5) % 24 <= 17]
    gives the same answer as [9 <= h <= 11]. *)
Definition shift_window_agrees (h : Z) : bool :=
  match Py.mod_ (Py.of_int h + 5.5) 24 with
  | Some hour_local =>
      Bool.eqb ((14 <=? hour_local) && (hour_local <=? 17)) ((9 <=? h) && (h <=? 11))%Z
  | None => false
  end.

(** An entry written by one of the first four rules of
    [generate_recommendations]: its action is CHARGE, IMPORT or CURTAIL,
    and it is the forecast entry only when the forecast surplus exceeds
    10 kWh. *)
Definition early_rule (forecast : float) (rec : Simulator.recommendation) : Prop :=
  (Simulator.action rec = Simulator.CHARGE \/ Simulator.action rec = Simulator.IMPORT
   \/ Simulator.action rec = Simulator.CURTAIL)
  /\ (forall s, Simulator.message rec = Simulator.SurplusForecast s ->
                (10 <? forecast) = true).

(** Successive timestamps lie at least one aggregation period apart. *)
Fixpoint spaced (stamps : list Z) : Prop :=
  match stamps with
  | a :: (b :: _) as rest => (a + aggregate_delta <= b)%Z /\ spaced rest
  | _ => True
  end.

(** The bins of a pipeline are spaced, and each of them lies at least one
    period before the current cutoff. *)
Definition bins_in_order (p : IngestionPipeline) : Prop :=
  spaced (List.map timestamp (_aggs p))
  /\ match _agg_cutoff p with
     | Some cutoff => Forall (fun bin => (timestamp bin + aggregate_delta <= cutoff)%Z) (_aggs p)
     | None => _aggs p = []
     end.

(** Twenty-nine zero-valued solar readings, one every five seconds, and a
    reading whose solar entry is [None]. *)
Definition warm_feed : list (Z * reading) :=
  List.map (fun k => (k * 5000000, zero_solar)%Z) (seqZ 0 29).

Definition unset_solar : reading := {[ "solar_kw"%string := None ]}.

(** The standard deviation that [rolling_stats] computes for a field
    raises: the window holds two or more values for the field and
    [statistics.stdev] fails on them, because one of them is a NaN or an
    infinity or because their deviation is beyond the float range. *)
Definition stdev_fails (f : string) (window : list reading) : Prop :=
  (1 < length (present_values f window))%nat
  /\ Py.stdev (present_values f window) = None.

(** The largest float and its opposite as two solar readings, a few
    seconds apart. *)
Definition extreme_feed : list (Z * reading) :=
  [ (0, solar_reading 0x1.fffffffffffffp+1023);
    (5000000, solar_reading (-0x1.fffffffffffffp+1023)) ]%Z.

(** Whether, at the clock time [hm] (hour, minute), the load profile
    without noise lies between 15 and 58 kW. *)
Definition profile_in_band (hm : Z * Z) : bool :=
  match Forecast._load_profile_kw (Simulator.hour_utc (fst hm) (snd hm)) 0 with
  | Some v => within 15 58 v
  | None => false
  end.

End Props.
Import Props.

(* ===================================================================== *)
(** ** The builtins on values documented for CPython                      *)
(* ===================================================================== *)

Section Builtins.
Local Open Scope float_scope.

(** [round(2.675, 2)] is [2.67] (the float 2.675 lies just below the
    tie), [round(0.125, 2)] is [0.12] (an exact tie goes to the even
    digit), and a negative value that rounds to zero keeps its sign. *)
Example round_documented_values :
  Py.round 2.675 2 = 2.67 /\ Py.round 0.125 2 = 0.12 /\ Py.round 0.375 2 = 0.38
  /\ Py.round (-0.001) 2 = (-0) /\ Py.round 10.26 1 = 10.3
  /\ Py.round infinity 2 = infinity.
Proof. vm_compute. repeat split; reflexivity. Qed.

(** The sum is formed exactly before the single rounding of the mean:
    [mean([0.1, 0.2, 0.3])] is [0.2], although [0.1 + 0.2 + 0.3] is not
    [0.6] in binary64. *)
Example mean_is_exact :
  Py.mean [0.1; 0.2; 0.3] = Some 0.2
  /\ (0.1 + 0.2 + 0.3 =? 0.6) = false
  /\ Py.mean [] = None.
Proof. vm_compute. repeat split; reflexivity. Qed.

(** The example of the [statistics.stdev] docstring. *)
Example stdev_documented_value :
  Py.stdev [1.5; 2.5; 2.5; 2.75; 3.25; 4.75] = Some 1.0810874155219827
  /\ Py.stdev [1.5] = None.
Proof. vm_compute. repeat split; reflexivity. Qed.

(** [max] and [min] drop a NaN that is not their first argument. *)
Example min_max_on_nan :
  Py.max2 0 nan = 0 /\ Py.min2 95 nan = 95 /\ Py.max2 5 (Py.min2 95 infinity) = 95.
Proof. vm_compute. repeat split; reflexivity. Qed.

End Builtins.

(* ===================================================================== *)
(** ** Facts about binary64 comparisons and arithmetic                    *)
(* ===================================================================== *)

Section FloatFacts.
Local Open Scope float_scope.

Lemma ltb_zero_positive (x : float) : (0 <? x) = SFpositive (Prim2SF x).
Proof.
  rewrite ltb_spec. change (Prim2SF 0) with (S754_zero false).
  destruct (Prim2SF x) as [s|s| |s m e]; try destruct s; reflexivity.
Qed.

Lemma compare_cont_Z (a b : positive) :
  PosDef.Pos.compare_cont Eq a b = Z.compare (Zpos a) (Zpos b).
Proof. reflexivity. Qed.

Lemma SFcompare_refl (x : spec_float) :
  SFcompare x x = None \/ SFcompare x x = Some Eq.
Proof.
  destruct x as [s|s| |s m e]; simpl; auto.
  - destruct s; auto.
  - rewrite Z.compare_refl.
    change (PosDef.Pos.compare_cont Eq m m) with (Pos.compare m m).
    rewrite Pos.compare_refl. destruct s; auto.
Qed.

Lemma ltb_irrefl (x : float) : (x <? x) = false.
Proof.
  rewrite ltb_spec. unfold SFltb.
  destruct (SFcompare_refl (Prim2SF x)) as [-> | ->]; reflexivity.
Qed.

Lemma ltb_leb (x y : float) : (x <? y) = true -> (x <=? y) = true.
Proof.
  rewrite ltb_spec, leb_spec. unfold SFltb, SFleb.
  destruct (SFcompare (Prim2SF x) (Prim2SF y)) as [[ | | ]|]; congruence.
Qed.

Lemma opp_positive (x : float) : (0 <? - x) = true -> (0 <? x) = false.
Proof.
  rewrite !ltb_zero_positive, opp_spec.
  destruct (Prim2SF x) as [s|s| |s m e]; try destruct s; simpl; congruence.
Qed.

(** The sign given to [binary_round_aux] is the sign of its result. *)
Lemma binary_round_aux_positive (sx : bool) (mx ex : Z) (lx : location) :
  SFpositive (binary_round_aux prec emax sx mx ex lx) = true -> sx = false.
Proof.
  unfold binary_round_aux.
  destruct (shr_fexp prec emax mx ex lx) as [mrs' e'].
  destruct (shr_fexp prec emax _ e' loc_Exact) as [mrs'' e''].
  destruct (shr_m mrs''); [ | destruct (Z.leb _ _) | ]; destruct sx; simpl; congruence.
Qed.

Lemma binary_normalize_positive (m e : Z) (szero : bool) :
  SFpositive (binary_normalize prec emax m e szero) = true -> (0 < m)%Z.
Proof.
  destruct m as [|p|p]; simpl.
  - destruct szero; discriminate.
  - lia.
  - unfold binary_round. destruct (shl_align _ _ _) as [mz ez].
    intros H. apply binary_round_aux_positive in H. discriminate.
Qed.

(** [a - b] and [b - a] are never both strictly positive. *)
Lemma SFsub_antisym (x y : spec_float) :
  SFpositive (SFsub prec emax x y) = true -> SFpositive (SFsub prec emax y x) = false.
Proof.
  destruct x as [sx|sx| |sx mx ex], y as [sy|sy| |sy my ey];
    try (simpl; congruence);
    try (destruct sx; try destruct sy; simpl; congruence);
    try (destruct sy; simpl; congruence).
  unfold SFsub. rewrite (Z.min_comm ey ex).
  intros H. apply binary_normalize_positive in H.
  destruct (SFpositive (binary_normalize _ _ _ _ _)) eqn:E; [ | reflexivity ].
  apply binary_normalize_positive in E. lia.
Qed.

Lemma sub_antisym (a b : float) : (0 <? a - b) = true -> (0 <? b - a) = false.
Proof.
  rewrite !ltb_zero_positive, !sub_spec. apply SFsub_antisym.
Qed.

(** Subtracting [0.0] from a strictly positive float changes nothing. *)
Lemma sub_zero_positive (x : float) : (0 <? x) = true -> x - 0 = x.
Proof.
  rewrite ltb_zero_positive. intros H. apply Prim2SF_inj.
  rewrite sub_spec. change (Prim2SF 0) with (S754_zero false).
  destruct (Prim2SF x) as [s|s| |s m e]; try destruct s; try discriminate; reflexivity.
Qed.

Lemma shr_1_nonneg (mrs : shr_record) :
  (0 <= shr_m mrs)%Z -> (0 <= shr_m (shr_1 mrs))%Z.
Proof.
  destruct mrs as [m r s]. destruct m as [|p|p]; try destruct p; simpl; lia.
Qed.

Lemma iter_shr_1_nonneg (p : positive) (mrs : shr_record) :
  (0 <= shr_m mrs)%Z -> (0 <= shr_m (SpecFloat.iter_pos shr_1 p mrs))%Z.
Proof.
  revert mrs. induction p as [p IH|p IH| ]; intros mrs H; simpl.
  - apply IH, IH, shr_1_nonneg, H.
  - apply IH, IH, H.
  - apply shr_1_nonneg, H.
Qed.

Lemma shr_fexp_nonneg (m e : Z) (l : location) :
  (0 <= m)%Z -> (0 <= shr_m (fst (shr_fexp prec emax m e l)))%Z.
Proof.
  intros H. unfold shr_fexp, shr.
  assert (H0 : (0 <= shr_m (shr_record_of_loc m l))%Z)
    by (destruct l as [|[ | | ]]; exact H).
  destruct (_ - e)%Z; simpl; auto using iter_shr_1_nonneg.
Qed.

Lemma binary_round_aux_not_nan (s : bool) (m e : Z) (l : location) :
  (0 <= m)%Z -> binary_round_aux prec emax s m e l <> S754_nan.
Proof.
  intros H. unfold binary_round_aux.
  pose proof (shr_fexp_nonneg m e l H) as H1.
  destruct (shr_fexp prec emax m e l) as [mrs' e']. cbn [fst] in H1.
  assert (H2 : (0 <= round_nearest_even (shr_m mrs') (loc_of_shr_record mrs'))%Z).
  { unfold round_nearest_even.
    destruct (loc_of_shr_record mrs') as [|[ | | ]]; try destruct (Z.even _); lia. }
  pose proof (shr_fexp_nonneg _ e' loc_Exact H2) as H3.
  destruct (shr_fexp prec emax _ e' loc_Exact) as [mrs'' e'']. cbn [fst] in H3.
  destruct (shr_m mrs''); [ | destruct (Z.leb _ _) | lia ]; discriminate.
Qed.

(** The sum of two floats that are each plus zero, positive or plus
    infinity is not NaN. *)
Lemma SFadd_nonnegative_not_nan (x y : spec_float) :
  SFnonnegative x = true -> SFnonnegative y = true ->
  SFadd prec emax x y <> S754_nan.
Proof.
  destruct x as [[|]|[|]| |[|] mx ex], y as [[|]|[|]| |[|] my ey];
    try discriminate; intros _ _; try (simpl; discriminate).
  unfold SFadd, binary_normalize, cond_Zopp.
  destruct (shl_align mx _ _) as [mx' ex'], (shl_align my _ _) as [my' ey'].
  cbn [fst]. change (Z.pos mx' + Z.pos my')%Z with (Z.pos (mx' + my')).
  cbv iota. unfold binary_round.
  match goal with
  | |- context [shl_align ?a ?b ?c] => destruct (shl_align a b c) as [mz ez]
  end.
  apply binary_round_aux_not_nan. lia.
Qed.

Lemma eqb_refl_not_nan (x : float) : Prim2SF x <> S754_nan -> (x =? x) = true.
Proof.
  rewrite FloatAxioms.eqb_spec. unfold SFeqb. intros H.
  destruct (Prim2SF x) as [s|s| |s m e]; simpl; try reflexivity; try (destruct s; reflexivity).
  - contradiction.
  - rewrite Z.compare_refl, compare_cont_Z, Z.compare_refl. destruct s; reflexivity.
Qed.

Lemma max2_zero_nonnegative (x : float) : SFnonnegative (Prim2SF (Py.max2 0 x)) = true.
Proof.
  unfold Py.max2. destruct (0 <? x) eqn:H.
  - rewrite ltb_zero_positive in H.
    destruct (Prim2SF x) as [s|s| |s m e]; try destruct s; try discriminate; reflexivity.
  - reflexivity.
Qed.

(** Python's [==] holds between the sum of two floored figures and
    itself: the sum is never NaN. *)
Lemma floored_sum_eqb (a b : float) :
  (Py.max2 0 a + Py.max2 0 b =? Py.max2 0 a + Py.max2 0 b) = true.
Proof.
  apply eqb_refl_not_nan. rewrite add_spec.
  apply SFadd_nonnegative_not_nan; apply max2_zero_nonnegative.
Qed.

End FloatFacts.


(* ===================================================================== *)
(** ** The dispatch optimizer                                             *)
(* ===================================================================== *)

Section Dispatch.
Import Optimization.
Local Open Scope float_scope.

Lemma round_zero_2 : Py.round 0 2 = 0.
Proof. vm_compute. reflexivity. Qed.

Lemma max2_zero_zero : Py.max2 0 0 = 0.
Proof. vm_compute. reflexivity. Qed.

Lemma max2_zero_positive (x : float) : (0 <? x) = true -> Py.max2 0 x = x.
Proof. unfold Py.max2. intros ->. reflexivity. Qed.

Lemma max2_zero_nonpositive (x : float) : (0 <? x) = false -> Py.max2 0 x = 0.
Proof. unfold Py.max2. intros ->. reflexivity. Qed.

(** C1, as stated, fails: the same arguments give two different results at
    15:00 and at 10:00 local time, because the function reads the clock. *)
Lemma optimize_power_flow_reads_the_clock :
  optimize_power_flow {| local_hour := 15; GRID_MAX_EXPORT_KW := 50 |}
    30 0 0 75 80 20 20 "AUTO" 0
  <> optimize_power_flow {| local_hour := 10; GRID_MAX_EXPORT_KW := 50 |}
    30 0 0 75 80 20 20 "AUTO" 0.
Proof.
  intros H. apply (f_equal strategy) in H. vm_compute in H. discriminate H.
Qed.

(** C1 (amended): two calls with identical arguments return identical
    results as soon as the two things the function reads besides its
    arguments agree, namely whether the local hour lies in the peak band
    and the value of GRID_MAX_EXPORT_KW; in the two manual modes the
    results are identical whatever the clock and the environment. *)
Theorem optimize_power_flow_deterministic (env1 env2 : ambient)
    (solar wind load soc cap max_pw forecast : float) (mode : string) (override : float) :
  (is_peak_pricing_hour env1 = is_peak_pricing_hour env2 ->
   GRID_MAX_EXPORT_KW env1 = GRID_MAX_EXPORT_KW env2 ->
   optimize_power_flow env1 solar wind load soc cap max_pw forecast mode override
   = optimize_power_flow env2 solar wind load soc cap max_pw forecast mode override)
  /\ (mode = "MANUAL_CHARGE"%string \/ mode = "MANUAL_DISCHARGE"%string ->
      optimize_power_flow env1 solar wind load soc cap max_pw forecast mode override
      = optimize_power_flow env2 solar wind load soc cap max_pw forecast mode override).
Proof.
  split.
  - intros Hpeak Hmax. unfold optimize_power_flow. rewrite Hpeak, Hmax. reflexivity.
  - intros [-> | ->]; reflexivity.
Qed.

Lemma optimize_power_flow_deterministic_witness :
  optimize_power_flow {| local_hour := 15; GRID_MAX_EXPORT_KW := 50 |}
    30 0 0 75 80 20 20 "AUTO" 0
  = optimize_power_flow {| local_hour := 17; GRID_MAX_EXPORT_KW := 50 |}
    30 0 0 75 80 20 20 "AUTO" 0.
Proof.
  apply (proj1 (optimize_power_flow_deterministic
                  {| local_hour := 15; GRID_MAX_EXPORT_KW := 50 |}
                  {| local_hour := 17; GRID_MAX_EXPORT_KW := 50 |}
                  30 0 0 75 80 20 20 "AUTO" 0)); reflexivity.
Defined.

(** Two dispatches traced by hand: a 20 kW surplus at 50 % charge is
    absorbed by the battery at its rated 20 kW, and a 20 kW deficit at 3 %
    charge, below the 5 % floor, is imported in full. *)
Example rated_power_limited_charge :
  optimize_power_flow {| local_hour := 10; GRID_MAX_EXPORT_KW := 50 |}
    40 0 20 50 80 20 0 "AUTO" 0
  = {| battery_power_kw := 20; grid_import_kw := 0; grid_export_kw := 0;
       strategy := NORMAL_BALANCING |}.
Proof. vm_compute. reflexivity. Qed.

Example empty_battery_imports :
  optimize_power_flow {| local_hour := 10; GRID_MAX_EXPORT_KW := 50 |}
    10 0 30 3 80 20 0 "AUTO" 0
  = {| battery_power_kw := -0; grid_import_kw := 20; grid_export_kw := 0;
       strategy := NORMAL_BALANCING |}.
Proof. vm_compute. reflexivity. Qed.

(** The AUTO branch taken on a positive surplus, with its intermediate
    values named as in the source. *)
Lemma optimize_power_flow_surplus (env : ambient)
    (solar wind load soc cap max_pw forecast : float) (mode : string) (override : float) :
  auto_mode mode ->
  (0 <? solar + wind - load) = true ->
  let surplus_kw := solar + wind - load in
  let delayed := (15.0 <? forecast) && (70.0 <? soc) && is_peak_pricing_hour env in
  let charge_kw :=
    if delayed then 0.0
    else Py.min3 surplus_kw max_pw ((100.0 - soc) / 100.0 * cap / (5 / 3600)) in
  let battery_pw_kw := Py.round (Py.max2 0.0 charge_kw) 2 in
  let grid_export_kw0 := Py.round (Py.max2 0.0 (surplus_kw - battery_pw_kw)) 2 in
  optimize_power_flow env solar wind load soc cap max_pw forecast mode override
  = if GRID_MAX_EXPORT_KW env <? grid_export_kw0 then
      {| battery_power_kw := battery_pw_kw;
         grid_import_kw := 0.0;
         grid_export_kw := GRID_MAX_EXPORT_KW env;
         strategy := CURTAILING_GEN (Py.round (grid_export_kw0 - GRID_MAX_EXPORT_KW env) 1) |}
    else
      {| battery_power_kw := battery_pw_kw;
         grid_import_kw := 0.0;
         grid_export_kw := grid_export_kw0;
         strategy := if delayed then DELAYED_CHARGE_EXPORTING else NORMAL_BALANCING |}.
Proof.
  intros [Hc Hd] Hs. unfold optimize_power_flow. rewrite Hc, Hd, Hs.
  destruct ((15.0 <? forecast) && (70.0 <? soc) && is_peak_pricing_hour env); reflexivity.
Qed.

(** C5, as stated, fails: with a surplus of 70 kW above the default
    50 kW export ceiling, all the conditions of the delayed-charge branch
    hold, yet the export is 50 kW and the label is the curtailment tag. *)
Lemma delayed_charge_curtailed :
  let env := {| local_hour := 15; GRID_MAX_EXPORT_KW := 50 |} in
  let r := optimize_power_flow env 80 0 10 75 80 20 20 "AUTO" 0 in
  (0 <? 80 + 0 - 10) = true /\ (15 <? 20) = true /\ (70 <? 75) = true
  /\ is_peak_pricing_hour env = true
  /\ grid_export_kw r = 50 /\ grid_export_kw r <> 80 + 0 - 10
  /\ strategy r = CURTAILING_GEN 20 /\ strategy r <> DELAYED_CHARGE_EXPORTING.
Proof.
  vm_compute. repeat split; try reflexivity; intros H; discriminate H.
Qed.

(** C5 (amended): in AUTO mode with a positive surplus, a 3-hour forecast
    above 15 kWh, a state of charge above 70 % and the local hour in the
    peak band (14 to 18), the battery power is 0 kW; when the surplus,
    rounded to 2 decimals, does not exceed the export ceiling it is
    exported in full under the label DELAYED_CHARGE_EXPORTING, and when it
    does exceed the ceiling the export is the ceiling and the label is the
    curtailment tag. *)
Theorem delayed_charge_exporting (env : ambient)
    (solar wind load soc cap max_pw forecast : float) (mode : string) (override : float) :
  auto_mode mode ->
  (0 <? solar + wind - load) = true ->
  (15 <? forecast) = true ->
  (70 <? soc) = true ->
  (14 <= local_hour env <= 18)%Z ->
  let surplus_kw := solar + wind - load in
  let r := optimize_power_flow env solar wind load soc cap max_pw forecast mode override in
  battery_power_kw r = 0
  /\ if GRID_MAX_EXPORT_KW env <? Py.round surplus_kw 2
     then grid_export_kw r = GRID_MAX_EXPORT_KW env
          /\ strategy r
             = CURTAILING_GEN (Py.round (Py.round surplus_kw 2 - GRID_MAX_EXPORT_KW env) 1)
     else grid_export_kw r = Py.round surplus_kw 2
          /\ strategy r = DELAYED_CHARGE_EXPORTING.
Proof.
  intros Hm Hs Hf Hsoc Hh surplus_kw r.
  assert (Hpeak : is_peak_pricing_hour env = true).
  { unfold is_peak_pricing_hour. apply andb_true_intro. split; apply Z.leb_le; lia. }
  subst r. rewrite (optimize_power_flow_surplus env solar wind load soc cap max_pw forecast
                      mode override Hm Hs).
  cbv zeta. rewrite Hf, Hsoc, Hpeak. cbn [andb].
  rewrite max2_zero_zero, round_zero_2.
  fold surplus_kw. rewrite (sub_zero_positive surplus_kw Hs).
  rewrite (max2_zero_positive surplus_kw Hs).
  destruct (GRID_MAX_EXPORT_KW env <? Py.round surplus_kw 2); cbn; auto.
Qed.

Lemma delayed_charge_exporting_witness :
  battery_power_kw
    (optimize_power_flow {| local_hour := 15; GRID_MAX_EXPORT_KW := 50 |}
       30 0 0 75 80 20 20 "AUTO" 0) = 0
  /\ grid_export_kw
       (optimize_power_flow {| local_hour := 15; GRID_MAX_EXPORT_KW := 50 |}
          30 0 0 75 80 20 20 "AUTO" 0) = 30
  /\ strategy
       (optimize_power_flow {| local_hour := 15; GRID_MAX_EXPORT_KW := 50 |}
          30 0 0 75 80 20 20 "AUTO" 0) = DELAYED_CHARGE_EXPORTING.
Proof.
  assert (Hm : auto_mode "AUTO") by (split; reflexivity).
  assert (Hh : (14 <= 15 <= 18)%Z) by lia.
  exact (delayed_charge_exporting {| local_hour := 15; GRID_MAX_EXPORT_KW := 50 |}
           30 0 0 75 80 20 20 "AUTO" 0 Hm eq_refl eq_refl eq_refl Hh).
Defined.

(** C6: in AUTO mode with a positive surplus the returned export is never
    above the export ceiling, and whenever the export computed before the
    cap (the rounded surplus left after the battery decision) is above the
    ceiling, the returned export is the ceiling and the label is the
    curtailment tag built from that export minus the ceiling. *)
Theorem export_capped_and_tagged (env : ambient)
    (solar wind load soc cap max_pw forecast : float) (mode : string) (override : float) :
  auto_mode mode ->
  (0 <? solar + wind - load) = true ->
  let r := optimize_power_flow env solar wind load soc cap max_pw forecast mode override in
  let pre_cap_export :=
    Py.round (Py.max2 0.0 (solar + wind - load - battery_power_kw r)) 2 in
  (GRID_MAX_EXPORT_KW env <? grid_export_kw r) = false
  /\ ((GRID_MAX_EXPORT_KW env <? pre_cap_export) = true ->
      grid_export_kw r = GRID_MAX_EXPORT_KW env
      /\ strategy r = CURTAILING_GEN (Py.round (pre_cap_export - GRID_MAX_EXPORT_KW env) 1)).
Proof.
  intros Hm Hs r pre_cap_export. subst pre_cap_export r.
  rewrite (optimize_power_flow_surplus env solar wind load soc cap max_pw forecast
             mode override Hm Hs).
  cbv zeta.
  match goal with
  | |- context [if GRID_MAX_EXPORT_KW env <? ?e then _ else _] =>
      destruct (GRID_MAX_EXPORT_KW env <? e) eqn:Hcap
  end; cbn [battery_power_kw grid_export_kw strategy].
  - split; [ apply ltb_irrefl | intros _; split; reflexivity ].
  - split; [ exact Hcap | intros H; rewrite Hcap in H; discriminate H ].
Qed.

Lemma export_capped_and_tagged_witness :
  (50 <? grid_export_kw
           (optimize_power_flow {| local_hour := 10; GRID_MAX_EXPORT_KW := 50 |}
              80.26 0 0 95 80 20 0 "AUTO" 0)) = false
  /\ grid_export_kw
       (optimize_power_flow {| local_hour := 10; GRID_MAX_EXPORT_KW := 50 |}
          80.26 0 0 95 80 20 0 "AUTO" 0) = 50
  /\ strategy
       (optimize_power_flow {| local_hour := 10; GRID_MAX_EXPORT_KW := 50 |}
          80.26 0 0 95 80 20 0 "AUTO" 0) = CURTAILING_GEN 10.3.
Proof.
  assert (Hm : auto_mode "AUTO") by (split; reflexivity).
  pose proof (export_capped_and_tagged {| local_hour := 10; GRID_MAX_EXPORT_KW := 50 |}
                80.26 0 0 95 80 20 0 "AUTO" 0 Hm eq_refl) as [H1 H2].
  split; [ exact H1 | exact (H2 eq_refl) ].
Defined.

(** No dispatch result, in any mode, imports and exports at once. *)
Lemma dispatch_never_both_positive (env : ambient)
    (solar wind load soc cap max_pw forecast : float) (mode : string) (override : float) :
  let r := optimize_power_flow env solar wind load soc cap max_pw forecast mode override in
  both_positive (grid_import_kw r) (grid_export_kw r) = false.
Proof.
  unfold both_positive, optimize_power_flow.
  destruct (String.eqb mode "MANUAL_CHARGE"); [ | destruct (String.eqb mode "MANUAL_DISCHARGE") ].
  - cbn [grid_import_kw grid_export_kw].
    match goal with |- context [Py.max2 0.0 (?a - ?s)] =>
      destruct (0 <? a - s) eqn:E;
      [ apply sub_antisym in E; rewrite (max2_zero_nonpositive _ E), round_zero_2;
        apply andb_false_r
      | rewrite (max2_zero_nonpositive _ E), round_zero_2; reflexivity ]
    end.
  - cbn [grid_import_kw grid_export_kw].
    match goal with |- context [Py.max2 0.0 (- ?t)] =>
      destruct (0 <? - t) eqn:E;
      [ apply opp_positive in E; rewrite (max2_zero_nonpositive _ E), round_zero_2;
        apply andb_false_r
      | rewrite (max2_zero_nonpositive _ E), round_zero_2; reflexivity ]
    end.
  - destruct (0 <? solar + wind - load).
    + destruct (_ && _ && _); destruct (GRID_MAX_EXPORT_KW env <? _); reflexivity.
    + destruct (_ && _ && _); cbn [grid_import_kw grid_export_kw]; apply andb_false_r.
Qed.

End Dispatch.

(* ===================================================================== *)
(** ** Rounding to two decimals inside the band [5, 95]                   *)
(* ===================================================================== *)

Section RoundBand.
Local Open Scope float_scope.

Lemma digits2_pos_size (m : positive) : digits2_pos m = Pos.size m.
Proof. induction m as [m IH|m IH| ]; simpl; congruence. Qed.

(** A valid binary64 mantissa above the subnormal range has 53 bits. *)
Lemma normal_mantissa_bounds (s : bool) (m : positive) (e : Z) :
  valid_binary (S754_finite s m e) = true ->
  (-1074 < e)%Z ->
  (4503599627370496 <= Zpos m < 9007199254740992)%Z.
Proof.
  unfold SpecFloat.valid_binary, bounded, canonical_mantissa, fexp, SpecFloat.emin.
  rewrite digits2_pos_size. change prec with 53%Z. change emax with 1024%Z.
  intros H He. apply andb_prop in H as [H _]. apply Z.eqb_eq in H.
  assert (Hs : Pos.size m = 53%positive) by lia.
  pose proof (Pos.size_gt m) as Hgt. pose proof (Pos.size_le m) as Hle.
  rewrite Hs in Hgt, Hle.
  assert (E : (2 ^ 53)%positive = 9007199254740992%positive) by (vm_compute; reflexivity).
  rewrite E in Hgt, Hle. clear E H Hs He.
  apply Pos2Z.pos_lt_pos in Hgt. apply Pos2Z.pos_le_pos in Hle.
  rewrite Pos2Z.inj_xO in Hle. lia.
Qed.
(** Rounding a rational that lies between two integers stays between
    them. *)
Lemma round_half_even_bounds (num : Z) (d : positive) (a b : Z) :
  (a * Zpos d <= num <= b * Zpos d)%Z ->
  (a <= Py.round_half_even (Qmake num d) <= b)%Z.
Proof.
  intros H. unfold Py.round_half_even. cbn [Qnum Qden].
  pose proof (Z.div_mod num (Zpos d) ltac:(lia)) as Hdm.
  pose proof (Z.mod_pos_bound num (Zpos d) ltac:(lia)) as Hr.
  set (fl := (num / Zpos d)%Z) in *. set (r := (num mod Zpos d)%Z) in *.
  assert (Hfl : (a <= fl)%Z) by nia.
  assert (Hfb : (fl < b \/ (fl = b /\ r = 0))%Z) by nia.
  destruct (Z.compare_spec (2 * r) (Zpos d)) as [E|E|E]; [ destruct (Z.even fl) | | ]; lia.
Qed.

(** For every count of hundredths from 500 to 9500, the float nearest to
    it lies in [5, 95]. *)
Lemma hundredths_in_band (n : Z) :
  (500 <= n <= 9500)%Z -> hundredth_in_band n = true.
Proof.
  intros H.
  assert (Hall : forallb hundredth_in_band (seqZ 500 9001) = true)
    by (vm_compute; reflexivity).
  rewrite forallb_forall in Hall. apply Hall.
  apply list_elem_of_In, elem_of_seqZ. lia.
Qed.

(** [round(x, 2)] keeps a float of the band [5, 95] inside the band. *)
Lemma round_2_band (x : float) :
  (5 <=? x) = true -> (x <=? 95) = true ->
  (5 <=? Py.round x 2) = true /\ (Py.round x 2 <=? 95) = true.
Proof.
  intros H5 H95.
  pose proof (Prim2SF_valid x) as Hv.
  rewrite leb_spec in H5, H95.
  unfold Py.round, Py.exact_ratio, Py.sign_bit.
  assert (E5 : Prim2SF 5 = S754_finite false 5629499534213120 (-50))
    by (vm_compute; reflexivity).
  assert (E95 : Prim2SF 95 = S754_finite false 6685030696878080 (-46))
    by (vm_compute; reflexivity).
  rewrite E5 in H5. rewrite E95 in H95. clear E5 E95.
  destruct (Prim2SF x) as [s|s| |s m e]; try discriminate; try (destruct s; discriminate).
  destruct s; [ discriminate | ].
  unfold SFleb, SFcompare in H5, H95.
  rewrite compare_cont_Z in H5, H95.
  assert (Hlo : (-50 < e \/ (e = -50 /\ 5629499534213120 <= Zpos m))%Z).
  { destruct (Z.compare_spec (-50) e) as [E|E|E]; [ | lia | discriminate ].
    destruct (Z.compare_spec 5629499534213120 (Zpos m)); [ lia | lia | discriminate ]. }
  assert (Hhi : (e < -46 \/ (e = -46 /\ Zpos m <= 6685030696878080))%Z).
  { destruct (Z.compare_spec e (-46)) as [E|E|E]; [ | lia | discriminate ].
    destruct (Z.compare_spec (Zpos m) 6685030696878080); [ lia | lia | discriminate ]. }
  clear H5 H95.
  pose proof (normal_mantissa_bounds false m e Hv ltac:(lia)) as Hm.
  change (Z.to_pos (10 ^ Z.of_nat 2)) with 100%positive.
  assert (Hn : (500 <= Py.round_half_even (Qmult (Py.dyadic (Zpos m) e) (Qmake 100 1)) <= 9500)%Z).
  { assert (He : (e = -50 \/ e = -49 \/ e = -48 \/ e = -47 \/ e = -46)%Z) by lia.
    destruct He as [-> | [-> | [-> | [-> | ->]]]];
      unfold Py.dyadic, Qmult; cbn [Qnum Qden]; rewrite Pos.mul_1_r;
      apply round_half_even_bounds;
      match goal with |- context [Zpos (Pos.shiftl 1 ?k)] =>
        let v := eval vm_compute in (Pos.shiftl 1 k) in change (Pos.shiftl 1 k) with v
      end; lia. }
  pose proof (hundredths_in_band _ Hn) as Hb.
  unfold hundredth_in_band in Hb. apply andb_prop in Hb.
  destruct (Py.round_half_even _) as [|p|p]; [ lia | exact Hb | lia ].
Qed.

End RoundBand.

(* ===================================================================== *)
(** ** Payload normalisation and the ingest path                          *)
(* ===================================================================== *)

Section Normalisation.
Import Optimization Ingestion Simulator Main.
Local Open Scope float_scope.

(** The reading [process_sensor_payload] builds from the dump of an
    [IngestPayload]: the fields the payload lacks take their defaults, the
    total generation among them. *)
Lemma process_model_dump (utcnow : Z) (p : IngestPayload) :
  process_sensor_payload utcnow (model_dump p) None
  = Some (list_to_map
      [ ("timestamp_utc",
         match timestamp_utc p with Some t => VTimestamp t | None => VNone end);
        ("solar_kw", VFloat (Py.max2 0.0 (solar_kw p)));
        ("wind_kw", VFloat (Py.max2 0.0 (wind_kw p)));
        ("total_generation_kw", VFloat (Py.max2 0.0 0.0));
        ("load_kw", VFloat (Py.max2 0.0 (load_kw p)));
        ("battery_soc_pct", VFloat (Py.max2 0.0 (Py.min2 100.0 (payload_soc_pct p))));
        ("battery_power_kw", VFloat 0.0);
        ("grid_import_kw", VFloat (Py.max2 0.0 0.0));
        ("grid_export_kw", VFloat (Py.max2 0.0 0.0));
        ("self_consumption_pct", VFloat (Py.max2 0.0 (Py.min2 100.0 0.0)));
        ("co2_saved_kg", VFloat 0.0);
        ("cost_saved_inr", VFloat 0.0) ]).
Proof.
  unfold process_sensor_payload, get_float, model_dump.
  cbn [list_to_map foldr]. simplify_map_eq. reflexivity.
Qed.

Lemma one_lt_nonzero (x : float) : (1 <? x) = true -> (x =? 0) = false.
Proof.
  rewrite ltb_spec, FloatAxioms.eqb_spec.
  assert (E1 : Prim2SF 1 = S754_finite false 4503599627370496 (-52))
    by (vm_compute; reflexivity).
  rewrite E1. change (Prim2SF 0) with (S754_zero false).
  destruct (Prim2SF x) as [s|s| |s m e]; try destruct s; simpl;
    intros H; try reflexivity; discriminate H.
Qed.

Lemma max2_one_nonzero (x : float) : (Py.max2 1 x =? 0) = false.
Proof.
  unfold Py.max2. destruct (1 <? x) eqn:H; [ apply one_lt_nonzero, H | reflexivity ].
Qed.

Lemma item_float_insert (m : payload) (k : string) (v : float) :
  item_float (<[k := VFloat v]> m) k = Some v.
Proof. unfold item_float. rewrite lookup_insert_eq. reflexivity. Qed.

Lemma item_float_insert_ne (m : payload) (k k' : string) (v : value) :
  k' <> k -> item_float (<[k' := v]> m) k = item_float m k.
Proof. intros H. unfold item_float. rewrite lookup_insert_ne by exact H. reflexivity. Qed.


Lemma process_model_dump_items (utcnow : Z) (p : IngestPayload) :
  exists r0,
    process_sensor_payload utcnow (model_dump p) None = Some r0
    /\ item_float r0 "solar_kw" = Some (Py.max2 0.0 (solar_kw p))
    /\ item_float r0 "wind_kw" = Some (Py.max2 0.0 (wind_kw p))
    /\ item_float r0 "load_kw" = Some (Py.max2 0.0 (load_kw p))
    /\ item_float r0 "total_generation_kw" = Some (Py.max2 0.0 0.0).
Proof.
  eexists. split; [ apply process_model_dump | ].
  unfold item_float. cbn [list_to_map foldr]. simplify_map_eq. repeat split; reflexivity.
Qed.

Ltac item_float_lookup :=
  repeat first
    [ rewrite item_float_insert
    | rewrite item_float_insert_ne by discriminate ].

(** What [ingest_data] returns when the battery capacity is not zero. *)
Lemma ingest_data_returns (env : ambient) (hw : hardware) (cfg : OptimizationConfig)
    (utcnow : Z) (st : SensorState) (p : IngestPayload) :
  (BATTERY_CAP_KWH hw =? 0) = false ->
  let solar := Py.max2 0.0 (solar_kw p) in
  let wind := Py.max2 0.0 (wind_kw p) in
  let load := Py.max2 0.0 (load_kw p) in
  let opt_result :=
    optimize_power_flow env solar wind load (battery_soc_pct st)
      (BATTERY_CAP_KWH hw) (BATTERY_MAX_KW hw) 0.0 (mode cfg) (manual_override_kw cfg) in
  exists st' r,
    ingest_data env hw cfg utcnow st p = Some (st', r)
    /\ Main.update_soc (5 / 3600) (BATTERY_CAP_KWH hw) (battery_soc_pct st)
         (battery_power_kw opt_result) = Some (battery_soc_pct st')
    /\ item_float r "solar_kw" = Some solar
    /\ item_float r "wind_kw" = Some wind
    /\ item_float r "total_generation_kw" = Some (solar + wind)
    /\ item_float r "grid_import_kw" = Some (grid_import_kw opt_result)
    /\ item_float r "grid_export_kw" = Some (grid_export_kw opt_result).
Proof.
  intros Hcap solar wind load opt_result.
  destruct (process_model_dump_items utcnow p) as (r0 & E & Hs & Hw & Hl & _).
  fold solar in Hs. fold wind in Hw. fold load in Hl.
  unfold ingest_data. rewrite E.
  unfold Main.update_soc, truediv. rewrite Hcap.
  repeat first
    [ progress cbn [mbind option_bind]
    | progress item_float_lookup
    | rewrite Hs | rewrite Hw | rewrite Hl
    | rewrite max2_one_nonzero ].
  fold opt_result.
  do 2 eexists. split; [ reflexivity | ].
  cbn [battery_soc_pct]. item_float_lookup. rewrite Hs, Hw.
  repeat split; reflexivity.
Qed.

(** The entries of the reading [process_sensor_payload] returns are the
    payload's own entries (or their defaults), floored at zero: the total
    generation and the two grid figures are copied, not recomputed. *)
Lemma process_sensor_payload_items (utcnow : Z) (raw : payload) (ts : option Z) (r : payload) :
  process_sensor_payload utcnow raw ts = Some r ->
  exists solar wind total grid_import grid_export,
    get_float raw "solar_kw" 0.0 = Some solar
    /\ get_float raw "wind_kw" 0.0 = Some wind
    /\ get_float raw "total_generation_kw" 0.0 = Some total
    /\ get_float raw "grid_import_kw" 0.0 = Some grid_import
    /\ get_float raw "grid_export_kw" 0.0 = Some grid_export
    /\ item_float r "solar_kw" = Some (Py.max2 0.0 solar)
    /\ item_float r "wind_kw" = Some (Py.max2 0.0 wind)
    /\ item_float r "total_generation_kw" = Some (Py.max2 0.0 total)
    /\ item_float r "grid_import_kw" = Some (Py.max2 0.0 grid_import)
    /\ item_float r "grid_export_kw" = Some (Py.max2 0.0 grid_export).
Proof.
  unfold process_sensor_payload.
  destruct (get_float raw "solar_kw" 0.0) as [solar|]; [ | discriminate ].
  destruct (get_float raw "wind_kw" 0.0) as [wind|]; [ | discriminate ].
  destruct (get_float raw "total_generation_kw" 0.0) as [total|]; [ | discriminate ].
  destruct (get_float raw "load_kw" 0.0) as [load|]; [ | discriminate ].
  destruct (get_float raw "battery_soc_pct" 50.0) as [soc|]; [ | discriminate ].
  destruct (get_float raw "battery_power_kw" 0.0) as [battery|]; [ | discriminate ].
  destruct (get_float raw "grid_import_kw" 0.0) as [grid_import|]; [ | discriminate ].
  destruct (get_float raw "grid_export_kw" 0.0) as [grid_export|]; [ | discriminate ].
  destruct (get_float raw "self_consumption_pct" 0.0) as [sc|]; [ | discriminate ].
  destruct (get_float raw "co2_saved_kg" 0.0) as [co2|]; [ | discriminate ].
  destruct (get_float raw "cost_saved_inr" 0.0) as [cost|]; [ | discriminate ].
  cbn [mbind option_bind].
  match goal with
  | |- context [Some (list_to_map ?l)] => set (base := list_to_map l : payload)
  end.
  assert (Hbase :
    item_float base "solar_kw" = Some (Py.max2 0.0 solar)
    /\ item_float base "wind_kw" = Some (Py.max2 0.0 wind)
    /\ item_float base "total_generation_kw" = Some (Py.max2 0.0 total)
    /\ item_float base "grid_import_kw" = Some (Py.max2 0.0 grid_import)
    /\ item_float base "grid_export_kw" = Some (Py.max2 0.0 grid_export)).
  { subst base. cbn [list_to_map foldr fst snd]. item_float_lookup.
    repeat split; reflexivity. }
  destruct Hbase as (H1 & H2 & H3 & H4 & H5).
  cbv zeta. intros H. exists solar, wind, total, grid_import, grid_export.
  destruct (truthy _); inversion H; subst r;
    item_float_lookup; repeat split; assumption || reflexivity.
Qed.

Lemma ingest_data_capacity (env : ambient) (hw : hardware) (cfg : OptimizationConfig)
    (utcnow : Z) (st : SensorState) (p : IngestPayload) (res : SensorState * payload) :
  ingest_data env hw cfg utcnow st p = Some res -> (BATTERY_CAP_KWH hw =? 0) = false.
Proof.
  destruct (process_model_dump_items utcnow p) as (r0 & E & Hs & Hw & Hl & _).
  unfold ingest_data. rewrite E. cbn [mbind option_bind].
  rewrite Hs, Hw, Hl. cbn [mbind option_bind].
  unfold Main.update_soc, truediv.
  destruct (BATTERY_CAP_KWH hw =? 0); [ discriminate | reflexivity ].
Qed.

(** C3, as stated, fails: on the dump of a payload with 5 kW of solar and
    2 kW of wind, the reading [process_sensor_payload] returns carries a
    total generation of 0, the default, not 7. *)
Lemma process_sensor_payload_total_is_copied :
  exists r,
    process_sensor_payload 0
      (model_dump {| timestamp_utc := None; solar_kw := 5; wind_kw := 2;
                     load_kw := 3; payload_soc_pct := 50 |}) None = Some r
    /\ item_float r "solar_kw" = Some 5
    /\ item_float r "wind_kw" = Some 2
    /\ item_float r "total_generation_kw" = Some 0
    /\ (0 =? 5 + 2) = false.
Proof.
  destruct (process_model_dump_items 0
              {| timestamp_utc := None; solar_kw := 5; wind_kw := 2;
                 load_kw := 3; payload_soc_pct := 50 |}) as (r0 & E & Hs & Hw & _ & Ht).
  exists r0. repeat split; [ exact E | exact Hs | exact Hw | exact Ht ].
Qed.

(** C3 (amended): for every payload handed to [ingest_data] (the battery
    capacity being non-zero, so that the call returns), the reading it
    returns satisfies total_generation_kw == solar_kw + wind_kw; the total
    is recomputed there, after [process_sensor_payload], which only copies
    the payload's own total. *)
Theorem ingest_data_total_generation (env : ambient) (hw : hardware)
    (cfg : OptimizationConfig) (utcnow : Z) (st : SensorState) (p : IngestPayload) :
  (BATTERY_CAP_KWH hw =? 0) = false ->
  exists st' r solar wind total,
    ingest_data env hw cfg utcnow st p = Some (st', r)
    /\ item_float r "solar_kw" = Some solar
    /\ item_float r "wind_kw" = Some wind
    /\ item_float r "total_generation_kw" = Some total
    /\ (total =? solar + wind) = true.
Proof.
  intros Hcap.
  destruct (ingest_data_returns env hw cfg utcnow st p Hcap)
    as (st' & r & E & _ & Hs & Hw & Ht & _).
  exists st', r. do 3 eexists.
  split; [ exact E | ]. split; [ exact Hs | ]. split; [ exact Hw | ].
  split; [ exact Ht | apply floored_sum_eqb ].
Qed.

Lemma ingest_data_total_generation_witness :
  exists st' r solar wind total,
    ingest_data {| local_hour := 10; GRID_MAX_EXPORT_KW := 50 |} default_hardware
      {| mode := "AUTO"; manual_override_kw := 0 |} 0
      {| battery_soc_pct := 50; last_ts := 0 |}
      {| timestamp_utc := None; solar_kw := 0.1; wind_kw := 0.2;
         load_kw := 3; payload_soc_pct := 50 |} = Some (st', r)
    /\ item_float r "solar_kw" = Some solar
    /\ item_float r "wind_kw" = Some wind
    /\ item_float r "total_generation_kw" = Some total
    /\ (total =? solar + wind) = true.
Proof.
  exact (ingest_data_total_generation {| local_hour := 10; GRID_MAX_EXPORT_KW := 50 |}
           default_hardware {| mode := "AUTO"; manual_override_kw := 0 |} 0
           {| battery_soc_pct := 50; last_ts := 0 |}
           {| timestamp_utc := None; solar_kw := 0.1; wind_kw := 0.2;
              load_kw := 3; payload_soc_pct := 50 |} eq_refl).
Defined.

Lemma positive_max2_zero (x : float) : (0 <? Py.max2 0 x) = (0 <? x).
Proof.
  unfold Py.max2. destruct (0 <? x) eqn:H; [ exact H | reflexivity ].
Qed.

(** The two grid figures of the dict [generate_reading] returns are those
    of one dispatch result. *)
Lemma generate_reading_grid_flows (env : ambient) (hw : hardware) (cfg : OptimizationConfig)
    (now : Z) (solar_factor wind_factor load_profile_kw surplus_3h : float)
    (st st' : SensorState) (raw : payload) :
  generate_reading env hw cfg now solar_factor wind_factor load_profile_kw surplus_3h st
  = Some (st', raw) ->
  exists i0 e0,
    get_float raw "grid_import_kw" 0.0 = Some i0
    /\ get_float raw "grid_export_kw" 0.0 = Some e0
    /\ both_positive i0 e0 = false.
Proof.
  unfold generate_reading.
  destruct (Simulator.update_soc _ _ _ _ _) as [soc'|]; [ | discriminate ].
  cbn [mbind option_bind]. intros [= _ <-].
  unfold get_float. cbn [list_to_map foldr fst snd].
  do 2 eexists. split; [ | split ].
  - rewrite !lookup_insert_ne by discriminate. rewrite lookup_insert_eq. reflexivity.
  - rewrite !lookup_insert_ne by discriminate. rewrite lookup_insert_eq. reflexivity.
  - apply dispatch_never_both_positive.
Qed.

(** On the simulated feed the total is the rounded sum: with 1.1 kW of
    solar and 2.2 kW of wind it is 3.3, while 1.1 + 2.2 is
    3.3000000000000003 in binary64. *)
Example generate_reading_total_is_rounded :
  exists st' raw,
    generate_reading {| local_hour := 10; GRID_MAX_EXPORT_KW := 50 |} default_hardware
      {| mode := "AUTO"; manual_override_kw := 0 |} 0 0.022 0.14666 12 0
      {| battery_soc_pct := 50; last_ts := 0 |} = Some (st', raw)
    /\ get_float raw "solar_kw" 0.0 = Some 1.1
    /\ get_float raw "wind_kw" 0.0 = Some 2.2
    /\ get_float raw "total_generation_kw" 0.0 = Some 3.3
    /\ (3.3 =? 1.1 + 2.2) = false.
Proof.
  assert (Hsome :
    match generate_reading {| local_hour := 10; GRID_MAX_EXPORT_KW := 50 |} default_hardware
            {| mode := "AUTO"; manual_override_kw := 0 |} 0 0.022 0.14666 12 0
            {| battery_soc_pct := 50; last_ts := 0 |} with
    | Some (_, raw) =>
        match get_float raw "solar_kw" 0.0, get_float raw "wind_kw" 0.0,
              get_float raw "total_generation_kw" 0.0 with
        | Some s, Some w, Some t =>
            PrimFloat.Leibniz.eqb s 1.1 && PrimFloat.Leibniz.eqb w 2.2
            && PrimFloat.Leibniz.eqb t 3.3
        | _, _, _ => false
        end
    | None => false
    end = true) by (vm_compute; reflexivity).
  destruct (generate_reading _ _ _ _ _ _ _ _ _) as [[st' raw]|]; [ | discriminate Hsome ].
  destruct (get_float raw "solar_kw" 0.0) as [s|] eqn:Es; [ | discriminate Hsome ].
  destruct (get_float raw "wind_kw" 0.0) as [w|] eqn:Ew; [ | discriminate Hsome ].
  destruct (get_float raw "total_generation_kw" 0.0) as [t|] eqn:Et; [ | discriminate Hsome ].
  apply andb_prop in Hsome as [Hsome Ht]. apply andb_prop in Hsome as [Hs Hw].
  apply FloatAxioms.Leibniz.eqb_spec in Hs, Hw, Ht. subst s w t.
  exists st', raw. rewrite Es, Ew, Et. repeat split; reflexivity.
Qed.

End Normalisation.

(* ===================================================================== *)
(** ** State of charge                                                    *)
(* ===================================================================== *)

Section StateOfCharge.
Import Optimization Ingestion Simulator Main.
Local Open Scope float_scope.

(** [max(5.0, min(95.0, x))] lies in [5, 95] whatever [x] is, NaN and the
    infinities included. *)
Lemma clamp_5_95 (x : float) : within 5 95 (Py.max2 5.0 (Py.min2 95.0 x)) = true.
Proof.
  unfold within, Py.max2, Py.min2.
  destruct (x <? 95.0) eqn:Hx.
  - destruct (5.0 <? x) eqn:Hl.
    + rewrite (ltb_leb _ _ Hl), (ltb_leb _ _ Hx). reflexivity.
    + reflexivity.
  - reflexivity.
Qed.

Lemma clamp_0_100 (x : float) : within 0 100 (Py.max2 0.0 (Py.min2 100.0 x)) = true.
Proof.
  unfold within, Py.max2, Py.min2.
  destruct (x <? 100.0) eqn:Hx.
  - destruct (0.0 <? x) eqn:Hl.
    + rewrite (ltb_leb _ _ Hl), (ltb_leb _ _ Hx). reflexivity.
    + reflexivity.
  - reflexivity.
Qed.

Lemma simulator_update_soc_within (delta_t_h efficiency cap soc battery_pw_kw soc' : float) :
  Simulator.update_soc delta_t_h efficiency cap soc battery_pw_kw = Some soc' ->
  within 5 95 soc' = true.
Proof.
  unfold Simulator.update_soc, Simulator.truediv.
  destruct (cap =? 0); [ discriminate | ]. cbn [mbind option_bind]. intros [= <-].
  pose proof (clamp_5_95 (soc + battery_pw_kw * delta_t_h * efficiency / cap * 100)) as Hc.
  unfold within in *. apply andb_prop in Hc as [H1 H2].
  destruct (round_2_band _ H1 H2) as [-> ->]. reflexivity.
Qed.

Lemma main_update_soc_within (delta_t_h cap soc battery_pw_kw soc' : float) :
  Main.update_soc delta_t_h cap soc battery_pw_kw = Some soc' ->
  within 0 100 soc' = true.
Proof.
  unfold Main.update_soc, Simulator.truediv.
  destruct (cap =? 0); [ discriminate | ]. cbn [mbind option_bind]. intros [= <-].
  apply clamp_0_100.
Qed.

(** C2: for every battery power, elapsed time, efficiency and previous
    state of charge, NaN, infinities and overflowing products included, the
    update of the simulated feed returns a state of charge in [5, 95] and
    the update of the ingest path one in [0, 100], provided the configured
    battery capacity is not zero (the division by it raises otherwise);
    accordingly the sensor state left by [generate_reading] lies in
    [5, 95] and the one left by [ingest_data] in [0, 100]. *)
Theorem soc_update_within_bounds :
  (forall delta_t_h efficiency cap soc battery_pw_kw : float,
     (cap =? 0) = false ->
     exists soc', Simulator.update_soc delta_t_h efficiency cap soc battery_pw_kw = Some soc'
                  /\ within 5 95 soc' = true)
  /\ (forall delta_t_h cap soc battery_pw_kw : float,
        (cap =? 0) = false ->
        exists soc', Main.update_soc delta_t_h cap soc battery_pw_kw = Some soc'
                     /\ within 0 100 soc' = true)
  /\ (forall (env : ambient) (hw : hardware) (cfg : OptimizationConfig) (now : Z)
             (solar_factor wind_factor load_profile_kw surplus_3h : float)
             (st st' : SensorState) (r : payload),
        generate_reading env hw cfg now solar_factor wind_factor load_profile_kw surplus_3h st
        = Some (st', r) ->
        within 5 95 (battery_soc_pct st') = true)
  /\ (forall (env : ambient) (hw : hardware) (cfg : OptimizationConfig) (utcnow : Z)
             (st st' : SensorState) (p : IngestPayload) (r : payload),
        ingest_data env hw cfg utcnow st p = Some (st', r) ->
        within 0 100 (battery_soc_pct st') = true).
Proof.
  split; [ | split; [ | split ] ].
  - intros dt eff cap soc p Hcap.
    destruct (Simulator.update_soc dt eff cap soc p) as [soc'|] eqn:E.
    + exists soc'. split; [ reflexivity | ]. exact (simulator_update_soc_within _ _ _ _ _ _ E).
    + unfold Simulator.update_soc, Simulator.truediv in E. rewrite Hcap in E. discriminate E.
  - intros dt cap soc p Hcap.
    destruct (Main.update_soc dt cap soc p) as [soc'|] eqn:E.
    + exists soc'. split; [ reflexivity | ]. exact (main_update_soc_within _ _ _ _ _ E).
    + unfold Main.update_soc, Simulator.truediv in E. rewrite Hcap in E. discriminate E.
  - intros env hw cfg now sf wf lp s3 st st' r. unfold generate_reading.
    destruct (Simulator.update_soc _ _ _ _ _) as [soc'|] eqn:E; [ | discriminate ].
    cbn [mbind option_bind]. intros [= <- _]. cbn [battery_soc_pct].
    exact (simulator_update_soc_within _ _ _ _ _ _ E).
  - intros env hw cfg utcnow st st' p r E.
    pose proof (ingest_data_capacity _ _ _ _ _ _ _ E) as Hcap.
    destruct (ingest_data_returns env hw cfg utcnow st p Hcap)
      as (st2 & r2 & E2 & Hsoc & _).
    rewrite E in E2. inversion E2; subst st2 r2.
    exact (main_update_soc_within _ _ _ _ _ Hsoc).
Qed.

Lemma soc_update_within_bounds_witness :
  (exists soc', Simulator.update_soc (5 / 3600) 0.95 80 94.99 1e308 = Some soc'
                /\ within 5 95 soc' = true)
  /\ (exists soc', Main.update_soc (5 / 3600) 80 99.9 1e308 = Some soc'
                   /\ within 0 100 soc' = true).
Proof.
  split.
  - exact (proj1 soc_update_within_bounds (5 / 3600) 0.95 80 94.99 1e308 eq_refl).
  - exact (proj1 (proj2 soc_update_within_bounds) (5 / 3600) 80 99.9 1e308 eq_refl).
Defined.

End StateOfCharge.

(* ===================================================================== *)
(** ** The rolling window                                                 *)
(* ===================================================================== *)

Section RollingWindow.
Import Engine.

Lemma flush_aggregate_window (bin_ts : Z) (p p' : IngestionPipeline) :
  _flush_aggregate bin_ts p = Some p' ->
  maxlen p' = maxlen p /\ _window p' = _window p.
Proof.
  unfold _flush_aggregate. destruct (_agg_buf p).
  - intros [= <-]. auto.
  - destruct (mapM _ NUMERIC_FIELDS); cbn [mbind option_bind]; intros [= <-]; auto.
Qed.

(** The only effect of [ingest] on the window is one [append] on the
    bounded deque. *)
Lemma ingest_window (ts : Z) (r : reading) (p : IngestionPipeline) :
  maxlen (fst (ingest ts r p)) = maxlen p
  /\ _window (fst (ingest ts r p)) = deque_append (maxlen p) (_window p) r.
Proof.
  unfold ingest. destruct (_ <=? ts)%Z; [ | auto ].
  destruct (_flush_aggregate _ _) as [p2|] eqn:E; [ | auto ].
  apply flush_aggregate_window in E as [E1 E2]. cbn [fst maxlen _window] in *. auto.
Qed.

Lemma tail_drop {A : Type} (l : list A) : tail l = drop 1 l.
Proof. destruct l; reflexivity. Qed.

(** Appending to the deque that holds the last [w] items of [l] gives the
    last [w] items of [l ++ [x]]. *)
Lemma deque_append_last {A : Type} (w : nat) (l : list A) (x : A) :
  deque_append w (drop (length l - w) l) x = drop (length (l ++ [x]) - w) (l ++ [x]).
Proof.
  unfold deque_append. rewrite !length_app, length_drop. cbn [length].
  destruct (Nat.ltb_spec w (length l - (length l - w) + 1)) as [H|H].
  - rewrite tail_drop. destruct w as [|w].
    + rewrite !Nat.sub_0_r, drop_all. cbn [app drop]. symmetry.
      apply drop_ge. rewrite length_app. cbn [length]. lia.
    + rewrite drop_app_le by (rewrite length_drop; lia).
      rewrite drop_drop, drop_app_le by lia. f_equal. f_equal. lia.
  - replace (length l - w)%nat with 0%nat by lia.
    replace (length l + 1 - w)%nat with 0%nat by lia. reflexivity.
Qed.

Lemma ingest_all_snoc (calls : list (Z * reading)) (c : Z * reading) (p : IngestionPipeline) :
  ingest_all (calls ++ [c]) p = fst (ingest (fst c) (snd c) (ingest_all calls p)).
Proof. unfold ingest_all. rewrite fold_left_app. reflexivity. Qed.

(** The window after a sequence of ingests, in closed form. *)
Lemma ingest_all_window (window : nat) (calls : list (Z * reading)) :
  maxlen (ingest_all calls (init window)) = window
  /\ _window (ingest_all calls (init window))
     = drop (length (List.map snd calls) - window) (List.map snd calls).
Proof.
  induction calls as [|c calls IH] using rev_ind.
  - split; reflexivity.
  - destruct IH as [IH1 IH2].
    rewrite ingest_all_snoc.
    destruct (ingest_window (fst c) (snd c) (ingest_all calls (init window))) as [-> ->].
    split; [ exact IH1 | ].
    rewrite IH1, IH2, List.map_app. apply deque_append_last.
Qed.

(** C8: after any sequence of ingests into a pipeline built with capacity
    [window] (720 by default), the rolling window is exactly the last
    [window] readings ingested, in arrival order: it never holds more than
    [window] readings, and each reading leaves only after all the older
    ones have left. *)
Theorem rolling_window_bounded_fifo (window : nat) (calls : list (Z * reading)) :
  let p := ingest_all calls (init window) in
  let readings := List.map snd calls in
  WINDOW_SIZE = 720%nat
  /\ maxlen p = window
  /\ (length (_window p) <= window)%nat
  /\ _window p = drop (length readings - window) readings.
Proof.
  cbv zeta. split; [ reflexivity | ].
  destruct (ingest_all_window window calls) as [H1 H2].
  split; [ exact H1 | ]. split; [ | exact H2 ].
  rewrite H2, length_drop. lia.
Qed.

End RollingWindow.

(* ===================================================================== *)
(** ** Anomaly detection and queries                                      *)
(* ===================================================================== *)

Section Anomalies.
Import Engine.
Local Open Scope float_scope.

Lemma mkAnomalyFlag_field (f : string) (v m s : float) : field (mkAnomalyFlag f v m s) = f.
Proof. reflexivity. Qed.

(** The flags one field adds all name that field. *)
Lemma check_field_names (window : list reading) (r : reading) (f : string)
    (flags : list AnomalyFlag) :
  check_field window r f = Some flags ->
  forall flag, In flag flags -> field flag = f.
Proof.
  unfold check_field.
  destruct (_ <? 10)%nat; [ intros [= <-] flag [] | ].
  destruct (mapM id _) as [floats|]; [ | discriminate ]. cbn [mbind option_bind].
  destruct (Py.mean floats) as [mu|]; [ | discriminate ]. cbn [mbind option_bind].
  destruct (if (1 <? _)%nat then _ else _) as [sigma|]; [ | discriminate ].
  cbn [mbind option_bind].
  destruct (sigma <? 0.1); [ intros [= <-] flag [] | ].
  destruct (default _ _) as [val|]; [ | discriminate ]. cbn [mbind option_bind].
  destruct (_ <? _); intros [= <-] flag; [ | intros [] ].
  intros [<- | []]. reflexivity.
Qed.

(** A field whose standard deviation over the window is below 0.1 adds no
    flag. *)
Lemma check_field_flat (window : list reading) (r : reading) (f : string)
    (flags : list AnomalyFlag) (floats : list float) (s : float) :
  check_field window r f = Some flags ->
  mapM id (field_values f window) = Some floats ->
  Py.stdev floats = Some s ->
  (s <? 0.1) = true ->
  flags = [].
Proof.
  unfold check_field. intros H Hv Hs Hflat.
  destruct (_ <? 10)%nat; [ congruence | ].
  rewrite Hv in H. cbn [mbind option_bind] in H.
  destruct (Py.mean floats) as [mu|]; [ | discriminate ]. cbn [mbind option_bind] in H.
  destruct (1 <? _)%nat.
  - rewrite Hs in H. cbn [mbind option_bind] in H. rewrite Hflat in H. congruence.
  - cbn [mbind option_bind] in H. change (0.0 <? 0.1) with true in H. congruence.
Qed.

Lemma Qred_zero (d : positive) : Qred (Qmake 0 d) = Qmake 0 1.
Proof.
  change (Qmake 0 1) with (Qred (Qmake 0 1)). apply Qred_complete.
  unfold Qeq. reflexivity.
Qed.

Lemma sum_exact_zeros (n : nat) : Py.sum_exact (List.repeat 0 n) = Some (Qmake 0 1).
Proof.
  induction n as [|n IH]; [ reflexivity | ].
  cbn [List.repeat Py.sum_exact]. rewrite IH. reflexivity.
Qed.

Lemma sum_squares_zeros (n : nat) : Py.sum_squares (List.repeat 0 n) = Qmake 0 1.
Proof.
  induction n as [|n IH]; [ reflexivity | ].
  unfold Py.sum_squares in *. cbn [List.repeat fold_right]. rewrite IH. reflexivity.
Qed.

(** The standard deviation of two or more zeros is zero. *)
Lemma stdev_zeros (n : nat) : (2 <= n)%nat -> Py.stdev (List.repeat 0 n) = Some 0.
Proof.
  intros Hn. destruct n as [|[|n]]; try lia.
  unfold Py.stdev. cbn [List.repeat].
  change (0 :: 0 :: List.repeat 0 n) with (List.repeat 0 (S (S n))).
  unfold Py.ss. rewrite sum_exact_zeros, sum_squares_zeros.
  unfold Py.count. rewrite repeat_length.
  destruct (Z.of_nat (S (S n))) as [|k|k] eqn:Ek; try lia.
  assert (E1 : Qred (Qdiv (Qminus (Qmult (inject_Z (Zpos k)) (Qmake 0 1))
                                  (Qmult (Qmake 0 1) (Qmake 0 1)))
                          (inject_Z (Zpos k))) = Qmake 0 1).
  { unfold Qdiv, Qminus, Qplus, Qmult, Qopp, Qinv, inject_Z. cbn [Qnum Qden].
    rewrite Z.mul_0_r. cbn. apply Qred_zero. }
  rewrite E1.
  assert (E2 : Qred (Qdiv (Qmake 0 1) (inject_Z (Zpos k - 1))) = Qmake 0 1).
  { unfold Qdiv, Qmult. cbn [Qnum Qden]. apply Qred_zero. }
  rewrite E2. reflexivity.
Qed.

Lemma field_values_solar_zero (window : list reading) :
  Forall solar_is_zero window ->
  mapM id (field_values "solar_kw" window) = Some (List.repeat 0 (length window)).
Proof.
  induction 1 as [|r window Hr _ IH]; [ reflexivity | ].
  unfold field_values in *. cbn [omap list_omap]. rewrite Hr.
  cbn [mapM length List.repeat]. rewrite IH. reflexivity.
Qed.

Lemma deque_append_Forall {A : Type} (P : A -> Prop) (n : nat) (d : list A) (x : A) :
  Forall P d -> P x -> Forall P (deque_append n d x).
Proof.
  intros Hd Hx. unfold deque_append.
  assert (H : Forall P (d ++ [x])) by (apply Forall_app; auto).
  destruct (n <? _)%nat; [ | exact H ].
  rewrite tail_drop. apply Forall_drop, H.
Qed.

(** No flag is returned for a field whose standard deviation over the
    window is below the flatness floor. *)
Lemma detect_anomalies_flat (window : list reading) (r : reading) (f : string)
    (flags : list AnomalyFlag) (floats : list float) (s : float) :
  _detect_anomalies window r = Some flags ->
  mapM id (field_values f window) = Some floats ->
  Py.stdev floats = Some s ->
  (s <? 0.1) = true ->
  forall flag, In flag flags -> field flag <> f.
Proof.
  intros H Hv Hs Hflat flag Hin Hf.
  unfold _detect_anomalies in H.
  destruct (_ <? 30)%nat; [ injection H as <-; destruct Hin | ].
  unfold MONITORED_FIELDS in H. cbn [mapM mbind option_bind mret option_ret] in H.
  destruct (check_field window r "solar_kw") as [l1|] eqn:E1; [ | discriminate ].
  destruct (check_field window r "wind_kw") as [l2|] eqn:E2; [ | discriminate ].
  destruct (check_field window r "load_kw") as [l3|] eqn:E3; [ | discriminate ].
  destruct (check_field window r "grid_import_kw") as [l4|] eqn:E4; [ | discriminate ].
  cbn [mbind option_bind mret option_ret List.concat] in H. injection H as <-.
  rewrite app_nil_r in Hin.
  assert (Hcase : forall g l, check_field window r g = Some l -> In flag l -> False).
  { intros g l E Hl.
    pose proof (check_field_names _ _ _ _ E flag Hl) as Hg.
    rewrite Hf in Hg. subst g.
    rewrite (check_field_flat _ _ _ _ _ _ E Hv Hs Hflat) in Hl. destruct Hl. }
  repeat (apply in_app_or in Hin as [Hin | Hin]); eauto.
Qed.

(** The flags [ingest] returns are those of [_detect_anomalies] on the
    window it leaves. *)
Lemma ingest_flags (ts : Z) (r : reading) (p : IngestionPipeline) (flags : list AnomalyFlag) :
  snd (ingest ts r p) = Some flags ->
  _detect_anomalies (_window (fst (ingest ts r p))) r = Some flags.
Proof.
  unfold ingest. destruct (_ <=? ts)%Z; [ | auto ].
  destruct (_flush_aggregate _ _) as [p2|]; [ auto | discriminate ].
Qed.

Lemma ingest_all_solar_zero (window : nat) (calls : list (Z * reading)) :
  Forall (fun c => solar_is_zero (snd c)) calls ->
  Forall solar_is_zero (_window (ingest_all calls (init window))).
Proof.
  induction calls as [|c calls IH] using rev_ind; intros H.
  - constructor.
  - apply Forall_app in H as [H1 H2]. inversion H2; subst.
    rewrite ingest_all_snoc.
    destruct (ingest_window (fst c) (snd c) (ingest_all calls (init window))) as [_ ->].
    apply deque_append_Forall; auto.
Qed.

(** C7: anomaly detection returns no flag while fewer than 30 readings are
    buffered; it never returns a flag for a field whose standard deviation
    over the buffered values is below the flatness floor 0.1; in
    particular, after any feed of zero-valued solar readings, the ingest of
    one more zero-valued solar reading returns no solar flag, and after 40
    of them, five seconds apart, it returns no flag at all. *)
Theorem anomaly_detection_guards :
  (forall (window : list reading) (r : reading),
     (length window < 30)%nat -> _detect_anomalies window r = Some [])
  /\ (forall (window : list reading) (r : reading) (f : string)
            (flags : list AnomalyFlag) (floats : list float) (s : float),
        _detect_anomalies window r = Some flags ->
        mapM id (field_values f window) = Some floats ->
        Py.stdev floats = Some s ->
        (s <? 0.1) = true ->
        forall flag, In flag flags -> field flag <> f)
  /\ (forall (window : nat) (calls : list (Z * reading)) (ts : Z) (r : reading)
             (flags : list AnomalyFlag),
        Forall (fun c => solar_is_zero (snd c)) calls ->
        solar_is_zero r ->
        snd (ingest ts r (ingest_all calls (init window))) = Some flags ->
        forall flag, In flag flags -> field flag <> "solar_kw"%string)
  /\ snd (ingest 200000000 zero_solar (ingest_all night_feed (init WINDOW_SIZE))) = Some [].
Proof.
  split; [ | split; [ | split ] ].
  - intros window r H. unfold _detect_anomalies.
    destruct (Nat.ltb_spec (length window) 30); [ reflexivity | lia ].
  - exact detect_anomalies_flat.
  - intros window calls ts r flags Hcalls Hr Hflags.
    apply ingest_flags in Hflags.
    destruct (ingest_window ts r (ingest_all calls (init window))) as [_ Hw].
    rewrite Hw in Hflags.
    assert (Hzero : Forall solar_is_zero
                      (deque_append (maxlen (ingest_all calls (init window)))
                         (_window (ingest_all calls (init window))) r))
      by (apply deque_append_Forall; [ apply ingest_all_solar_zero, Hcalls | exact Hr ]).
    set (w := deque_append _ _ r) in *.
    destruct (Nat.lt_ge_cases (length w) 30) as [Hshort | Hlong].
    + unfold _detect_anomalies in Hflags.
      destruct (Nat.ltb_spec (length w) 30); [ | lia ].
      injection Hflags as <-. intros flag [].
    + apply (detect_anomalies_flat w r "solar_kw" flags (List.repeat 0 (length w)) 0 Hflags).
      * apply field_values_solar_zero, Hzero.
      * apply stdev_zeros. lia.
      * reflexivity.
  - vm_compute. reflexivity.
Qed.

Lemma anomaly_detection_guards_witness :
  _detect_anomalies (List.repeat zero_solar 29) zero_solar = Some []
  /\ field {| field := "load_kw"; value := 50; mean := 11.463414634146341;
              sigma := 6.1890934755245448; severity := HIGH |} <> "solar_kw"%string.
Proof.
  split.
  - apply (proj1 anomaly_detection_guards). cbn. lia.
  - assert (E : _detect_anomalies steady_window (day_reading 50)
                = Some [ {| field := "load_kw"; value := 50; mean := 11.463414634146341;
                            sigma := 6.1890934755245448; severity := HIGH |} ])
      by (vm_compute; reflexivity).
    assert (Hv : mapM id (field_values "solar_kw" steady_window) = Some (List.repeat 0 41))
      by (vm_compute; reflexivity).
    assert (Hs : Py.stdev (List.repeat 0 41) = Some 0) by (vm_compute; reflexivity).
    exact (proj1 (proj2 anomaly_detection_guards) steady_window (day_reading 50)
             "solar_kw"%string _ _ 0 E Hv Hs eq_refl _ (or_introl eq_refl)).
Defined.

(** C10: when the window holds at least one reading, [recent(0)] returns
    the whole window, in order, not the empty list: [items[-0:]] is
    [items[0:]]. *)
Theorem recent_zero_returns_window (p : IngestionPipeline) :
  _window p <> [] ->
  recent 0 p = _window p /\ recent 0 p <> [].
Proof.
  intros H.
  assert (E : recent 0 p = _window p).
  { unfold recent, slice_from. cbn [Z.opp Z.ltb Z.compare].
    rewrite Z.min_l by lia. reflexivity. }
  rewrite E. auto.
Qed.

Lemma recent_zero_returns_window_witness :
  recent 0 (ingest_all night_feed (init 3))
  = _window (ingest_all night_feed (init 3))
  /\ recent 0 (ingest_all night_feed (init 3)) <> [].
Proof.
  apply recent_zero_returns_window.
  assert (H : length (_window (ingest_all night_feed (init 3))) = 3%nat)
    by (vm_compute; reflexivity).
  intros E. rewrite E in H. discriminate H.
Defined.

End Anomalies.

(* ===================================================================== *)
(** ** Aggregate bins                                                     *)
(* ===================================================================== *)

Section Aggregation.
Import Engine.
Local Open Scope float_scope.

Lemma mean_nonempty (x : float) (xs : list float) : exists m, Py.mean (x :: xs) = Some m.
Proof. unfold Py.mean. destruct (Py.sum_exact (x :: xs)); eauto. Qed.

(** The value stored for a field never fails: it is 0.0 when no reading
    of the buffer has the field, the rounded mean otherwise. *)
Lemma bin_average_spec (f : string) (rs : list reading) :
  exists v, bin_average f rs = Some v
    /\ ((present_values f rs = [] /\ v = 0.0)
        \/ exists m, Py.mean (present_values f rs) = Some m /\ v = Py.round m 3).
Proof.
  unfold bin_average. destruct (present_values f rs) as [|x xs].
  - exists 0.0. auto.
  - destruct (mean_nonempty x xs) as [m Hm]. rewrite Hm. cbn [mbind option_bind].
    exists (Py.round m 3). eauto.
Qed.

Lemma lookup_entry_head (f : string) (v : float) (l : list (string * float)) :
  (list_to_map ((f, v) :: l) : gmap string float) !! f = Some v.
Proof. cbn [list_to_map foldr]. apply lookup_insert_eq. Qed.

Lemma lookup_entry_tail (f g : string) (v : float) (l : list (string * float)) :
  g <> f ->
  (list_to_map ((g, v) :: l) : gmap string float) !! f
  = (list_to_map l : gmap string float) !! f.
Proof. intros H. cbn [list_to_map foldr]. apply lookup_insert_ne, H. Qed.


(** A flush of a non-empty buffer appends one bin that summarises the
    buffer and is stamped with the time handed to the flush; the rest of
    the pipeline is left as it is. *)
Lemma flush_aggregate_bin (bin_ts : Z) (p : IngestionPipeline) :
  _agg_buf p <> [] ->
  exists p' bin,
    _flush_aggregate bin_ts p = Some p'
    /\ _aggs p' = deque_append 288 (_aggs p) bin
    /\ timestamp bin = bin_ts
    /\ bin_summarises (_agg_buf p) bin.
Proof.
  intros Hbuf. unfold _flush_aggregate, bin_summarises.
  destruct (_agg_buf p) as [|r0 rs] eqn:Eb; [ contradiction | ].
  set (buf := r0 :: rs).
  unfold NUMERIC_FIELDS. cbn [mapM].
  repeat match goal with
  | |- context [bin_average ?f buf] =>
      let v := fresh "v" in let Hv := fresh "Hv" in let Hs := fresh "Hs" in
      destruct (bin_average_spec f buf) as (v & Hv & Hs); rewrite Hv
  end.
  cbn [mbind option_bind mret option_ret].
  do 2 eexists. split; [ reflexivity | ].
  cbn [_aggs timestamp averages]. split; [ reflexivity | ]. split; [ reflexivity | ].
  intros f Hin. cbn [In] in Hin.
  repeat (destruct Hin as [<- | Hin];
          [ eexists; cbn [averages]; split;
            [ repeat first [ apply lookup_entry_head
                           | rewrite lookup_entry_tail by discriminate ]
            | assumption ]
          | ]).
  destruct Hin.
Qed.

Lemma aggregate_delta_positive : (0 < aggregate_delta)%Z.
Proof. reflexivity. Qed.











End Aggregation.

(* ===================================================================== *)
(** ** The float remainder on values computed by CPython                  *)
(* ===================================================================== *)

Section Remainder.
Local Open Scope float_scope.

(** [x % y] takes the sign of the divisor, is exact, and raises on a
    zero divisor: [-7.5 % 24] is [16.5], [29.5 % 24] is [5.5],
    [5.5 % -24] is [-18.5] and [-24.0 % 24] is [0.0]. *)
Example mod_documented_values :
  Py.mod_ (-7.5) 24 = Some 16.5 /\ Py.mod_ 29.5 24 = Some 5.5
  /\ Py.mod_ 5.5 (-24) = Some (-18.5) /\ Py.mod_ (-24) 24 = Some 0
  /\ Py.mod_ 1 0 = None /\ Py.min_list [3; 1; 2] = Some 1
  /\ Py.max_list [] = None.
Proof. vm_compute. repeat split; reflexivity. Qed.

End Remainder.

(* ===================================================================== *)
(** ** Signs of rounded and divided floats                                *)
(* ===================================================================== *)

Section FloatSigns.
Local Open Scope float_scope.

Lemma binary_round_aux_nonnegative (m e : Z) (l : location) :
  (0 <= m)%Z -> SFnonnegative (binary_round_aux prec emax false m e l) = true.
Proof.
  intros H. pose proof (binary_round_aux_not_nan false m e l H) as Hn.
  revert Hn. unfold binary_round_aux.
  destruct (shr_fexp prec emax m e l) as [mrs' e'].
  destruct (shr_fexp prec emax _ e' loc_Exact) as [mrs'' e''].
  destruct (shr_m mrs''); [ | destruct (Z.leb _ _) | ]; simpl; congruence.
Qed.

Lemma binary_round_nonnegative (m : positive) (e : Z) :
  SFnonnegative (binary_round prec emax false m e) = true.
Proof.
  unfold binary_round. destruct (shl_align _ _ _) as [mz ez].
  apply binary_round_aux_nonnegative. lia.
Qed.

(** The quotient of two positive finite floats is plus zero, positive or
    plus infinity. *)
Lemma SFdiv_nonnegative (m1 m2 : positive) (e1 e2 : Z) :
  SFnonnegative (SFdiv prec emax (S754_finite false m1 e1) (S754_finite false m2 e2)) = true.
Proof.
  unfold SFdiv, SFdiv_core_binary.
  match goal with
  | |- context [Z.div_eucl ?a ?b] =>
      pose proof (Z.div_eucl_eq a b ltac:(lia)) as Hq;
      pose proof (Z.mod_pos_bound a b ltac:(lia)) as Hr;
      assert (Ha : (0 <= a)%Z);
      [ | unfold Z.modulo in Hr; destruct (Z.div_eucl a b) as [q r] ]
  end.
  - destruct (_ - _ - _)%Z; try lia. apply Z.shiftl_nonneg. lia.
  - cbn [xorb]. apply binary_round_aux_nonnegative. nia.
Qed.

(** Converting a non-negative specification float to a primitive float
    keeps it non-negative. *)
Lemma SF2Prim_nonnegative (s : spec_float) :
  SFnonnegative s = true -> SFnonnegative (Prim2SF (SF2Prim s)) = true.
Proof.
  destruct s as [[|]|[|]| |[|] m e]; try discriminate; intros _; try reflexivity.
  unfold SF2Prim, Z.ldexp. rewrite ldshiftexp_spec, of_uint63_spec.
  pose proof (Uint63.to_Z_bounded (Uint63.of_Z (Z.pos m))) as [Hb _].
  destruct (Uint63.to_Z _) as [|p|p]; [ reflexivity | | lia ].
  cbn [binary_normalize].
  pose proof (binary_round_nonnegative p 0) as Hp.
  destruct (binary_round prec emax false p 0) as [[|]|[|]| |[|] mx ex];
    try discriminate; try reflexivity.
  cbn [SFldexp]. apply binary_round_nonnegative.
Qed.

Lemma int_true_div_nonnegative (n : Z) (d : positive) :
  (0 <= n)%Z -> SFnonnegative (Prim2SF (Py.int_true_div n d)) = true.
Proof.
  intros H. destruct n as [|p|p]; [ reflexivity | | lia ].
  apply SF2Prim_nonnegative, SFdiv_nonnegative.
Qed.

Lemma round_half_even_nonnegative (q : Q) :
  (0 <= Qnum q)%Z -> (0 <= Py.round_half_even q)%Z.
Proof.
  intros H. destruct q as [num d].
  apply (round_half_even_bounds num d 0 (num + 1)). cbn [Qnum] in H. nia.
Qed.

(** [round(x, ndigits)] of a float that is plus zero, positive or plus
    infinity is again one of the three. *)
Lemma round_nonnegative (x : float) (ndigits : nat) :
  SFnonnegative (Prim2SF x) = true ->
  SFnonnegative (Prim2SF (Py.round x ndigits)) = true.
Proof.
  intros H. unfold Py.round, Py.exact_ratio, Py.sign_bit.
  destruct (Prim2SF x) as [[|]|[|]| |[|] m e] eqn:E; try discriminate H.
  - destruct (Py.round_half_even _) as [|p|p] eqn:En; [ reflexivity | | ].
    + apply int_true_div_nonnegative. lia.
    + pose proof (round_half_even_nonnegative
                    (Qmult (Qmake 0 1) (Qmake (Zpos (Z.to_pos (10 ^ Z.of_nat ndigits))) 1))
                    ltac:(cbn; lia)) as Hn.
      rewrite En in Hn. lia.
  - rewrite E. reflexivity.
  - match goal with
    | |- context [Py.round_half_even ?q] =>
        assert (Hn : (0 <= Py.round_half_even q)%Z)
    end.
    { apply round_half_even_nonnegative. unfold Qmult, Py.dyadic.
      destruct e as [|k|k]; cbn [Qnum]; try lia;
        match goal with
        | |- context [Z.shiftl ?a ?b] => pose proof (proj2 (Z.shiftl_nonneg a b) ltac:(lia))
        end; lia. }
    destruct (Py.round_half_even _) as [|p|p]; [ reflexivity | | lia ].
    apply int_true_div_nonnegative. lia.
Qed.

Lemma leb_zero_nonnegative (x : float) :
  SFnonnegative (Prim2SF x) = true -> (0 <=? x) = true.
Proof.
  rewrite leb_spec. change (Prim2SF 0) with (S754_zero false).
  destruct (Prim2SF x) as [[|]|[|]| |[|] m e]; try discriminate; reflexivity.
Qed.

Lemma opp_leb_zero_nonnegative (x : float) :
  SFnonnegative (Prim2SF x) = true -> (- x <=? 0) = true.
Proof.
  rewrite leb_spec, opp_spec. change (Prim2SF 0) with (S754_zero false).
  destruct (Prim2SF x) as [[|]|[|]| |[|] m e]; try discriminate; reflexivity.
Qed.

(** A figure floored at zero and rounded is never negative and never
    NaN. *)
Lemma round_floored_nonneg (x : float) (ndigits : nat) :
  (0 <=? Py.round (Py.max2 0 x) ndigits) = true.
Proof. apply leb_zero_nonnegative, round_nonnegative, max2_zero_nonnegative. Qed.

Lemma opp_round_floored_nonpos (x : float) (ndigits : nat) :
  (- Py.round (Py.max2 0 x) ndigits <=? 0) = true.
Proof. apply opp_leb_zero_nonnegative, round_nonnegative, max2_zero_nonnegative. Qed.

End FloatSigns.

(* ===================================================================== *)
(** ** Order and sign through subtraction, product and quotient           *)
(* ===================================================================== *)

Section FloatOrder.
Local Open Scope float_scope.

(** A valid binary64 mantissa has at most 53 bits, and its exponent is at
    least -1074. *)
Lemma valid_mantissa_bounds (s : bool) (m : positive) (e : Z) :
  valid_binary (S754_finite s m e) = true ->
  (Zpos m < 9007199254740992)%Z /\ (-1074 <= e)%Z.
Proof.
  unfold SpecFloat.valid_binary, bounded, canonical_mantissa, fexp, SpecFloat.emin.
  rewrite digits2_pos_size. change prec with 53%Z. change emax with 1024%Z.
  intros H. apply andb_prop in H as [H _]. apply Z.eqb_eq in H.
  split; [ | lia ].
  assert (Hs : (Zpos (Pos.size m) <= 53)%Z) by lia.
  pose proof (Pos.size_gt m) as Hgt. apply Pos2Z.pos_lt_pos in Hgt.
  rewrite Pos2Z.inj_pow in Hgt.
  pose proof (Z.pow_le_mono_r 2 (Zpos (Pos.size m)) 53 ltac:(lia) Hs) as Hp.
  change (2 ^ 53)%Z with 9007199254740992%Z in Hp. clear H Hs. lia.
Qed.

Lemma shl_align_same (m : positive) (e : Z) : fst (shl_align m e e) = m.
Proof. unfold shl_align. rewrite Z.sub_diag. reflexivity. Qed.

(** Aligning a mantissa to a smaller exponent at least doubles it. *)
Lemma shl_align_doubles (m : positive) (e e' : Z) :
  (e' < e)%Z -> (2 * Zpos m <= Zpos (fst (shl_align m e e')))%Z.
Proof.
  intros H. unfold shl_align.
  destruct (e' - e)%Z as [|d|d] eqn:E; try lia. cbn [fst].
  rewrite (Pos.iter_swap_gen _ _ Zpos xO (Z.mul 2)) by reflexivity.
  change (Pos.iter (Z.mul 2) (Zpos m) d) with (Z.shiftl (Zpos m) (Zpos d)).
  rewrite Z.shiftl_mul_pow2 by lia.
  pose proof (Z.pow_le_mono_r 2 1 (Zpos d) ltac:(lia) ltac:(lia)) as H2.
  change (2 ^ 1)%Z with 2%Z in H2. nia.
Qed.

Lemma binary_round_aux_nonpositive (m e : Z) (l : location) :
  (0 <= m)%Z -> SFnonpositive (binary_round_aux prec emax true m e l) = true.
Proof.
  intros H. pose proof (binary_round_aux_not_nan true m e l H) as Hn.
  revert Hn. unfold binary_round_aux.
  destruct (shr_fexp prec emax m e l) as [mrs' e'].
  destruct (shr_fexp prec emax _ e' loc_Exact) as [mrs'' e''].
  destruct (shr_m mrs''); [ | destruct (Z.leb _ _) | ]; simpl; congruence.
Qed.

Lemma binary_normalize_nonpositive (m e : Z) (szero : bool) :
  (m <= 0)%Z -> SFnonpositive (binary_normalize prec emax m e szero) = true.
Proof.
  intros H. destruct m as [|p|p]; [ reflexivity | lia | ].
  cbn [binary_normalize]. unfold binary_round.
  destruct (shl_align _ _ _) as [mz ez]. apply binary_round_aux_nonpositive. lia.
Qed.

(** The integer whose sign decides the sign of a difference of two finite
    floats is not positive when the first is at most the second. *)
Lemma SFsub_leb_aligned (sx sy : bool) (mx my : positive) (ex ey : Z) :
  valid_binary (S754_finite sx mx ex) = true ->
  valid_binary (S754_finite sy my ey) = true ->
  SFleb (S754_finite sx mx ex) (S754_finite sy my ey) = true ->
  (cond_Zopp sx (Zpos (fst (shl_align mx ex (Z.min ex ey))))
   - cond_Zopp sy (Zpos (fst (shl_align my ey (Z.min ex ey)))) <= 0)%Z.
Proof.
  intros Hx Hy Hle.
  pose proof (valid_mantissa_bounds _ _ _ Hx) as [Hmx Hex].
  pose proof (valid_mantissa_bounds _ _ _ Hy) as [Hmy Hey].
  unfold SFleb, SFcompare in Hle. rewrite compare_cont_Z in Hle.
  destruct sx, sy; cbn [cond_Zopp]; try discriminate Hle; try lia.
  - destruct (Z.compare_spec ex ey) as [E|E|E]; try discriminate Hle.
    + subst ey. rewrite Z.min_id, !shl_align_same.
      destruct (Z.compare_spec (Zpos mx) (Zpos my)); try discriminate Hle; lia.
    + rewrite Z.min_r by lia. rewrite shl_align_same.
      pose proof (shl_align_doubles mx ex ey E) as Hd.
      pose proof (normal_mantissa_bounds true mx ex Hx ltac:(lia)) as Hn. lia.
  - destruct (Z.compare_spec ex ey) as [E|E|E]; try discriminate Hle.
    + subst ey. rewrite Z.min_id, !shl_align_same.
      destruct (Z.compare_spec (Zpos mx) (Zpos my)); try discriminate Hle; lia.
    + rewrite Z.min_l by lia. rewrite shl_align_same.
      pose proof (shl_align_doubles my ey ex E) as Hd.
      pose proof (normal_mantissa_bounds false my ey Hy ltac:(lia)) as Hn. lia.
Qed.

(** When [x <= y] and one of the two is finite, the difference [x - y] is
    a zero, negative or minus infinity: not positive and not NaN. *)
Lemma SFsub_leb (x y : spec_float) :
  valid_binary x = true -> valid_binary y = true ->
  SFleb x y = true -> SFfinite x || SFfinite y = true ->
  SFnonpositive (SFsub prec emax x y) = true.
Proof.
  intros Hx Hy.
  destruct x as [sx|sx| |sx mx ex], y as [sy|sy| |sy my ey];
    try (unfold SFleb, SFcompare; simpl; congruence);
    try (unfold SFleb, SFcompare; destruct sx; try destruct sy; simpl; congruence);
    try (unfold SFleb, SFcompare; destruct sy; simpl; congruence).
  intros Hle _. unfold SFsub.
  apply binary_normalize_nonpositive, SFsub_leb_aligned; assumption.
Qed.

Lemma sub_leb_nonpositive (x y : float) :
  (x <=? y) = true -> SFfinite (Prim2SF x) || SFfinite (Prim2SF y) = true ->
  SFnonpositive (Prim2SF (x - y)) = true.
Proof.
  rewrite leb_spec, sub_spec. intros H1 H2.
  apply SFsub_leb; auto using Prim2SF_valid.
Qed.

(** A zero, negative or minus-infinite float divided or multiplied by a
    positive finite one stays so. *)
Lemma SFdiv_nonpositive (x y : spec_float) :
  SFnonpositive x = true -> SFpositive_finite y = true ->
  SFnonpositive (SFdiv prec emax x y) = true.
Proof.
  destruct x as [sx|[|]| |[|] mx ex], y as [sy|sy| |[|] my ey];
    try discriminate; intros _ _; try reflexivity.
  unfold SFdiv, SFdiv_core_binary.
  match goal with
  | |- context [Z.div_eucl ?a ?b] =>
      pose proof (Z.div_eucl_eq a b ltac:(lia)) as Hq;
      pose proof (Z.mod_pos_bound a b ltac:(lia)) as Hr;
      assert (Ha : (0 <= a)%Z);
      [ | unfold Z.modulo in Hr; destruct (Z.div_eucl a b) as [q r] ]
  end.
  - destruct (_ - _ - _)%Z; try lia. apply Z.shiftl_nonneg. lia.
  - cbn [xorb]. apply binary_round_aux_nonpositive. nia.
Qed.

Lemma SFmul_nonpositive (x y : spec_float) :
  SFnonpositive x = true -> SFpositive_finite y = true ->
  SFnonpositive (SFmul prec emax x y) = true.
Proof.
  destruct x as [sx|[|]| |[|] mx ex], y as [sy|sy| |[|] my ey];
    try discriminate; intros _ _; try reflexivity.
  unfold SFmul. cbn [xorb]. apply binary_round_aux_nonpositive. lia.
Qed.

Lemma positive_finite_spec (x : float) :
  (0 <? x) = true -> (x <? infinity) = true -> SFpositive_finite (Prim2SF x) = true.
Proof.
  rewrite ltb_zero_positive, ltb_spec. change (Prim2SF infinity) with (S754_infinity false).
  destruct (Prim2SF x) as [[|]|[|]| |[|] m e]; try discriminate; reflexivity.
Qed.

(** A float that is not positive and not NaN is strictly below every
    strictly positive float. *)
Lemma nonpositive_ltb_positive (c t : float) :
  SFnonpositive (Prim2SF c) = true -> (0 <? t) = true -> (c <? t) = true.
Proof.
  rewrite ltb_zero_positive, ltb_spec. unfold SFltb, SFcompare.
  destruct (Prim2SF c) as [sc|[|]| |[|] mc ec], (Prim2SF t) as [st|[|]| |[|] mt et];
    try discriminate; reflexivity.
Qed.

Lemma nonpositive_not_positive (c : float) :
  SFnonpositive (Prim2SF c) = true -> (0 <? c) = false.
Proof.
  rewrite ltb_zero_positive.
  destruct (Prim2SF c) as [sc|[|]| |[|] mc ec]; try discriminate; reflexivity.
Qed.

(** The least of several figures is not positive as soon as the last one
    is neither positive nor NaN. *)
Lemma min2_nonpositive (t c : float) :
  SFnonpositive (Prim2SF c) = true -> (0 <? Py.min2 t c) = false.
Proof.
  intros Hc. unfold Py.min2. destruct (c <? t) eqn:E.
  - apply nonpositive_not_positive, Hc.
  - destruct (0 <? t) eqn:Ht; [ | reflexivity ].
    rewrite (nonpositive_ltb_positive c t Hc Ht) in E. discriminate E.
Qed.

Lemma min3_nonpositive (a b c : float) :
  SFnonpositive (Prim2SF c) = true -> (0 <? Py.min3 a b c) = false.
Proof. apply min2_nonpositive. Qed.

End FloatOrder.

(* ===================================================================== *)
(** ** The dispatch optimizer: signs, labels and state-of-charge limits   *)
(* ===================================================================== *)

Section DispatchGuards.
Import Optimization.
Local Open Scope float_scope.

Lemma div_nonpositive (x y : float) :
  SFnonpositive (Prim2SF x) = true -> (0 <? y) = true -> (y <? infinity) = true ->
  SFnonpositive (Prim2SF (x / y)) = true.
Proof.
  intros Hx H0 Hi. rewrite div_spec.
  apply SFdiv_nonpositive; [ exact Hx | apply positive_finite_spec; assumption ].
Qed.

Lemma mul_nonpositive (x y : float) :
  SFnonpositive (Prim2SF x) = true -> (0 <? y) = true -> (y <? infinity) = true ->
  SFnonpositive (Prim2SF (x * y)) = true.
Proof.
  intros Hx H0 Hi. rewrite mul_spec.
  apply SFmul_nonpositive; [ exact Hx | apply positive_finite_spec; assumption ].
Qed.

Lemma opp_round_zero_2 : - Py.round 0 2 = (-0).
Proof. vm_compute. reflexivity. Qed.

(** X1: whatever the inputs and the mode, the grid import of a dispatch
    result is never negative and never NaN, and neither is the grid export
    as long as the export ceiling GRID_MAX_EXPORT_KW is itself not
    negative. *)
Theorem grid_flows_never_negative (env : ambient)
    (solar wind load soc cap max_pw forecast : float) (mode : string) (override : float) :
  let r := optimize_power_flow env solar wind load soc cap max_pw forecast mode override in
  (0 <=? grid_import_kw r) = true
  /\ ((0 <=? GRID_MAX_EXPORT_KW env) = true -> (0 <=? grid_export_kw r) = true).
Proof.
  cbv zeta. unfold optimize_power_flow.
  destruct (String.eqb mode "MANUAL_CHARGE"); [ | destruct (String.eqb mode "MANUAL_DISCHARGE") ];
    cbn [grid_import_kw grid_export_kw];
    try (split; [ | intros _ ]; apply round_floored_nonneg).
  destruct (0 <? solar + wind - load).
  - destruct (_ && _ && _);
      destruct (GRID_MAX_EXPORT_KW env <? _); cbn [grid_import_kw grid_export_kw];
      (split; [ reflexivity | intros Hcap; first [ exact Hcap | apply round_floored_nonneg ] ]).
  - destruct (_ && _ && _); cbn [grid_import_kw grid_export_kw];
      (split; [ apply round_floored_nonneg | intros _; reflexivity ]).
Qed.

Lemma grid_flows_never_negative_witness :
  (0 <=? grid_import_kw
           (optimize_power_flow {| local_hour := 10; GRID_MAX_EXPORT_KW := 50 |}
              80.26 0 0 95 80 20 0 "AUTO" 0)) = true
  /\ (0 <=? grid_export_kw
              (optimize_power_flow {| local_hour := 10; GRID_MAX_EXPORT_KW := 50 |}
                 80.26 0 0 95 80 20 0 "AUTO" 0)) = true.
Proof.
  pose proof (grid_flows_never_negative {| local_hour := 10; GRID_MAX_EXPORT_KW := 50 |}
                80.26 0 0 95 80 20 0 "AUTO" 0) as [H1 H2].
  split; [ exact H1 | exact (H2 eq_refl) ].
Defined.

(** X2: in AUTO mode the battery never discharges while generation
    exceeds load and never charges otherwise, and a manual discharge never
    charges: the battery power is at least zero in the first case and at
    most zero in the other two. *)
Theorem battery_direction (env : ambient)
    (solar wind load soc cap max_pw forecast : float) (mode : string) (override : float) :
  let r := optimize_power_flow env solar wind load soc cap max_pw forecast mode override in
  (auto_mode mode -> (0 <? solar + wind - load) = true -> (0 <=? battery_power_kw r) = true)
  /\ (auto_mode mode -> (0 <? solar + wind - load) = false ->
      (battery_power_kw r <=? 0) = true)
  /\ (mode = "MANUAL_DISCHARGE"%string -> (battery_power_kw r <=? 0) = true).
Proof.
  cbv zeta. split; [ | split ].
  - intros [Hc Hd] Hs. unfold optimize_power_flow. rewrite Hc, Hd, Hs.
    destruct (_ && _ && _); destruct (GRID_MAX_EXPORT_KW env <? _);
      cbn [battery_power_kw]; apply round_floored_nonneg.
  - intros [Hc Hd] Hs. unfold optimize_power_flow. rewrite Hc, Hd, Hs.
    destruct (_ && _ && _); cbn [battery_power_kw]; apply opp_round_floored_nonpos.
  - intros ->. unfold optimize_power_flow. cbn [String.eqb Ascii.eqb Bool.eqb].
    cbn [battery_power_kw]. apply opp_round_floored_nonpos.
Qed.

Lemma battery_direction_witness :
  (0 <=? battery_power_kw
           (optimize_power_flow {| local_hour := 10; GRID_MAX_EXPORT_KW := 50 |}
              40 0 20 50 80 20 0 "AUTO" 0)) = true
  /\ (battery_power_kw
        (optimize_power_flow {| local_hour := 10; GRID_MAX_EXPORT_KW := 50 |}
           10 0 30 50 80 20 0 "AUTO" 0) <=? 0) = true
  /\ (battery_power_kw
        (optimize_power_flow {| local_hour := 10; GRID_MAX_EXPORT_KW := 50 |}
           10 0 30 50 80 20 0 "MANUAL_DISCHARGE" 5) <=? 0) = true.
Proof.
  assert (Hm : auto_mode "AUTO") by (split; reflexivity).
  split; [ | split ].
  - exact (proj1 (battery_direction {| local_hour := 10; GRID_MAX_EXPORT_KW := 50 |}
                    40 0 20 50 80 20 0 "AUTO" 0) Hm eq_refl).
  - exact (proj1 (proj2 (battery_direction {| local_hour := 10; GRID_MAX_EXPORT_KW := 50 |}
                           10 0 30 50 80 20 0 "AUTO" 0)) Hm eq_refl).
  - exact (proj2 (proj2 (battery_direction {| local_hour := 10; GRID_MAX_EXPORT_KW := 50 |}
                           10 0 30 50 80 20 0 "MANUAL_DISCHARGE" 5)) eq_refl).
Defined.

(** X3: what a strategy label says about the result that carries it.  The
    two manual labels are returned in their own mode and in no other; the
    delayed-charge label comes with an idle battery, no import and a peak
    hour; the battery-saving label with an idle battery, no export and an
    off-peak hour; the peak warning with a peak hour and no export; the
    curtailment tag with an export equal to the ceiling and no import. *)
Theorem strategy_label_meaning (env : ambient)
    (solar wind load soc cap max_pw forecast : float) (mode : string) (override : float) :
  let r := optimize_power_flow env solar wind load soc cap max_pw forecast mode override in
  (strategy r = MANUAL_CHARGE <-> mode = "MANUAL_CHARGE"%string)
  /\ (strategy r = MANUAL_DISCHARGE <-> mode = "MANUAL_DISCHARGE"%string)
  /\ (strategy r = DELAYED_CHARGE_EXPORTING ->
      battery_power_kw r = 0 /\ grid_import_kw r = 0
      /\ is_peak_pricing_hour env = true /\ (0 <? solar + wind - load) = true)
  /\ (strategy r = GRID_IMPORT_SAVE_BATTERY ->
      battery_power_kw r = (-0) /\ grid_export_kw r = 0
      /\ is_peak_pricing_hour env = false /\ (0 <? solar + wind - load) = false)
  /\ (strategy r = PEAK_GRID_IMPORT_WARNING ->
      grid_export_kw r = 0
      /\ is_peak_pricing_hour env = true /\ (0 <? solar + wind - load) = false)
  /\ (forall kw, strategy r = CURTAILING_GEN kw ->
      grid_export_kw r = GRID_MAX_EXPORT_KW env /\ grid_import_kw r = 0
      /\ (0 <? solar + wind - load) = true).
Proof.
  cbv zeta. unfold optimize_power_flow.
  destruct (String.eqb_spec mode "MANUAL_CHARGE") as [-> | Hc].
  { cbn [strategy]. repeat split; try discriminate; auto. }
  destruct (String.eqb_spec mode "MANUAL_DISCHARGE") as [-> | Hd].
  { cbn [strategy]. repeat split; try discriminate; auto. }
  destruct (0 <? solar + wind - load).
  - destruct (15.0 <? forecast), (70.0 <? soc), (is_peak_pricing_hour env);
      cbn [andb]; destruct (GRID_MAX_EXPORT_KW env <? _);
      cbn [strategy battery_power_kw grid_import_kw grid_export_kw];
      repeat split; try discriminate; try contradiction; auto;
      try (intros kw H; discriminate H);
      try (rewrite max2_zero_zero, round_zero_2; reflexivity).
  - destruct (forecast <? -10.0), (is_peak_pricing_hour env), (soc <? 40.0);
      cbn [andb negb];
      try destruct (0 <? _);
      cbn [strategy battery_power_kw grid_import_kw grid_export_kw];
      repeat split; try discriminate; try contradiction; auto;
      try (intros kw H; discriminate H);
      try (rewrite max2_zero_zero; apply opp_round_zero_2).
Qed.

Lemma strategy_label_meaning_witness :
  battery_power_kw
    (optimize_power_flow {| local_hour := 10; GRID_MAX_EXPORT_KW := 50 |}
       5 0 30 30 80 20 (-20) "AUTO" 0) = (-0)
  /\ grid_export_kw
       (optimize_power_flow {| local_hour := 10; GRID_MAX_EXPORT_KW := 50 |}
          5 0 30 30 80 20 (-20) "AUTO" 0) = 0
  /\ is_peak_pricing_hour {| local_hour := 10; GRID_MAX_EXPORT_KW := 50 |} = false
  /\ (0 <? 5 + 0 - 30) = false.
Proof.
  apply (proj1 (proj2 (proj2 (proj2
           (strategy_label_meaning {| local_hour := 10; GRID_MAX_EXPORT_KW := 50 |}
              5 0 30 30 80 20 (-20) "AUTO" 0))))).
  vm_compute. reflexivity.
Defined.

(** X4: with a positive finite battery capacity, the state-of-charge
    limits are hard limits.  At or below the 5 % floor neither AUTO mode
    on a deficit nor a manual discharge draws anything from the battery
    (the battery power is -0.0); at or above 100 % AUTO mode on a surplus
    puts nothing into it. *)
Theorem soc_limits_stop_battery (env : ambient)
    (solar wind load soc cap max_pw forecast : float) (mode : string) (override : float) :
  (0 <? cap) = true -> (cap <? infinity) = true ->
  let r := optimize_power_flow env solar wind load soc cap max_pw forecast mode override in
  (auto_mode mode -> (0 <? solar + wind - load) = false -> (soc <=? 5) = true ->
   battery_power_kw r = (-0))
  /\ (mode = "MANUAL_DISCHARGE"%string -> (soc <=? 5) = true -> battery_power_kw r = (-0))
  /\ (auto_mode mode -> (0 <? solar + wind - load) = true -> (100 <=? soc) = true ->
      battery_power_kw r = 0).
Proof.
  intros Hcap0 Hcapi. cbv zeta.
  assert (H100 : (0 <? 100) = true /\ (100 <? infinity) = true) by (split; reflexivity).
  assert (Hdt : (0 <? 5 / 3600) = true /\ (5 / 3600 <? infinity) = true)
    by (split; vm_compute; reflexivity).
  destruct H100 as [H100a H100b]. destruct Hdt as [Hdta Hdtb].
  assert (Hfloor : (soc <=? 5) = true -> SFnonpositive (Prim2SF (soc - 5)) = true).
  { intros H. apply sub_leb_nonpositive; [ exact H | ].
    apply orb_true_iff. right. vm_compute. reflexivity. }
  assert (Hfull : (100 <=? soc) = true -> SFnonpositive (Prim2SF (100 - soc)) = true).
  { intros H. apply sub_leb_nonpositive; [ exact H | ].
    apply orb_true_iff. left. vm_compute. reflexivity. }
  split; [ | split ].
  - intros [Hc Hd] Hs Hsoc. unfold optimize_power_flow. rewrite Hc, Hd, Hs.
    destruct (_ && _ && _); cbn [battery_power_kw].
    + rewrite max2_zero_zero. apply opp_round_zero_2.
    + rewrite max2_zero_nonpositive; [ apply opp_round_zero_2 | ].
      apply min3_nonpositive.
      apply div_nonpositive; [ | exact Hdta | exact Hdtb ].
      apply mul_nonpositive; [ | exact Hcap0 | exact Hcapi ].
      apply div_nonpositive; [ | exact H100a | exact H100b ].
      apply Hfloor, Hsoc.
  - intros -> Hsoc. unfold optimize_power_flow. cbn [String.eqb Ascii.eqb Bool.eqb].
    cbn [battery_power_kw].
    rewrite max2_zero_nonpositive; [ apply opp_round_zero_2 | ].
    apply min2_nonpositive.
    apply div_nonpositive; [ | exact Hdta | exact Hdtb ].
    apply div_nonpositive; [ | exact H100a | exact H100b ].
    apply mul_nonpositive; [ | exact Hcap0 | exact Hcapi ].
    apply Hfloor, Hsoc.
  - intros [Hc Hd] Hs Hsoc. unfold optimize_power_flow. rewrite Hc, Hd, Hs.
    destruct (_ && _ && _); destruct (GRID_MAX_EXPORT_KW env <? _) eqn:Ecap;
      cbn [battery_power_kw];
      try (rewrite max2_zero_zero; apply round_zero_2);
      (rewrite max2_zero_nonpositive; [ apply round_zero_2 | ];
       apply min3_nonpositive;
       apply div_nonpositive; [ | exact Hdta | exact Hdtb ];
       apply mul_nonpositive; [ | exact Hcap0 | exact Hcapi ];
       apply div_nonpositive; [ | exact H100a | exact H100b ];
       apply Hfull, Hsoc).
Qed.

Lemma soc_limits_stop_battery_witness :
  battery_power_kw
    (optimize_power_flow {| local_hour := 10; GRID_MAX_EXPORT_KW := 50 |}
       10 0 30 4.5 80 20 0 "AUTO" 0) = (-0)
  /\ battery_power_kw
       (optimize_power_flow {| local_hour := 10; GRID_MAX_EXPORT_KW := 50 |}
          10 0 30 4.5 80 20 0 "MANUAL_DISCHARGE" 10) = (-0)
  /\ battery_power_kw
       (optimize_power_flow {| local_hour := 10; GRID_MAX_EXPORT_KW := 50 |}
          40 0 20 100 80 20 0 "AUTO" 0) = 0.
Proof.
  assert (Hm : auto_mode "AUTO") by (split; reflexivity).
  split; [ | split ].
  - exact (proj1 (soc_limits_stop_battery {| local_hour := 10; GRID_MAX_EXPORT_KW := 50 |}
                    10 0 30 4.5 80 20 0 "AUTO" 0 eq_refl eq_refl) Hm eq_refl eq_refl).
  - exact (proj1 (proj2 (soc_limits_stop_battery
                           {| local_hour := 10; GRID_MAX_EXPORT_KW := 50 |}
                           10 0 30 4.5 80 20 0 "MANUAL_DISCHARGE" 10 eq_refl eq_refl))
             eq_refl eq_refl).
  - exact (proj2 (proj2 (soc_limits_stop_battery
                           {| local_hour := 10; GRID_MAX_EXPORT_KW := 50 |}
                           40 0 20 100 80 20 0 "AUTO" 0 eq_refl eq_refl))
             Hm eq_refl eq_refl).
Defined.

End DispatchGuards.

(* ===================================================================== *)
(** ** Payload normalisation: failure, keys, clamps and idempotence       *)
(* ===================================================================== *)

Section NormalisedReadings.
Import Optimization Ingestion.
Local Open Scope float_scope.

Lemma get_float_None (d : payload) (k : string) (dflt : float) :
  get_float d k dflt = None <-> exists v, d !! k = Some v /\ to_float v = None.
Proof.
  unfold get_float. destruct (d !! k) as [v|].
  - split; [ intros H; exists v; auto | intros (v' & [= <-] & H); exact H ].
  - split; [ discriminate | intros (v' & H & _); discriminate H ].
Qed.

Lemma item_get_float (d : payload) (k : string) (dflt v : float) :
  item_float d k = Some v -> get_float d k dflt = Some v.
Proof.
  unfold item_float, get_float. destruct (d !! k) as [x|]; [ | discriminate ].
  cbn [mbind option_bind]. destruct x; cbn [as_float to_float]; congruence.
Qed.

(** The reading [process_sensor_payload] returns, written out. *)
Lemma process_sensor_payload_form (utcnow : Z) (raw : payload) (ts : option Z) (r : payload) :
  process_sensor_payload utcnow raw ts = Some r ->
  exists solar wind total load soc battery grid_import grid_export share co2 cost,
    r = match stored_strategy raw with
        | Some label =>
            <["active_strategy" := label]>
              (list_to_map
                 [ ("timestamp_utc",
                    match ts with
                    | Some t => VTimestamp t
                    | None => default (VTimestamp utcnow) (raw !! "timestamp_utc")
                    end);
                   ("solar_kw", VFloat solar);
                   ("wind_kw", VFloat wind);
                   ("total_generation_kw", VFloat total);
                   ("load_kw", VFloat load);
                   ("battery_soc_pct", VFloat soc);
                   ("battery_power_kw", VFloat battery);
                   ("grid_import_kw", VFloat grid_import);
                   ("grid_export_kw", VFloat grid_export);
                   ("self_consumption_pct", VFloat share);
                   ("co2_saved_kg", VFloat co2);
                   ("cost_saved_inr", VFloat cost) ])
        | None =>
            list_to_map
              [ ("timestamp_utc",
                 match ts with
                 | Some t => VTimestamp t
                 | None => default (VTimestamp utcnow) (raw !! "timestamp_utc")
                 end);
                ("solar_kw", VFloat solar);
                ("wind_kw", VFloat wind);
                ("total_generation_kw", VFloat total);
                ("load_kw", VFloat load);
                ("battery_soc_pct", VFloat soc);
                ("battery_power_kw", VFloat battery);
                ("grid_import_kw", VFloat grid_import);
                ("grid_export_kw", VFloat grid_export);
                ("self_consumption_pct", VFloat share);
                ("co2_saved_kg", VFloat co2);
                ("cost_saved_inr", VFloat cost) ]
        end
    /\ (exists x, solar = Py.max2 0.0 x) /\ (exists x, wind = Py.max2 0.0 x)
    /\ (exists x, total = Py.max2 0.0 x) /\ (exists x, load = Py.max2 0.0 x)
    /\ (exists x, soc = Py.max2 0.0 (Py.min2 100.0 x))
    /\ (exists x, grid_import = Py.max2 0.0 x) /\ (exists x, grid_export = Py.max2 0.0 x)
    /\ (exists x, share = Py.max2 0.0 (Py.min2 100.0 x)).
Proof.
  unfold process_sensor_payload.
  destruct (get_float raw "solar_kw" 0.0) as [solar|]; [ | discriminate ].
  destruct (get_float raw "wind_kw" 0.0) as [wind|]; [ | discriminate ].
  destruct (get_float raw "total_generation_kw" 0.0) as [total|]; [ | discriminate ].
  destruct (get_float raw "load_kw" 0.0) as [load|]; [ | discriminate ].
  destruct (get_float raw "battery_soc_pct" 50.0) as [soc|]; [ | discriminate ].
  destruct (get_float raw "battery_power_kw" 0.0) as [battery|]; [ | discriminate ].
  destruct (get_float raw "grid_import_kw" 0.0) as [grid_import|]; [ | discriminate ].
  destruct (get_float raw "grid_export_kw" 0.0) as [grid_export|]; [ | discriminate ].
  destruct (get_float raw "self_consumption_pct" 0.0) as [share|]; [ | discriminate ].
  destruct (get_float raw "co2_saved_kg" 0.0) as [co2|]; [ | discriminate ].
  destruct (get_float raw "cost_saved_inr" 0.0) as [cost|]; [ | discriminate ].
  cbn [mbind option_bind]. cbv zeta. intros H.
  exists (Py.max2 0.0 solar), (Py.max2 0.0 wind), (Py.max2 0.0 total), (Py.max2 0.0 load),
    (Py.max2 0.0 (Py.min2 100.0 soc)), battery, (Py.max2 0.0 grid_import),
    (Py.max2 0.0 grid_export), (Py.max2 0.0 (Py.min2 100.0 share)), co2, cost.
  split; [ unfold stored_strategy; cbv zeta; destruct (truthy _); congruence | ].
  repeat split; eexists; reflexivity.
Qed.

(** The entries of a dict of that form. *)
Lemma normalised_lookups (t : value) (st : option value)
    (solar wind total load soc battery grid_import grid_export share co2 cost : float) :
  let r : payload :=
    match st with
    | Some label =>
        <["active_strategy" := label]>
          (list_to_map
             [ ("timestamp_utc", t);
               ("solar_kw", VFloat solar);
               ("wind_kw", VFloat wind);
               ("total_generation_kw", VFloat total);
               ("load_kw", VFloat load);
               ("battery_soc_pct", VFloat soc);
               ("battery_power_kw", VFloat battery);
               ("grid_import_kw", VFloat grid_import);
               ("grid_export_kw", VFloat grid_export);
               ("self_consumption_pct", VFloat share);
               ("co2_saved_kg", VFloat co2);
               ("cost_saved_inr", VFloat cost) ])
    | None =>
        list_to_map
          [ ("timestamp_utc", t);
            ("solar_kw", VFloat solar);
            ("wind_kw", VFloat wind);
            ("total_generation_kw", VFloat total);
            ("load_kw", VFloat load);
            ("battery_soc_pct", VFloat soc);
            ("battery_power_kw", VFloat battery);
            ("grid_import_kw", VFloat grid_import);
            ("grid_export_kw", VFloat grid_export);
            ("self_consumption_pct", VFloat share);
            ("co2_saved_kg", VFloat co2);
            ("cost_saved_inr", VFloat cost) ]
    end in
  r !! "timestamp_utc" = Some t
  /\ r !! "active_strategy" = st
  /\ r !! "timestamp" = None
  /\ item_float r "solar_kw" = Some solar
  /\ item_float r "wind_kw" = Some wind
  /\ item_float r "total_generation_kw" = Some total
  /\ item_float r "load_kw" = Some load
  /\ item_float r "battery_soc_pct" = Some soc
  /\ item_float r "battery_power_kw" = Some battery
  /\ item_float r "grid_import_kw" = Some grid_import
  /\ item_float r "grid_export_kw" = Some grid_export
  /\ item_float r "self_consumption_pct" = Some share
  /\ item_float r "co2_saved_kg" = Some co2
  /\ item_float r "cost_saved_inr" = Some cost.
Proof.
  cbv zeta. unfold item_float.
  destruct st as [label|]; repeat split; vm_compute; reflexivity.
Qed.

(** A true value prints as a true string, and printing twice is printing
    once. *)
Lemma truthy_str (v : value) : truthy v = true -> truthy (str v) = true.
Proof. destruct v; cbn; auto. Qed.

Lemma str_str (v : value) : str (str v) = str v.
Proof. destruct v; reflexivity. Qed.

(** X5: [process_sensor_payload] raises exactly when the payload holds,
    under one of the eleven numeric keys, an entry that [float] rejects
    ([None], a timestamp, a label or another string that is not the text
    of a float); a missing key never makes it raise. *)
Theorem process_sensor_payload_raises_iff (utcnow : Z) (raw : payload) (ts : option Z) :
  process_sensor_payload utcnow raw ts = None
  <-> exists k v, In k numeric_keys /\ raw !! k = Some v /\ to_float v = None.
Proof.
  split.
  - unfold process_sensor_payload.
    repeat match goal with
    | |- context [get_float raw ?k ?d] =>
        destruct (get_float raw k d) eqn:?E;
        [ clear E
        | intros _; apply get_float_None in E as (v & Hv & Hf);
          exists k, v; split; [ cbn; tauto | auto ] ]
    end.
    cbn [mbind option_bind]. cbv zeta.
    destruct (truthy _); discriminate.
  - intros (k & v & Hk & Hv & Hf).
    assert (E : forall d, get_float raw k d = None)
      by (intros d; apply get_float_None; eauto).
    unfold process_sensor_payload. cbn [In numeric_keys] in Hk.
    repeat (destruct Hk as [<- | Hk];
            [ rewrite E;
              repeat match goal with
              | |- context [get_float raw ?k' ?d] =>
                  destruct (get_float raw k' d); cbn [mbind option_bind]
              end; reflexivity | ]).
    destruct Hk.
Qed.

(** X6: in a reading [process_sensor_payload] returns, the six power and
    grid figures it floors are never negative and never NaN, and the state
    of charge and the self-consumption share lie between 0 and 100,
    whatever floats the payload held. *)
Theorem process_sensor_payload_clamps (utcnow : Z) (raw : payload) (ts : option Z)
    (r : payload) :
  process_sensor_payload utcnow raw ts = Some r ->
  (forall k, In k floored_keys -> exists v, item_float r k = Some v /\ (0 <=? v) = true)
  /\ (forall k, In k percent_keys ->
      exists v, item_float r k = Some v /\ within 0 100 v = true).
Proof.
  intros H.
  destruct (process_sensor_payload_form _ _ _ _ H)
    as (solar & wind & total & load & soc & battery & gi & ge & share & co2 & cost
        & Hr & E1 & E2 & E3 & E4 & E5 & E6 & E7 & E8).
  set (t := match ts with Some _ => _ | None => _ end) in Hr.
  pose proof (normalised_lookups t (stored_strategy raw)
                solar wind total load soc battery gi ge share co2 cost) as L.
  cbv zeta in L. rewrite <- Hr in L.
  destruct E1 as [x1 ->]. destruct E2 as [x2 ->]. destruct E3 as [x3 ->].
  destruct E4 as [x4 ->]. destruct E5 as [x5 ->]. destruct E6 as [x6 ->].
  destruct E7 as [x7 ->]. destruct E8 as [x8 ->].
  destruct L as (_ & _ & _ & Hs & Hw & Ht & Hl & Hsoc & _ & Hgi & Hge & Hsh & _).
  assert (Hfloor : forall x, (0 <=? Py.max2 0 x) = true)
    by (intros x; apply leb_zero_nonnegative, max2_zero_nonnegative).
  split; intros k Hk; cbn [In floored_keys percent_keys] in Hk;
    repeat (destruct Hk as [<- | Hk];
            [ eexists; split;
              [ eassumption | first [ apply Hfloor | apply clamp_0_100 ] ]
            | ]);
    destruct Hk.
Qed.

Lemma process_sensor_payload_clamps_witness :
  exists r,
    process_sensor_payload 0
      {[ "solar_kw" := VFloat (-3); "battery_soc_pct" := VFloat 140 ]} None = Some r
    /\ (forall k, In k floored_keys -> exists v, item_float r k = Some v /\ (0 <=? v) = true)
    /\ (forall k, In k percent_keys ->
        exists v, item_float r k = Some v /\ within 0 100 v = true).
Proof.
  assert (Hsome :
    match process_sensor_payload 0
            {[ "solar_kw" := VFloat (-3); "battery_soc_pct" := VFloat 140 ]} None with
    | Some _ => true
    | None => false
    end = true) by (vm_compute; reflexivity).
  destruct (process_sensor_payload 0 _ None) as [r|] eqn:E; [ | discriminate Hsome ].
  exists r. split; [ reflexivity | ].
  exact (process_sensor_payload_clamps _ _ _ _ E).
Defined.

Lemma max2_zero_idempotent (x : float) : Py.max2 0 (Py.max2 0 x) = Py.max2 0 x.
Proof.
  unfold Py.max2 at 2 3. destruct (0 <? x) eqn:E.
  - apply max2_zero_positive, E.
  - apply max2_zero_zero.
Qed.

Lemma clamp_0_100_idempotent (x : float) :
  Py.max2 0 (Py.min2 100 (Py.max2 0 (Py.min2 100 x))) = Py.max2 0 (Py.min2 100 x).
Proof.
  unfold Py.min2 at 2 3. destruct (x <? 100) eqn:E100.
  - unfold Py.max2 at 2 3. destruct (0 <? x) eqn:E0.
    + unfold Py.min2. rewrite E100. apply max2_zero_positive, E0.
    + vm_compute. reflexivity.
  - vm_compute. reflexivity.
Qed.

(** X7: normalising twice is normalising once.  A reading returned by
    [process_sensor_payload] is returned unchanged when it is handed to
    the function again, at any later time. *)
Theorem process_sensor_payload_idempotent (utcnow utcnow' : Z) (raw : payload)
    (ts : option Z) (r : payload) :
  process_sensor_payload utcnow raw ts = Some r ->
  process_sensor_payload utcnow' r None = Some r.
Proof.
  intros H.
  destruct (process_sensor_payload_form _ _ _ _ H)
    as (solar & wind & total & load & soc & battery & gi & ge & share & co2 & cost
        & Hr & E1 & E2 & E3 & E4 & E5 & E6 & E7 & E8).
  set (t := match ts with Some _ => _ | None => _ end) in Hr.
  pose proof (normalised_lookups t (stored_strategy raw)
                solar wind total load soc battery gi ge share co2 cost) as L.
  cbv zeta in L. rewrite <- Hr in L.
  destruct E1 as [x1 ->]. destruct E2 as [x2 ->]. destruct E3 as [x3 ->].
  destruct E4 as [x4 ->]. destruct E5 as [x5 ->]. destruct E6 as [x6 ->].
  destruct E7 as [x7 ->]. destruct E8 as [x8 ->].
  destruct L as (Hts & Hst & _ & Hs & Hw & Ht & Hl & Hsoc & Hb & Hgi & Hge & Hsh & Hco & Hcost).
  unfold process_sensor_payload.
  rewrite (item_get_float _ _ 0.0 _ Hs), (item_get_float _ _ 0.0 _ Hw),
    (item_get_float _ _ 0.0 _ Ht), (item_get_float _ _ 0.0 _ Hl),
    (item_get_float _ _ 50.0 _ Hsoc), (item_get_float _ _ 0.0 _ Hb),
    (item_get_float _ _ 0.0 _ Hgi), (item_get_float _ _ 0.0 _ Hge),
    (item_get_float _ _ 0.0 _ Hsh), (item_get_float _ _ 0.0 _ Hco),
    (item_get_float _ _ 0.0 _ Hcost).
  cbn [mbind option_bind]. cbv zeta. rewrite Hts, Hst. cbn [default].
  rewrite !max2_zero_idempotent, !clamp_0_100_idempotent.
  rewrite Hr. unfold stored_strategy. cbv zeta.
  destruct (truthy (default VNone (raw !! "active_strategy"))) eqn:Et;
    cbn [default from_option id].
  - rewrite (truthy_str _ Et), str_str. reflexivity.
  - reflexivity.
Qed.

Lemma process_sensor_payload_idempotent_witness :
  exists r,
    process_sensor_payload 0
      {[ "solar_kw" := VFloat (-3); "battery_soc_pct" := VFloat 140 ]} None = Some r
    /\ process_sensor_payload 99 r None = Some r.
Proof.
  assert (Hsome :
    match process_sensor_payload 0
            {[ "solar_kw" := VFloat (-3); "battery_soc_pct" := VFloat 140 ]} None with
    | Some _ => true
    | None => false
    end = true) by (vm_compute; reflexivity).
  destruct (process_sensor_payload 0 _ None) as [r|] eqn:E; [ | discriminate Hsome ].
  exists r. split; [ reflexivity | ].
  exact (process_sensor_payload_idempotent 0 99 _ None r E).
Defined.

(** X8: the keys of a reading [process_sensor_payload] returns are
    ["timestamp_utc"], the eleven numeric keys, and ["active_strategy"]
    exactly when the payload holds a true value there; that value is
    stored as its string, so a label is kept as it is and a non-zero float
    or a timestamp is stored printed.  [None], a zero and a missing entry
    leave the key out, and every other key of the payload, such as the
    simulator's ["timestamp"], is dropped. *)
Theorem process_sensor_payload_keys (utcnow : Z) (raw : payload) (ts : option Z)
    (r : payload) :
  process_sensor_payload utcnow raw ts = Some r ->
  (forall k : string,
     is_Some (r !! k)
     <-> k = "timestamp_utc"%string \/ In k numeric_keys
         \/ (k = "active_strategy"%string
             /\ exists v, raw !! "active_strategy" = Some v /\ truthy v = true))
  /\ (forall v, raw !! "active_strategy" = Some v -> truthy v = true ->
       r !! "active_strategy" = Some (str v)).
Proof.
  intros H.
  destruct (process_sensor_payload_form _ _ _ _ H)
    as (solar & wind & total & load & soc & battery & gi & ge & share & co2 & cost & Hr & _).
  clear H. subst r.
  set (t := match ts with Some _ => _ | None => _ end). clearbody t.
  assert (Hbase : forall k : string,
    is_Some ((list_to_map
        [ ("timestamp_utc", t);
          ("solar_kw", VFloat solar);
          ("wind_kw", VFloat wind);
          ("total_generation_kw", VFloat total);
          ("load_kw", VFloat load);
          ("battery_soc_pct", VFloat soc);
          ("battery_power_kw", VFloat battery);
          ("grid_import_kw", VFloat gi);
          ("grid_export_kw", VFloat ge);
          ("self_consumption_pct", VFloat share);
          ("co2_saved_kg", VFloat co2);
          ("cost_saved_inr", VFloat cost) ] : payload) !! k)
    <-> k = "timestamp_utc"%string \/ In k numeric_keys).
  { intros k. cbn [list_to_map foldr fst snd].
    rewrite !lookup_insert_is_Some', lookup_empty.
    pose proof (@is_Some_None value) as Hnone.
    cbn [In numeric_keys]. intuition congruence. }
  assert (Hno : ~ (("active_strategy"%string = "timestamp_utc"%string)
                   \/ In "active_strategy"%string numeric_keys)).
  { cbn [In numeric_keys]. intros [E | E]; [ discriminate E | ].
    repeat (destruct E as [E | E]; [ discriminate E | ]). exact E. }
  unfold stored_strategy. cbv zeta.
  destruct (raw !! "active_strategy") as [v|] eqn:Es; cbn [default from_option id];
    [ destruct (truthy v) eqn:Et | change (truthy VNone) with false; cbv iota ].
  - split.
    + intros k. rewrite lookup_insert_is_Some', Hbase. split.
      * intros [<- | E]; [ right; right; eauto | tauto ].
      * intros [E | [E | [-> _]]]; [ tauto | tauto | left; reflexivity ].
    + intros v' Hv' _. injection Hv' as <-. apply lookup_insert_eq.
  - split.
    + intros k. rewrite Hbase. split; [ tauto | ].
      intros [E | [E | [-> (v' & Hv' & Ht')]]]; [ tauto | tauto | ].
      injection Hv' as <-. congruence.
    + intros v' Hv' Ht'. injection Hv' as <-. congruence.
  - split.
    + intros k. rewrite Hbase. split; [ tauto | ].
      intros [E | [E | [-> (v' & Hv' & _)]]]; [ tauto | tauto | discriminate Hv' ].
    + intros v' Hv'. discriminate Hv'.
Qed.

Lemma process_sensor_payload_keys_witness :
  exists r,
    process_sensor_payload 0
      {[ "timestamp" := VTimestamp 5; "active_strategy" := VFloat 1 ]} None = Some r
    /\ ~ is_Some (r !! "timestamp"%string)
    /\ r !! "active_strategy"%string = Some (VStr (VFloat 1)).
Proof.
  assert (Hsome :
    match process_sensor_payload 0
            {[ "timestamp" := VTimestamp 5; "active_strategy" := VFloat 1 ]} None with
    | Some _ => true
    | None => false
    end = true) by (vm_compute; reflexivity).
  destruct (process_sensor_payload 0 _ None) as [r|] eqn:E; [ | discriminate Hsome ].
  exists r. split; [ reflexivity | ].
  destruct (process_sensor_payload_keys _ _ _ _ E) as [Hk Hs]. split.
  - intros Hin. apply Hk in Hin.
    destruct Hin as [Hin | [Hin | [Hin _]]]; [ discriminate Hin | | discriminate Hin ].
    cbn [In numeric_keys] in Hin.
    repeat (destruct Hin as [Hin | Hin]; [ discriminate Hin | ]). exact Hin.
  - apply (Hs (VFloat 1)); vm_compute; reflexivity.
Defined.

End NormalisedReadings.

(* ===================================================================== *)
(** ** Recommendations                                                    *)
(* ===================================================================== *)

Section Recommendations.
Import Optimization Ingestion Simulator.
Local Open Scope float_scope.

(** [x % 24] never raises. *)
Lemma mod_24_total (x : float) : exists m, Py.mod_ x 24 = Some m.
Proof.
  unfold Py.mod_. change (24 =? 0) with false. cbv iota.
  destruct (Py.fmod x 24 =? 0); [ eauto | ].
  destruct (xorb _ _); eauto.
Qed.

Lemma hour_local_window (h : Z) :
  (0 <= h < 24)%Z ->
  exists hour_local,
    Py.mod_ (Py.of_int h + 5.5) 24 = Some hour_local
    /\ (14 <=? hour_local) && (hour_local <=? 17) = ((9 <=? h) && (h <=? 11))%Z.
Proof.
  intros H.
  assert (Hall : forallb shift_window_agrees (seqZ 0 24) = true) by (vm_compute; reflexivity).
  rewrite forallb_forall in Hall.
  specialize (Hall h ltac:(apply list_elem_of_In, elem_of_seqZ; lia)).
  unfold shift_window_agrees in Hall.
  destruct (Py.mod_ _ 24) as [hl|]; [ | discriminate Hall ].
  exists hl. split; [ reflexivity | apply Bool.eqb_prop, Hall ].
Qed.

Lemma early_nil (forecast : float) :
  Forall (early_rule forecast) [] /\ (length (@nil recommendation) <= 1)%nat.
Proof. split; [ constructor | cbn; lia ]. Qed.

Lemma early_single (forecast : float) (rec : recommendation) :
  early_rule forecast rec ->
  Forall (early_rule forecast) [rec] /\ (length [rec] <= 1)%nat.
Proof. intros H. split; [ constructor; [ exact H | constructor ] | cbn; lia ]. Qed.

(** What [generate_recommendations] returns, rule by rule: the entries of
    the first four rules, then the load-shifting entry when its condition
    holds, and the OPTIMAL entry when there is nothing else. *)
Lemma generate_recommendations_rules (utc_hour : Z) (r : payload) (forecast : float)
    (recs : list recommendation) :
  generate_recommendations utc_hour r forecast = Some recs ->
  exists load gen hour_local others,
    item_float r "load_kw" = Some load
    /\ item_float r "total_generation_kw" = Some gen
    /\ Py.mod_ (Py.of_int utc_hour + 5.5) 24 = Some hour_local
    /\ Forall (early_rule forecast) others
    /\ (length others <= 4)%nat
    /\ match
         others
         ++ (if (14 <=? hour_local) && (hour_local <=? 17) && (50 <? load) && (gen <? 20)
             then [ {| action := SHIFT_LOAD; priority := MEDIUM; message := HighPeakLoad |} ]
             else [])
       with
       | [] =>
           exists share,
             item_float r "self_consumption_pct" = Some share
             /\ recs = [ {| action := OPTIMAL; priority := LOW;
                            message := OperatingOptimally share |} ]
       | l => recs = l
       end.
Proof.
  unfold generate_recommendations, item_float.
  destruct (r !! "battery_soc_pct") as [soc|]; [ | discriminate ].
  destruct (r !! "total_generation_kw") as [gen|]; [ | discriminate ].
  destruct (r !! "load_kw") as [load|]; [ | discriminate ].
  destruct (r !! "grid_import_kw") as [grid_import|]; [ | discriminate ].
  cbn [mbind option_bind].
  (* rule 1 *)
  match goal with
  | |- (?b ≫= _) = _ -> _ => destruct b as [recs1|] eqn:E1; [ | discriminate ]
  end.
  cbn [mbind option_bind].
  assert (H1 : Forall (early_rule forecast) recs1 /\ (length recs1 <= 1)%nat).
  { destruct (r !! "battery_power_kw" ≫= as_float) as [battery|]; [ | discriminate E1 ].
    cbn [mbind option_bind] in E1.
    destruct (5 <? battery); [ | injection E1 as <-; apply early_nil ].
    destruct (as_float soc) as [s|]; [ | discriminate E1 ]. cbn [mbind option_bind] in E1.
    destruct (s <? 80); injection E1 as <-; [ | apply early_nil ].
    apply early_single. split; [ auto | intros ? [=] ]. }
  clear E1.
  (* rule 2 *)
  match goal with
  | |- (?b ≫= _) = _ -> _ => destruct b as [recs2|] eqn:E2; [ | discriminate ]
  end.
  cbn [mbind option_bind].
  destruct (as_float soc) as [s|] eqn:Es; [ | discriminate E2 ].
  cbn [mbind option_bind] in *.
  assert (H2 : Forall (early_rule forecast) recs2 /\ (length recs2 <= 1)%nat).
  { destruct (s <? 20); [ | injection E2 as <-; apply early_nil ].
    destruct (as_float grid_import) as [g|]; [ | discriminate E2 ].
    cbn [mbind option_bind] in E2.
    destruct (5 <? g); injection E2 as <-; [ | apply early_nil ].
    apply early_single. split; [ auto | intros ? [=] ]. }
  clear E2.
  (* rule 3 *)
  match goal with
  | |- (?b ≫= _) = _ -> _ => destruct b as [recs3|] eqn:E3; [ | discriminate ]
  end.
  cbn [mbind option_bind].
  assert (H3 : Forall (early_rule forecast) recs3 /\ (length recs3 <= 1)%nat).
  { destruct (10 <? forecast) eqn:Ef; [ | injection E3 as <-; apply early_nil ].
    destruct (s <? 60); injection E3 as <-; [ | apply early_nil ].
    apply early_single. split; [ auto | intros ? _; exact Ef ]. }
  clear E3.
  (* rule 4 *)
  match goal with
  | |- (?b ≫= _) = _ -> _ => destruct b as [recs4|] eqn:E4; [ | discriminate ]
  end.
  cbn [mbind option_bind].
  destruct (as_float load) as [l|] eqn:El; [ | discriminate E4 ].
  destruct (as_float gen) as [g|] eqn:Eg; [ | discriminate E4 ].
  cbn [mbind option_bind] in *.
  assert (H4 : Forall (early_rule forecast) recs4 /\ (length recs4 <= 1)%nat).
  { destruct (l * 1.3 <? g); [ | injection E4 as <-; apply early_nil ].
    destruct (85 <? s); [ | injection E4 as <-; apply early_nil ].
    destruct (r !! "grid_export_kw" ≫= as_float) as [e|]; [ | discriminate E4 ].
    cbn [mbind option_bind] in E4. injection E4 as <-.
    apply early_single. split; [ auto | intros ? [=] ]. }
  clear E4.
  (* rule 5 *)
  destruct (mod_24_total (Py.of_int utc_hour + 5.5)) as [hl Ehl]. rewrite Ehl.
  cbn [mbind option_bind].
  match goal with
  | |- (?b ≫= _) = _ -> _ => destruct b as [recs5|] eqn:E5; [ | discriminate ]
  end.
  cbn [mbind option_bind].
  assert (H5 : recs5 = if (14 <=? hl) && (hl <=? 17) && (50 <? l) && (g <? 20)
                       then [ {| action := SHIFT_LOAD; priority := MEDIUM;
                                 message := HighPeakLoad |} ]
                       else []).
  { destruct ((14 <=? hl) && (hl <=? 17)); cbn [andb]; [ | congruence ].
    destruct (50 <? l); cbn [andb]; [ | congruence ].
    destruct (g <? 20); congruence. }
  clear E5. intros H.
  exists l, g, hl, (recs1 ++ recs2 ++ recs3 ++ recs4).
  destruct H1 as [F1 L1], H2 as [F2 L2], H3 as [F3 L3], H4 as [F4 L4].
  split; [ reflexivity | ]. split; [ reflexivity | ]. split; [ reflexivity | ].
  split; [ repeat (apply Forall_app; split); assumption | ].
  split; [ rewrite !length_app; lia | ].
  rewrite <- H5, <- !app_assoc.
  destruct (recs1 ++ recs2 ++ recs3 ++ recs4 ++ recs5) as [|rec l'].
  - destruct (r !! "self_consumption_pct" ≫= as_float) as [share|]; [ | discriminate H ].
    cbn [mbind option_bind] in H. exists share. split; [ reflexivity | congruence ].
  - congruence.
Qed.

(** X9: [generate_recommendations] never returns an empty list and
    never more than five entries, and the OPTIMAL entry stands alone: it
    is emitted only when no rule has fired. *)
Theorem recommendations_never_empty (utc_hour : Z) (r : payload) (forecast : float)
    (recs : list recommendation) :
  generate_recommendations utc_hour r forecast = Some recs ->
  recs <> []
  /\ (length recs <= 5)%nat
  /\ (forall rec, In rec recs -> action rec = OPTIMAL -> recs = [rec]).
Proof.
  intros H.
  destruct (generate_recommendations_rules _ _ _ _ H)
    as (load & gen & hl & others & _ & _ & _ & Hothers & Hlen & Hrecs).
  match type of Hrecs with
  | context [if ?b then ?x else ?y] => set (shift := if b then x else y) in Hrecs
  end.
  assert (Hshift : Forall (fun rec => action rec = SHIFT_LOAD) shift /\ (length shift <= 1)%nat).
  { subst shift. destruct (_ && _); split; repeat constructor. }
  destruct Hshift as [Hshift Hlen'].
  destruct (others ++ shift) as [|rec0 l] eqn:El.
  - destruct Hrecs as (share & _ & ->).
    split; [ discriminate | ]. split; [ cbn; lia | ].
    intros rec [<- | []] _. reflexivity.
  - subst recs. split; [ discriminate | ].
    split; [ rewrite <- El, length_app; lia | ].
    intros rec Hin Hopt. exfalso. rewrite <- El in Hin.
    apply in_app_or in Hin as [Hin | Hin].
    + rewrite Forall_forall in Hothers. apply list_elem_of_In in Hin.
      destruct (Hothers rec Hin) as [[E | [E | E]] _]; congruence.
    + rewrite Forall_forall in Hshift. apply list_elem_of_In in Hin.
      specialize (Hshift rec Hin). congruence.
Qed.

Lemma recommendations_never_empty_witness :
  exists recs,
    generate_recommendations 10
      {[ "battery_soc_pct" := VFloat 50; "total_generation_kw" := VFloat 10;
         "load_kw" := VFloat 60; "grid_import_kw" := VFloat 50;
         "battery_power_kw" := VFloat 0 ]} 0 = Some recs
    /\ recs <> []
    /\ (length recs <= 5)%nat
    /\ (forall rec, In rec recs -> action rec = OPTIMAL -> recs = [rec]).
Proof.
  assert (Hsome :
    match generate_recommendations 10
            {[ "battery_soc_pct" := VFloat 50; "total_generation_kw" := VFloat 10;
               "load_kw" := VFloat 60; "grid_import_kw" := VFloat 50;
               "battery_power_kw" := VFloat 0 ]} 0 with
    | Some _ => true
    | None => false
    end = true) by (vm_compute; reflexivity).
  destruct (generate_recommendations 10 _ 0) as [recs|] eqn:E; [ | discriminate Hsome ].
  exists recs. split; [ reflexivity | ].
  exact (recommendations_never_empty _ _ _ _ E).
Defined.

(** X10: the load-shifting recommendation is emitted exactly when the UTC
    hour is 9, 10 or 11 (local time 14:30 to 17:29), the load exceeds
    50 kW and the generation is below 20 kW. *)
Theorem shift_load_window (utc_hour : Z) (r : payload) (forecast : float)
    (recs : list recommendation) :
  (0 <= utc_hour < 24)%Z ->
  generate_recommendations utc_hour r forecast = Some recs ->
  (exists rec, In rec recs /\ action rec = SHIFT_LOAD)
  <-> ((9 <= utc_hour <= 11)%Z
       /\ exists load gen,
            item_float r "load_kw" = Some load
            /\ item_float r "total_generation_kw" = Some gen
            /\ (50 <? load) = true /\ (gen <? 20) = true).
Proof.
  intros Hh H.
  destruct (generate_recommendations_rules _ _ _ _ H)
    as (load & gen & hl & others & Hl & Hg & Ehl & Hothers & _ & Hrecs).
  destruct (hour_local_window utc_hour Hh) as (hl' & Ehl' & Hwin).
  rewrite Ehl in Ehl'. injection Ehl' as <-. rewrite Hwin in Hrecs.
  assert (Hno : forall rec, In rec others -> action rec <> SHIFT_LOAD).
  { intros rec Hin. rewrite Forall_forall in Hothers. apply list_elem_of_In in Hin.
    destruct (Hothers rec Hin) as [[E | [E | E]] _]; congruence. }
  assert (Hz : ((9 <=? utc_hour) && (utc_hour <=? 11))%Z = true <-> (9 <= utc_hour <= 11)%Z).
  { rewrite andb_true_iff, !Z.leb_le. tauto. }
  destruct (((9 <=? utc_hour)%Z && (utc_hour <=? 11)%Z) && (50 <? load) && (gen <? 20)) eqn:E.
  - apply andb_prop in E as [E E3]. apply andb_prop in E as [E1 E2].
    split.
    + intros _. split; [ apply Hz, E1 | exists load, gen; auto ].
    + intros _. exists {| action := SHIFT_LOAD; priority := MEDIUM; message := HighPeakLoad |}.
      split; [ | reflexivity ].
      destruct (others ++ _) as [|rec0 l] eqn:El;
        [ destruct others; discriminate El | ].
      subst recs. rewrite <- El. apply in_or_app. right. left. reflexivity.
  - split.
    + intros (rec & Hin & Hact). exfalso. rewrite app_nil_r in Hrecs.
      destruct others as [|rec0 l].
      * destruct Hrecs as (share & _ & ->). destruct Hin as [<- | []]. discriminate Hact.
      * subst recs. exact (Hno rec Hin Hact).
    + intros (Hwindow & load' & gen' & Hl' & Hg' & E2 & E3). exfalso.
      rewrite Hl in Hl'. rewrite Hg in Hg'. injection Hl' as <-. injection Hg' as <-.
      apply Hz in Hwindow. rewrite Hwindow, E2, E3 in E. discriminate E.
Qed.

Lemma shift_load_window_witness :
  exists recs,
    generate_recommendations 10
      {[ "battery_soc_pct" := VFloat 50; "total_generation_kw" := VFloat 10;
         "load_kw" := VFloat 60; "grid_import_kw" := VFloat 50;
         "battery_power_kw" := VFloat 0 ]} 0 = Some recs
    /\ ((exists rec, In rec recs /\ action rec = SHIFT_LOAD)
        <-> ((9 <= 10 <= 11)%Z
             /\ exists load gen,
                  item_float
                    {[ "battery_soc_pct" := VFloat 50; "total_generation_kw" := VFloat 10;
                       "load_kw" := VFloat 60; "grid_import_kw" := VFloat 50;
                       "battery_power_kw" := VFloat 0 ]} "load_kw" = Some load
                  /\ item_float
                       {[ "battery_soc_pct" := VFloat 50; "total_generation_kw" := VFloat 10;
                          "load_kw" := VFloat 60; "grid_import_kw" := VFloat 50;
                          "battery_power_kw" := VFloat 0 ]} "total_generation_kw" = Some gen
                  /\ (50 <? load) = true /\ (gen <? 20) = true)).
Proof.
  assert (Hsome :
    match generate_recommendations 10
            {[ "battery_soc_pct" := VFloat 50; "total_generation_kw" := VFloat 10;
               "load_kw" := VFloat 60; "grid_import_kw" := VFloat 50;
               "battery_power_kw" := VFloat 0 ]} 0 with
    | Some _ => true
    | None => false
    end = true) by (vm_compute; reflexivity).
  destruct (generate_recommendations 10 _ 0) as [recs|] eqn:E; [ | discriminate Hsome ].
  exists recs. split; [ reflexivity | ].
  assert (Hh : (0 <= 10 < 24)%Z) by lia.
  exact (shift_load_window 10 _ 0 recs Hh E).
Defined.

Lemma bind_total {A B : Type} (x : option A) (f : A -> option B) :
  (exists a, x = Some a) -> (forall a, exists b, f a = Some b) ->
  exists b, x ≫= f = Some b.
Proof. intros [a ->] H. apply H. Qed.

(** [generate_recommendations] returns as soon as the seven entries it
    may read are floats. *)
Lemma generate_recommendations_total (utc_hour : Z) (r : payload) (forecast : float)
    (soc gen load grid_import battery grid_export share : float) :
  item_float r "battery_soc_pct" = Some soc ->
  item_float r "total_generation_kw" = Some gen ->
  item_float r "load_kw" = Some load ->
  item_float r "grid_import_kw" = Some grid_import ->
  item_float r "battery_power_kw" = Some battery ->
  item_float r "grid_export_kw" = Some grid_export ->
  item_float r "self_consumption_pct" = Some share ->
  exists recs, generate_recommendations utc_hour r forecast = Some recs.
Proof.
  intros Hsoc Hgen Hload Hgi Hb Hge Hsh.
  unfold generate_recommendations. rewrite Hb, Hge, Hsh.
  unfold item_float in Hsoc, Hgen, Hload, Hgi.
  destruct (r !! "battery_soc_pct") as [vsoc|]; [ | discriminate Hsoc ].
  destruct (r !! "total_generation_kw") as [vgen|]; [ | discriminate Hgen ].
  destruct (r !! "load_kw") as [vload|]; [ | discriminate Hload ].
  destruct (r !! "grid_import_kw") as [vgi|]; [ | discriminate Hgi ].
  cbn [mbind option_bind] in *. rewrite Hsoc, Hgen, Hload, Hgi.
  cbn [mbind option_bind].
  apply bind_total; [ destruct (5 <? battery); [ destruct (soc <? 80) | ]; eauto | intros recs1 ].
  apply bind_total; [ destruct (soc <? 20); [ destruct (5 <? grid_import) | ]; eauto
                    | intros recs2 ].
  apply bind_total; [ destruct (10 <? forecast); [ destruct (soc <? 60) | ]; eauto
                    | intros recs3 ].
  apply bind_total; [ destruct (load * 1.3 <? gen); [ destruct (85 <? soc) | ]; eauto
                    | intros recs4 ].
  apply bind_total; [ apply mod_24_total | intros hl ].
  apply bind_total;
    [ destruct ((14 <=? hl) && (hl <=? 17));
      [ destruct (50 <? load); [ destruct (gen <? 20) | ] | ]; eauto
    | intros recs5 ].
  destruct (recs1 ++ recs2 ++ recs3 ++ recs4 ++ recs5); eauto.
Qed.

(** X11: the recommendation engine accepts every reading that
    [process_sensor_payload] returns: on such a reading it never raises,
    at any hour and for any forecast. *)
Theorem recommendations_accept_processed (utcnow utc_hour : Z) (raw : payload)
    (ts : option Z) (r : payload) (forecast : float) :
  process_sensor_payload utcnow raw ts = Some r ->
  exists recs, generate_recommendations utc_hour r forecast = Some recs.
Proof.
  intros H.
  destruct (process_sensor_payload_form _ _ _ _ H)
    as (solar & wind & total & load & soc & battery & gi & ge & share & co2 & cost & Hr & _).
  set (t := match ts with Some _ => _ | None => _ end) in Hr.
  pose proof (normalised_lookups t (stored_strategy raw)
                solar wind total load soc battery gi ge share co2 cost) as L.
  cbv zeta in L. rewrite <- Hr in L.
  destruct L as (_ & _ & _ & Hs & Hw & Ht & Hl & Hsoc & Hb & Hgi & Hge & Hsh & _).
  exact (generate_recommendations_total utc_hour r forecast _ _ _ _ _ _ _
           Hsoc Ht Hl Hgi Hb Hge Hsh).
Qed.

Lemma recommendations_accept_processed_witness :
  exists r recs,
    process_sensor_payload 0 {[ "solar_kw" := VFloat 3 ]} None = Some r
    /\ generate_recommendations 10 r 0 = Some recs.
Proof.
  assert (Hsome :
    match process_sensor_payload 0 {[ "solar_kw" := VFloat 3 ]} None with
    | Some _ => true
    | None => false
    end = true) by (vm_compute; reflexivity).
  destruct (process_sensor_payload 0 _ None) as [r|] eqn:E; [ | discriminate Hsome ].
  destruct (recommendations_accept_processed 0 10 _ None r 0 E) as [recs Hrecs].
  exists r, recs. split; [ reflexivity | exact Hrecs ].
Defined.

End Recommendations.

(* ===================================================================== *)
(** ** The simulator tick and the ingest endpoint, end to end             *)
(* ===================================================================== *)

Section TickPath.
Import Optimization Ingestion Simulator Main.
Local Open Scope float_scope.

(** [generate_reading] raises exactly on a zero battery capacity. *)
Lemma generate_reading_None_iff (env : ambient) (hw : hardware) (cfg : OptimizationConfig)
    (now : Z) (solar_factor wind_factor load_profile_kw surplus_3h : float)
    (st : SensorState) :
  generate_reading env hw cfg now solar_factor wind_factor load_profile_kw surplus_3h st = None
  <-> (BATTERY_CAP_KWH hw =? 0) = true.
Proof.
  unfold generate_reading, Simulator.update_soc, truediv.
  destruct (BATTERY_CAP_KWH hw =? 0); cbn [mbind option_bind];
    split; intros H; try reflexivity; discriminate H.
Qed.

(** The dict [generate_reading] returns has this shape. *)
Lemma generate_reading_form (env : ambient) (hw : hardware) (cfg : OptimizationConfig)
    (now : Z) (solar_factor wind_factor load_profile_kw surplus_3h : float)
    (st st' : SensorState) (raw : payload) :
  generate_reading env hw cfg now solar_factor wind_factor load_profile_kw surplus_3h st
  = Some (st', raw) ->
  exists solar wind total load soc battery grid_import grid_export share co2 cost label,
    raw = list_to_map
            [ ("timestamp", VTimestamp now);
              ("solar_kw", VFloat solar);
              ("wind_kw", VFloat wind);
              ("total_generation_kw", VFloat total);
              ("load_kw", VFloat load);
              ("battery_soc_pct", VFloat soc);
              ("battery_power_kw", VFloat battery);
              ("grid_import_kw", VFloat grid_import);
              ("grid_export_kw", VFloat grid_export);
              ("self_consumption_pct", VFloat share);
              ("co2_saved_kg", VFloat co2);
              ("cost_saved_inr", VFloat cost);
              ("active_strategy", VStrategy label) ].
Proof.
  unfold generate_reading.
  destruct (Simulator.update_soc _ _ _ _ _) as [soc'|]; [ | discriminate ].
  cbn [mbind option_bind]. intros [= _ <-]. repeat eexists.
Qed.

(** [process_sensor_payload] on a dict of that shape. *)
Lemma process_simulated (utcnow : Z) (t : value) (label : strategy_label)
    (solar wind total load soc battery grid_import grid_export share co2 cost : float) :
  process_sensor_payload utcnow
    (list_to_map
       [ ("timestamp", t);
         ("solar_kw", VFloat solar);
         ("wind_kw", VFloat wind);
         ("total_generation_kw", VFloat total);
         ("load_kw", VFloat load);
         ("battery_soc_pct", VFloat soc);
         ("battery_power_kw", VFloat battery);
         ("grid_import_kw", VFloat grid_import);
         ("grid_export_kw", VFloat grid_export);
         ("self_consumption_pct", VFloat share);
         ("co2_saved_kg", VFloat co2);
         ("cost_saved_inr", VFloat cost);
         ("active_strategy", VStrategy label) ]) None
  = Some (<["active_strategy" := VStrategy label]>
            (list_to_map
               [ ("timestamp_utc", VTimestamp utcnow);
                 ("solar_kw", VFloat (Py.max2 0.0 solar));
                 ("wind_kw", VFloat (Py.max2 0.0 wind));
                 ("total_generation_kw", VFloat (Py.max2 0.0 total));
                 ("load_kw", VFloat (Py.max2 0.0 load));
                 ("battery_soc_pct", VFloat (Py.max2 0.0 (Py.min2 100.0 soc)));
                 ("battery_power_kw", VFloat battery);
                 ("grid_import_kw", VFloat (Py.max2 0.0 grid_import));
                 ("grid_export_kw", VFloat (Py.max2 0.0 grid_export));
                 ("self_consumption_pct", VFloat (Py.max2 0.0 (Py.min2 100.0 share)));
                 ("co2_saved_kg", VFloat co2);
                 ("cost_saved_inr", VFloat cost) ])).
Proof.
  set (raw := list_to_map _ : payload).
  assert (L :
    raw !! "timestamp_utc" = None
    /\ raw !! "active_strategy" = Some (VStrategy label)
    /\ get_float raw "solar_kw" 0.0 = Some solar
    /\ get_float raw "wind_kw" 0.0 = Some wind
    /\ get_float raw "total_generation_kw" 0.0 = Some total
    /\ get_float raw "load_kw" 0.0 = Some load
    /\ get_float raw "battery_soc_pct" 50.0 = Some soc
    /\ get_float raw "battery_power_kw" 0.0 = Some battery
    /\ get_float raw "grid_import_kw" 0.0 = Some grid_import
    /\ get_float raw "grid_export_kw" 0.0 = Some grid_export
    /\ get_float raw "self_consumption_pct" 0.0 = Some share
    /\ get_float raw "co2_saved_kg" 0.0 = Some co2
    /\ get_float raw "cost_saved_inr" 0.0 = Some cost).
  { subst raw. unfold get_float. repeat split; vm_compute; reflexivity. }
  destruct L as (Hts & Hst & H1 & H2 & H3 & H4 & H5 & H6 & H7 & H8 & H9 & H10 & H11).
  unfold process_sensor_payload.
  rewrite H1, H2, H3, H4, H5, H6, H7, H8, H9, H10, H11, Hts, Hst. reflexivity.
Qed.

(** The forecast rule does not fire on a forecast surplus of 0.0. *)
Lemma no_forecast_entry_at_zero (utc_hour : Z) (r : payload)
    (recs : list recommendation) :
  generate_recommendations utc_hour r 0.0 = Some recs ->
  forall rec s, In rec recs -> message rec <> SurplusForecast s.
Proof.
  intros Er rec s Hin Hmsg.
  destruct (generate_recommendations_rules _ _ _ _ Er)
    as (l & g & hl & others & _ & _ & _ & Hothers & _ & Hrecs).
  assert (Hforecast : (10 <? 0.0) = false) by reflexivity.
  match type of Hrecs with
  | context [if ?b then ?x else ?y] => set (shift := if b then x else y) in Hrecs
  end.
  assert (Hshift : forall rec', In rec' shift -> message rec' = HighPeakLoad).
  { subst shift. destruct (_ && _); [ intros rec' [<- | []]; reflexivity | intros rec' [] ]. }
  destruct (others ++ shift) as [|rec0 l0] eqn:El.
  - destruct Hrecs as (sh & _ & ->). destruct Hin as [<- | []]. discriminate Hmsg.
  - subst recs. rewrite <- El in Hin. apply in_app_or in Hin as [Hin | Hin].
    + rewrite Forall_forall in Hothers. apply list_elem_of_In in Hin.
      destruct (Hothers rec Hin) as [_ Hf]. specialize (Hf s Hmsg). congruence.
    + rewrite (Hshift rec Hin) in Hmsg. discriminate Hmsg.
Qed.

(** Once the clock and the export ceiling have been read, the tick raises
    exactly when the battery capacity is zero. *)
Lemma tick_None_iff (env : ambient) (hw : hardware)
    (cfg : OptimizationConfig) (now utcnow utc_hour : Z)
    (solar_factor wind_factor load_profile_kw surplus_3h : float) (st : SensorState) :
  tick env hw cfg now utcnow utc_hour solar_factor wind_factor load_profile_kw surplus_3h st
  = None
  <-> (BATTERY_CAP_KWH hw =? 0) = true.
Proof.
  unfold tick.
  destruct (generate_reading env hw cfg now solar_factor wind_factor load_profile_kw
              surplus_3h st) as [[st' raw]|] eqn:E.
  - assert (Hcap : (BATTERY_CAP_KWH hw =? 0) <> true).
    { intros Hc.
      apply (generate_reading_None_iff env hw cfg now solar_factor wind_factor
               load_profile_kw surplus_3h st) in Hc. congruence. }
    destruct (generate_reading_form _ _ _ _ _ _ _ _ _ _ _ E)
      as (solar & wind & total & load & soc & battery & gi & ge & share & co2 & cost
          & label & ->).
    rewrite process_simulated. cbn [mbind option_bind].
    pose proof (normalised_lookups (VTimestamp utcnow) (Some (VStrategy label))
                  (Py.max2 0.0 solar) (Py.max2 0.0 wind) (Py.max2 0.0 total)
                  (Py.max2 0.0 load) (Py.max2 0.0 (Py.min2 100.0 soc)) battery
                  (Py.max2 0.0 gi) (Py.max2 0.0 ge) (Py.max2 0.0 (Py.min2 100.0 share))
                  co2 cost) as L.
    cbv zeta in L.
    destruct L as (_ & _ & _ & _ & _ & Ht & Hl & Hsoc & Hb & Hgi & Hge & Hsh & _).
    destruct (generate_recommendations_total utc_hour _ 0.0 _ _ _ _ _ _ _
                Hsoc Ht Hl Hgi Hb Hge Hsh) as [recs ->].
    cbn [mbind option_bind]. split; [ discriminate | intros Hc; contradiction ].
  - apply generate_reading_None_iff in E. split; [ intros _; exact E | reflexivity ].
Qed.

(** The reads of [optimize_power_flow] raise exactly in a mode other than
    the two manual ones, on a setting that is not a number. *)
Lemma read_ambient_None_iff (mode : string) (hour : Z) (s : setting) :
  read_ambient mode hour s = None <-> auto_mode mode /\ s = NonNumeric.
Proof.
  unfold read_ambient, auto_mode.
  destruct (String.eqb mode "MANUAL_CHARGE"), (String.eqb mode "MANUAL_DISCHARGE");
    cbn [orb]; try (split; [ discriminate | intros [[? ?] _]; discriminate ]).
  destruct s; cbn [getenv_float mbind option_bind];
    (split; [ try discriminate; auto | try reflexivity; intros [_ H]; discriminate H ]).
Qed.

(** [optimize_power_flow] itself raises in that case only. *)
Lemma optimize_power_flow_run_None_iff (hour : Z) (s : setting)
    (solar wind load soc cap max_pw forecast : float) (mode : string) (override : float) :
  optimize_power_flow_run hour s solar wind load soc cap max_pw forecast mode override = None
  <-> auto_mode mode /\ s = NonNumeric.
Proof.
  unfold optimize_power_flow_run. rewrite <- (read_ambient_None_iff mode hour s).
  destruct (read_ambient mode hour s); cbn [mbind option_bind];
    split; intros H; try reflexivity; discriminate H.
Qed.

(** X12: what the simulator tick computes raises in two cases only: the
    battery capacity is zero (the state-of-charge update divides by it),
    or the dispatch runs in a mode other than the two manual ones while
    the environment holds, under GRID_MAX_EXPORT_KW, a string that [float]
    rejects.  In every other case the reading it generates passes
    normalisation and the recommendation engine, whatever the clock and
    the random draws. *)
Theorem tick_raises_iff (hour : Z) (s : setting) (hw : hardware)
    (cfg : OptimizationConfig) (now utcnow utc_hour : Z)
    (solar_factor wind_factor load_profile_kw surplus_3h : float) (st : SensorState) :
  tick_run hour s hw cfg now utcnow utc_hour solar_factor wind_factor load_profile_kw
    surplus_3h st = None
  <-> (BATTERY_CAP_KWH hw =? 0) = true \/ (auto_mode (mode cfg) /\ s = NonNumeric).
Proof.
  unfold tick_run.
  destruct (read_ambient (mode cfg) hour s) as [env|] eqn:E; cbn [mbind option_bind].
  - rewrite tick_None_iff. split; [ auto | ].
    intros [H | H]; [ exact H | ].
    apply (read_ambient_None_iff (mode cfg) hour s) in H. congruence.
  - apply read_ambient_None_iff in E. split; [ auto | reflexivity ].
Qed.

Lemma tick_raises_iff_witness :
  tick_run 10 NonNumeric default_hardware {| mode := "AUTO"; manual_override_kw := 0 |}
    1000 2000 4 0.5 0.3 40 0 {| battery_soc_pct := 50; last_ts := 0 |} = None
  /\ tick_run 10 NonNumeric default_hardware
       {| mode := "MANUAL_CHARGE"; manual_override_kw := 0 |}
       1000 2000 4 0.5 0.3 40 0 {| battery_soc_pct := 50; last_ts := 0 |} <> None
  /\ tick_run 10 Unset default_hardware {| mode := "AUTO"; manual_override_kw := 0 |}
       1000 2000 4 0.5 0.3 40 0 {| battery_soc_pct := 50; last_ts := 0 |} <> None.
Proof.
  split; [ | split ].
  - apply tick_raises_iff. right. split; [ split; reflexivity | reflexivity ].
  - intros H. apply tick_raises_iff in H.
    destruct H as [H | [[H _] _]]; vm_compute in H; discriminate H.
  - intros H. apply tick_raises_iff in H.
    destruct H as [H | [_ H]]; [ vm_compute in H | ]; discriminate H.
Defined.



Ltac item_lookup :=
  repeat first
    [ rewrite item_float_insert
    | rewrite item_float_insert_ne by discriminate ].

(** What [ingest_data] returns for a non-zero battery capacity: the
    entries of the reading that the recommendation engine and the
    persistence step go on to read. *)
Lemma ingest_data_entries (env : ambient) (hw : hardware) (cfg : OptimizationConfig)
    (utcnow : Z) (st : SensorState) (p : IngestPayload) :
  (BATTERY_CAP_KWH hw =? 0) = false ->
  exists st' r soc total load grid_import battery grid_export share,
    ingest_data env hw cfg utcnow st p = Some (st', r)
    /\ r !! "timestamp_utc"
       = Some match timestamp_utc p with Some t => VTimestamp t | None => VNone end
    /\ item_float r "battery_soc_pct" = Some soc
    /\ item_float r "total_generation_kw" = Some total
    /\ item_float r "load_kw" = Some load
    /\ item_float r "grid_import_kw" = Some grid_import
    /\ item_float r "battery_power_kw" = Some battery
    /\ item_float r "grid_export_kw" = Some grid_export
    /\ item_float r "self_consumption_pct" = Some share.
Proof.
  intros Hcap.
  unfold ingest_data. rewrite process_model_dump. cbn [mbind option_bind].
  match goal with
  | |- context [item_float (list_to_map ?l) "solar_kw"] => set (r0 := list_to_map l : payload)
  end.
  assert (L :
    r0 !! "timestamp_utc"
    = Some match timestamp_utc p with Some t => VTimestamp t | None => VNone end
    /\ item_float r0 "solar_kw" = Some (Py.max2 0.0 (solar_kw p))
    /\ item_float r0 "wind_kw" = Some (Py.max2 0.0 (wind_kw p))
    /\ item_float r0 "load_kw" = Some (Py.max2 0.0 (load_kw p))).
  { subst r0. generalize (Py.max2 0.0 (solar_kw p)), (Py.max2 0.0 (wind_kw p)),
      (Py.max2 0.0 (load_kw p)), (Py.max2 0.0 (Py.min2 100.0 (payload_soc_pct p))),
      (match timestamp_utc p with Some t => VTimestamp t | None => VNone end).
    intros. unfold item_float. repeat split; vm_compute; reflexivity. }
  destruct L as (Hts & Hs & Hw & Hl).
  unfold Main.update_soc, truediv. rewrite Hcap.
  repeat first
    [ progress cbn [mbind option_bind]
    | progress item_lookup
    | rewrite Hs | rewrite Hw | rewrite Hl
    | rewrite max2_one_nonzero ].
  do 9 eexists. split; [ reflexivity | ].
  split; [ rewrite !lookup_insert_ne by discriminate; exact Hts | ].
  item_lookup. rewrite ?Hl. repeat split; reflexivity.
Qed.

(** Once the clock and the export ceiling have been read, the ingest
    endpoint raises exactly when the battery capacity is zero. *)
Lemma ingest_data_recommendations_None_iff (env : ambient) (hw : hardware)
    (cfg : OptimizationConfig) (utcnow utc_hour : Z) (st : SensorState)
    (p : IngestPayload) :
  ingest_data_recommendations env hw cfg utcnow utc_hour st p = None
  <-> (BATTERY_CAP_KWH hw =? 0) = true.
Proof.
  unfold ingest_data_recommendations.
  destruct (BATTERY_CAP_KWH hw =? 0) eqn:Hcap.
  - destruct (ingest_data env hw cfg utcnow st p) as [[st' r]|] eqn:E.
    + apply ingest_data_capacity in E. congruence.
    + split; reflexivity.
  - destruct (ingest_data_entries env hw cfg utcnow st p Hcap)
      as (st' & r & soc & total & load & gi & battery & ge & share
          & -> & _ & Hsoc & Ht & Hl & Hgi & Hb & Hge & Hsh).
    destruct (generate_recommendations_total utc_hour r 0.0 _ _ _ _ _ _ _
                Hsoc Ht Hl Hgi Hb Hge Hsh) as [recs ->].
    cbn [mbind option_bind]. split; discriminate.
Qed.

(** X14: what the ingest endpoint computes, recommendations included,
    raises in two cases only: the battery capacity is zero, or the
    dispatch runs in a mode other than the two manual ones while the
    environment holds, under GRID_MAX_EXPORT_KW, a string that [float]
    rejects.  In every other case every payload is accepted, whatever
    floats it holds. *)
Theorem ingest_raises_iff (hour : Z) (s : setting) (hw : hardware)
    (cfg : OptimizationConfig) (utcnow utc_hour : Z) (st : SensorState)
    (p : IngestPayload) :
  ingest_data_run hour s hw cfg utcnow utc_hour st p = None
  <-> (BATTERY_CAP_KWH hw =? 0) = true \/ (auto_mode (mode cfg) /\ s = NonNumeric).
Proof.
  unfold ingest_data_run.
  destruct (read_ambient (mode cfg) hour s) as [env|] eqn:E; cbn [mbind option_bind].
  - rewrite ingest_data_recommendations_None_iff. split; [ auto | ].
    intros [H | H]; [ exact H | ].
    apply (read_ambient_None_iff (mode cfg) hour s) in H. congruence.
  - apply read_ambient_None_iff in E. split; [ auto | reflexivity ].
Qed.

Lemma ingest_raises_iff_witness :
  ingest_data_run 10 NonNumeric default_hardware
    {| mode := "AUTO"; manual_override_kw := 0 |} 2000 4
    {| battery_soc_pct := 50; last_ts := 0 |}
    {| timestamp_utc := None; solar_kw := nan; wind_kw := 2; load_kw := 3;
       payload_soc_pct := 50 |} = None
  /\ ingest_data_run 10 (Numeric 30) default_hardware
       {| mode := "AUTO"; manual_override_kw := 0 |} 2000 4
       {| battery_soc_pct := 50; last_ts := 0 |}
       {| timestamp_utc := None; solar_kw := nan; wind_kw := 2; load_kw := 3;
          payload_soc_pct := 50 |} <> None.
Proof.
  split.
  - apply ingest_raises_iff. right. split; [ split; reflexivity | reflexivity ].
  - intros H. apply ingest_raises_iff in H.
    destruct H as [H | [_ H]]; [ vm_compute in H | ]; discriminate H.
Defined.

(** X15: the reading [ingest_data] stores carries the payload's own
    timestamp, and [None] when the payload has none: the clock is never
    consulted, because the dumped payload always has the key.  As in the
    tick, the forecast rule contributes no recommendation. *)
Theorem ingest_reading_stamp (env : ambient) (hw : hardware)
    (cfg : OptimizationConfig) (utcnow utc_hour : Z) (st st' : SensorState)
    (p : IngestPayload) (reading : payload) (recs : list recommendation) :
  ingest_data_recommendations env hw cfg utcnow utc_hour st p = Some (st', reading, recs) ->
  reading !! "timestamp_utc"
  = Some match timestamp_utc p with Some t => VTimestamp t | None => VNone end
  /\ (forall rec s, In rec recs -> message rec <> SurplusForecast s).
Proof.
  unfold ingest_data_recommendations.
  destruct (ingest_data env hw cfg utcnow st p) as [[st0 r]|] eqn:E; [ | discriminate ].
  destruct (generate_recommendations utc_hour r 0.0) as [recs0|] eqn:Er; [ | discriminate ].
  cbn [mbind option_bind]. intros [= <- <- <-].
  split; [ | exact (no_forecast_entry_at_zero _ _ _ Er) ].
  pose proof (ingest_data_capacity _ _ _ _ _ _ _ E) as Hcap.
  destruct (ingest_data_entries env hw cfg utcnow st p Hcap)
    as (st1 & r1 & soc & total & load & gi & battery & ge & share & E1 & Hts & _).
  rewrite E in E1. injection E1 as <- <-. exact Hts.
Qed.

Lemma ingest_reading_stamp_witness :
  exists st' reading recs,
    ingest_data_recommendations {| local_hour := 10; GRID_MAX_EXPORT_KW := 50 |}
      default_hardware {| mode := "AUTO"; manual_override_kw := 0 |} 2000 4
      {| battery_soc_pct := 50; last_ts := 0 |}
      {| timestamp_utc := None; solar_kw := 5; wind_kw := 2; load_kw := 3;
         payload_soc_pct := 50 |} = Some (st', reading, recs)
    /\ reading !! "timestamp_utc" = Some VNone
    /\ (forall rec s, In rec recs -> message rec <> SurplusForecast s).
Proof.
  assert (Hsome :
    match ingest_data_recommendations {| local_hour := 10; GRID_MAX_EXPORT_KW := 50 |}
            default_hardware {| mode := "AUTO"; manual_override_kw := 0 |} 2000 4
            {| battery_soc_pct := 50; last_ts := 0 |}
            {| timestamp_utc := None; solar_kw := 5; wind_kw := 2; load_kw := 3;
               payload_soc_pct := 50 |} with
    | Some _ => true
    | None => false
    end = true) by (vm_compute; reflexivity).
  destruct (ingest_data_recommendations _ _ _ 2000 4 _ _) as [[[st' reading] recs]|] eqn:E;
    [ | discriminate Hsome ].
  exists st', reading, recs. split; [ reflexivity | ].
  exact (ingest_reading_stamp _ _ _ _ _ _ _ _ _ _ E).
Defined.

(** C9: in every reading the pipeline produces, grid import and grid
    export are never both strictly positive.  This holds of every dispatch
    result of [optimize_power_flow], in any mode, and of every normalised
    reading: [process_sensor_payload] is called in two places, by the tick
    on the dict of [generate_reading] (main.py:41-42), whose two grid
    figures are those of a dispatch result, and by [ingest_data] on the
    dump of a payload (main.py:159-160), which has neither key, so that
    both figures are the default 0.0; the reading [ingest_data] returns
    takes both figures from a dispatch result again. *)
Theorem grid_flows_exclusive :
  (forall (env : ambient) (solar wind load soc cap max_pw forecast : float)
          (mode : string) (override : float),
     let r := optimize_power_flow env solar wind load soc cap max_pw forecast mode override in
     both_positive (grid_import_kw r) (grid_export_kw r) = false)
  /\ (forall (env : ambient) (hw : hardware) (cfg : OptimizationConfig) (now utcnow : Z)
             (solar_factor wind_factor load_profile_kw surplus_3h : float)
             (st st' : SensorState) (raw : payload),
        generate_reading env hw cfg now solar_factor wind_factor load_profile_kw surplus_3h st
        = Some (st', raw) ->
        exists r i e,
          process_sensor_payload utcnow raw None = Some r
          /\ item_float r "grid_import_kw" = Some i
          /\ item_float r "grid_export_kw" = Some e
          /\ both_positive i e = false)
  /\ (forall (utcnow : Z) (p : IngestPayload),
        exists r i e,
          process_sensor_payload utcnow (model_dump p) None = Some r
          /\ item_float r "grid_import_kw" = Some i
          /\ item_float r "grid_export_kw" = Some e
          /\ both_positive i e = false)
  /\ (forall (env : ambient) (hw : hardware) (cfg : OptimizationConfig) (utcnow : Z)
             (st st' : SensorState) (p : IngestPayload) (r : payload),
        ingest_data env hw cfg utcnow st p = Some (st', r) ->
        exists i e,
          item_float r "grid_import_kw" = Some i
          /\ item_float r "grid_export_kw" = Some e
          /\ both_positive i e = false).
Proof.
  split; [ | split; [ | split ] ].
  - intros. apply dispatch_never_both_positive.
  - intros env hw cfg now utcnow sf wf lp s3 st st' raw Eg.
    destruct (generate_reading_grid_flows _ _ _ _ _ _ _ _ _ _ _ Eg)
      as (i0 & e0 & Ei & Ee & Hb).
    destruct (generate_reading_form _ _ _ _ _ _ _ _ _ _ _ Eg)
      as (solar & wind & total & load & soc & battery & gi & ge & share & co2 & cost
          & label & ->).
    rewrite process_simulated.
    pose proof (normalised_lookups (VTimestamp utcnow) (Some (VStrategy label))
                  (Py.max2 0.0 solar) (Py.max2 0.0 wind) (Py.max2 0.0 total)
                  (Py.max2 0.0 load) (Py.max2 0.0 (Py.min2 100.0 soc)) battery
                  (Py.max2 0.0 gi) (Py.max2 0.0 ge) (Py.max2 0.0 (Py.min2 100.0 share))
                  co2 cost) as L.
    cbv zeta in L. destruct L as (_ & _ & _ & _ & _ & _ & _ & _ & _ & Hgi & Hge & _).
    eexists. exists (Py.max2 0.0 gi), (Py.max2 0.0 ge).
    split; [ reflexivity | ]. split; [ exact Hgi | ]. split; [ exact Hge | ].
    assert (Ei' : get_float
                    (list_to_map
                       [ ("timestamp", VTimestamp now);
                         ("solar_kw", VFloat solar);
                         ("wind_kw", VFloat wind);
                         ("total_generation_kw", VFloat total);
                         ("load_kw", VFloat load);
                         ("battery_soc_pct", VFloat soc);
                         ("battery_power_kw", VFloat battery);
                         ("grid_import_kw", VFloat gi);
                         ("grid_export_kw", VFloat ge);
                         ("self_consumption_pct", VFloat share);
                         ("co2_saved_kg", VFloat co2);
                         ("cost_saved_inr", VFloat cost);
                         ("active_strategy", VStrategy label) ]) "grid_import_kw" 0.0
                  = Some gi) by (vm_compute; reflexivity).
    assert (Ee' : get_float
                    (list_to_map
                       [ ("timestamp", VTimestamp now);
                         ("solar_kw", VFloat solar);
                         ("wind_kw", VFloat wind);
                         ("total_generation_kw", VFloat total);
                         ("load_kw", VFloat load);
                         ("battery_soc_pct", VFloat soc);
                         ("battery_power_kw", VFloat battery);
                         ("grid_import_kw", VFloat gi);
                         ("grid_export_kw", VFloat ge);
                         ("self_consumption_pct", VFloat share);
                         ("co2_saved_kg", VFloat co2);
                         ("cost_saved_inr", VFloat cost);
                         ("active_strategy", VStrategy label) ]) "grid_export_kw" 0.0
                  = Some ge) by (vm_compute; reflexivity).
    rewrite Ei' in Ei. rewrite Ee' in Ee. injection Ei as <-. injection Ee as <-.
    unfold both_positive in *. rewrite !positive_max2_zero. exact Hb.
  - intros utcnow p. rewrite process_model_dump.
    eexists. exists (Py.max2 0.0 0.0), (Py.max2 0.0 0.0).
    split; [ reflexivity | ].
    generalize (Py.max2 0.0 (solar_kw p)), (Py.max2 0.0 (wind_kw p)),
      (Py.max2 0.0 (load_kw p)), (Py.max2 0.0 (Py.min2 100.0 (payload_soc_pct p))),
      (match timestamp_utc p with Some t => VTimestamp t | None => VNone end).
    intros. unfold item_float. repeat split; vm_compute; reflexivity.
  - intros env hw cfg utcnow st st' p r E.
    pose proof (ingest_data_capacity _ _ _ _ _ _ _ E) as Hcap.
    destruct (ingest_data_returns env hw cfg utcnow st p Hcap)
      as (st2 & r2 & E2 & _ & _ & _ & _ & Hi2 & He2).
    rewrite E in E2. injection E2 as <- <-.
    do 2 eexists. split; [ exact Hi2 | ]. split; [ exact He2 | ].
    apply dispatch_never_both_positive.
Qed.

Lemma grid_flows_exclusive_witness :
  exists st' raw r i e,
    generate_reading {| local_hour := 10; GRID_MAX_EXPORT_KW := 50 |} default_hardware
      {| mode := "AUTO"; manual_override_kw := 0 |} 1000 0.5 0.3 40 0
      {| battery_soc_pct := 50; last_ts := 0 |} = Some (st', raw)
    /\ process_sensor_payload 2000 raw None = Some r
    /\ item_float r "grid_import_kw" = Some i
    /\ item_float r "grid_export_kw" = Some e
    /\ both_positive i e = false.
Proof.
  assert (Hsome :
    match generate_reading {| local_hour := 10; GRID_MAX_EXPORT_KW := 50 |} default_hardware
            {| mode := "AUTO"; manual_override_kw := 0 |} 1000 0.5 0.3 40 0
            {| battery_soc_pct := 50; last_ts := 0 |} with
    | Some _ => true
    | None => false
    end = true) by (vm_compute; reflexivity).
  destruct (generate_reading _ _ _ 1000 0.5 0.3 40 0 _) as [[st' raw]|] eqn:E;
    [ | discriminate Hsome ].
  destruct (proj1 (proj2 grid_flows_exclusive) _ _ _ _ 2000%Z _ _ _ _ _ _ _ E)
    as (r & i & e & H).
  exists st', raw, r, i, e. split; [ reflexivity | exact H ].
Defined.

End TickPath.

(* ===================================================================== *)
(** ** The ingestion pipeline: flushes, bins and queries                  *)
(* ===================================================================== *)

Section PipelineInvariants.
Import Engine.
Local Open Scope float_scope.

Lemma deque_append_length {A : Type} (n : nat) (d : list A) (x : A) :
  (length d <= n)%nat -> (length (deque_append n d x) <= n)%nat.
Proof.
  intros H. unfold deque_append.
  destruct (Nat.ltb_spec n (length (d ++ [x]))) as [Hlt | Hge]; [ | exact Hge ].
  rewrite tail_drop, length_drop, length_app. cbn [length]. lia.
Qed.

(** X16: one call of [ingest], followed through the aggregation state.
    Before the cutoff (and always on the first call, which sets the cutoff
    five minutes ahead) the reading joins the buffer and nothing else
    moves.  At or after the cutoff one bin is appended, stamped with the
    old cutoff and summarising the buffer including the reading that
    triggered the flush; the buffer is left empty and the next cutoff is
    five minutes after the clock reading of this call. *)
Theorem ingest_flush_protocol (ts : Z) (r : reading) (p : IngestionPipeline) :
  let cutoff := default (ts + aggregate_delta)%Z (_agg_cutoff p) in
  let p' := fst (ingest ts r p) in
  ((ts < cutoff)%Z ->
   _agg_buf p' = _agg_buf p ++ [r] /\ _aggs p' = _aggs p /\ _agg_cutoff p' = Some cutoff)
  /\ ((cutoff <= ts)%Z ->
      _agg_buf p' = [] /\ _agg_cutoff p' = Some (ts + aggregate_delta)%Z
      /\ exists bin,
           _aggs p' = deque_append 288 (_aggs p) bin
           /\ timestamp bin = cutoff
           /\ bin_summarises (_agg_buf p ++ [r]) bin)
  /\ (_agg_cutoff p = None -> (ts < cutoff)%Z).
Proof.
  cbv zeta. unfold ingest.
  set (cutoff := default (ts + aggregate_delta)%Z (_agg_cutoff p)).
  split; [ | split ].
  - intros Hlt. destruct (Z.leb_spec cutoff ts) as [Hle | _]; [ lia | ].
    cbn [fst _agg_buf _aggs _agg_cutoff]. auto.
  - intros Hle. destruct (Z.leb_spec cutoff ts) as [_ | Hlt]; [ | lia ].
    match goal with
    | |- context [_flush_aggregate ?c ?p1] =>
        destruct (flush_aggregate_bin c p1) as (p2 & bin & E & Haggs & Hts & Hsum);
        [ cbn [_agg_buf]; destruct (_agg_buf p); discriminate | rewrite E ]
    end.
    cbn [fst _agg_buf _aggs _agg_cutoff] in *.
    split; [ reflexivity | ]. split; [ reflexivity | ].
    exists bin. auto.
  - intros Hnone. subst cutoff. rewrite Hnone. cbn [default from_option id].
    unfold aggregate_delta, AGGREGATE_MINUTES. lia.
Qed.

Lemma ingest_flush_protocol_witness :
  _agg_buf (fst (ingest 301000000 (solar_reading 2)
                   (ingest_all [ (0, solar_reading 1); (60000000, solar_reading 1) ]%Z
                      (init WINDOW_SIZE)))) = []
  /\ _agg_cutoff (fst (ingest 301000000 (solar_reading 2)
                         (ingest_all [ (0, solar_reading 1); (60000000, solar_reading 1) ]%Z
                            (init WINDOW_SIZE)))) = Some 601000000%Z.
Proof.
  pose proof (proj1 (proj2 (ingest_flush_protocol 301000000 (solar_reading 2)
                       (ingest_all [ (0, solar_reading 1); (60000000, solar_reading 1) ]%Z
                          (init WINDOW_SIZE))))) as H.
  cbv zeta in H.
  assert (Hc : _agg_cutoff (ingest_all [ (0, solar_reading 1); (60000000, solar_reading 1) ]%Z
                              (init WINDOW_SIZE)) = Some 300000000%Z)
    by (vm_compute; reflexivity).
  rewrite Hc in H. cbn [default from_option id] in H.
  destruct (H ltac:(lia)) as (H1 & H2 & _).
  split; [ exact H1 | exact H2 ].
Defined.

(** The aggregation state after one [ingest]. *)
Lemma ingest_aggs (ts : Z) (r : reading) (p : IngestionPipeline) :
  let cutoff := default (ts + aggregate_delta)%Z (_agg_cutoff p) in
  let p' := fst (ingest ts r p) in
  (_aggs p' = _aggs p /\ _agg_cutoff p' = Some cutoff)
  \/ ((cutoff <= ts)%Z /\ _agg_cutoff p' = Some (ts + aggregate_delta)%Z
      /\ exists bin, _aggs p' = deque_append 288 (_aggs p) bin /\ timestamp bin = cutoff).
Proof.
  cbv zeta. unfold ingest.
  set (cutoff := default (ts + aggregate_delta)%Z (_agg_cutoff p)).
  destruct (Z.leb_spec cutoff ts) as [Hle | Hlt].
  - match goal with
    | |- context [_flush_aggregate ?c ?p1] =>
        destruct (flush_aggregate_bin c p1) as (p2 & bin & E & Haggs & Hts & _);
        [ cbn [_agg_buf]; destruct (_agg_buf p); discriminate | rewrite E ]
    end.
    cbn [fst _agg_buf _aggs _agg_cutoff] in *. right. eauto.
  - cbn [fst _aggs _agg_cutoff]. left. auto.
Qed.

Lemma slice_from_length {A : Type} (n : Z) (items : list A) :
  (0 < n)%Z -> (length (slice_from (- n) items) <= Z.to_nat n)%nat.
Proof.
  intros H. unfold slice_from.
  destruct (Z.ltb_spec (- n) 0) as [_ | Hge]; [ | lia ].
  rewrite length_drop. lia.
Qed.

Lemma slice_from_le {A : Type} (start : Z) (items : list A) :
  (length (slice_from start items) <= length items)%nat.
Proof. unfold slice_from. rewrite length_drop. lia. Qed.

(** X17: the pipeline never holds more than 288 aggregate bins (24 hours
    of five-minute bins), whatever is ingested; [aggregates(n)] returns at
    most [n] of them for a positive [n]. *)
Theorem aggregates_bounded (window : nat) (calls : list (Z * reading)) (n : Z) :
  let p := ingest_all calls (init window) in
  (length (_aggs p) <= 288)%nat
  /\ (length (aggregates n p) <= 288)%nat
  /\ ((0 < n)%Z -> (length (aggregates n p) <= Z.to_nat n)%nat).
Proof.
  cbv zeta.
  assert (H : (length (_aggs (ingest_all calls (init window))) <= 288)%nat).
  { induction calls as [|c calls IH] using rev_ind; [ cbn; lia | ].
    rewrite ingest_all_snoc.
    destruct (ingest_aggs (fst c) (snd c) (ingest_all calls (init window)))
      as [[-> _] | (_ & _ & bin & -> & _)]; [ exact IH | ].
    apply deque_append_length, IH. }
  split; [ exact H | ]. split.
  - unfold aggregates. pose proof (slice_from_le (- n) (_aggs (ingest_all calls (init window)))).
    lia.
  - intros Hn. apply slice_from_length, Hn.
Qed.

Lemma aggregates_bounded_witness :
  (length (aggregates 1 (ingest_all straddling_feed (init WINDOW_SIZE))) <= Z.to_nat 1)%nat.
Proof.
  apply (proj2 (proj2 (aggregates_bounded WINDOW_SIZE straddling_feed 1))). lia.
Defined.

Lemma spaced_snoc (stamps : list Z) (c : Z) :
  spaced stamps -> Forall (fun a => (a + aggregate_delta <= c)%Z) stamps ->
  spaced (stamps ++ [c]).
Proof.
  induction stamps as [|a [|b rest] IH]; intros Hs Hf.
  - exact I.
  - cbn. inversion Hf; subst. auto.
  - destruct Hs as [Hab Hs]. inversion Hf; subst.
    change ((a :: b :: rest) ++ [c]) with (a :: ((b :: rest) ++ [c])).
    cbn [app]. split; [ exact Hab | ]. apply IH; assumption.
Qed.

Lemma spaced_tail (stamps : list Z) : spaced stamps -> spaced (tail stamps).
Proof.
  destruct stamps as [|a [|b rest]]; intros H; try exact I. exact (proj2 H).
Qed.

Lemma map_deque_append {A B : Type} (f : A -> B) (n : nat) (d : list A) (x : A) :
  List.map f (deque_append n d x) = deque_append n (List.map f d) (f x).
Proof.
  unfold deque_append. rewrite !length_app, length_map. cbn [length].
  change [f x] with (List.map f [x]). rewrite <- List.map_app.
  destruct (n <? _)%nat; [ | reflexivity ].
  destruct (d ++ [x]); reflexivity.
Qed.

(** One [ingest] keeps the bins in order. *)
Lemma ingest_bins_in_order (ts : Z) (r : reading) (p : IngestionPipeline) :
  bins_in_order p -> bins_in_order (fst (ingest ts r p)).
Proof.
  intros [Hs Hc]. pose proof aggregate_delta_positive as Hd.
  unfold bins_in_order.
  destruct (ingest_aggs ts r p) as [[Ea Ec] | (Hle & Ec & bin & Ea & Hts)];
    cbv zeta in *; rewrite Ea, Ec.
  - split; [ exact Hs | ].
    destruct (_agg_cutoff p) as [c|]; cbn [default from_option id]; [ exact Hc | rewrite Hc; constructor ].
  - assert (Hold : Forall (fun b => (timestamp b + aggregate_delta <= timestamp bin)%Z)
                     (_aggs p)).
    { rewrite Hts. destruct (_agg_cutoff p) as [c|]; cbn [default from_option id];
        [ exact Hc | rewrite Hc; constructor ]. }
    split.
    + rewrite map_deque_append. unfold deque_append.
      assert (Hsn : spaced (List.map timestamp (_aggs p) ++ [timestamp bin])).
      { apply spaced_snoc; [ exact Hs | ]. rewrite Forall_map. exact Hold. }
      destruct (288 <? _)%nat; [ apply spaced_tail, Hsn | exact Hsn ].
    + apply deque_append_Forall.
      * eapply Forall_impl; [ exact Hold | ]. cbn. intros b Hb. lia.
      * lia.
Qed.

(** X18: the bins of the pipeline are in strictly increasing time order,
    each at least five minutes after the one before it, and the last one
    at least five minutes before the current cutoff; this holds for any
    sequence of clock readings, monotone or not. *)
Theorem bins_spaced_five_minutes (window : nat) (calls : list (Z * reading)) :
  let p := ingest_all calls (init window) in
  spaced (List.map timestamp (_aggs p))
  /\ forall cutoff bin,
       _agg_cutoff p = Some cutoff -> In bin (_aggs p) ->
       (timestamp bin + aggregate_delta <= cutoff)%Z.
Proof.
  cbv zeta.
  assert (H : bins_in_order (ingest_all calls (init window))).
  { induction calls as [|c calls IH] using rev_ind.
    - split; [ exact I | reflexivity ].
    - rewrite ingest_all_snoc. apply ingest_bins_in_order, IH. }
  destruct H as [Hs Hc]. split; [ exact Hs | ].
  intros cutoff bin E Hin. rewrite E in Hc.
  rewrite Forall_forall in Hc. apply Hc, list_elem_of_In, Hin.
Qed.

Lemma bins_spaced_five_minutes_witness :
  exists bin,
    In bin (_aggs (ingest_all straddling_feed (init WINDOW_SIZE)))
    /\ (timestamp bin + aggregate_delta <= 601000000)%Z.
Proof.
  assert (E : length (_aggs (ingest_all straddling_feed (init WINDOW_SIZE))) = 1%nat)
    by (vm_compute; reflexivity).
  assert (Ec : _agg_cutoff (ingest_all straddling_feed (init WINDOW_SIZE))
               = Some 601000000%Z) by (vm_compute; reflexivity).
  destruct (_aggs (ingest_all straddling_feed (init WINDOW_SIZE))) as [|bin l] eqn:Ea;
    [ discriminate E | ].
  assert (Hin : In bin (_aggs (ingest_all straddling_feed (init WINDOW_SIZE))))
    by (rewrite Ea; left; reflexivity).
  exists bin. rewrite <- Ea. split; [ exact Hin | ].
  exact (proj2 (bins_spaced_five_minutes WINDOW_SIZE straddling_feed) _ bin Ec Hin).
Defined.

(** X19: for a positive [n], [recent(n)] after any sequence of ingests is
    the last [n] readings ingested, in arrival order, or the last [window]
    of them when [n] exceeds the capacity of the window. *)
Theorem recent_returns_last (window : nat) (calls : list (Z * reading)) (n : Z) :
  (0 < n)%Z ->
  let readings := List.map snd calls in
  recent n (ingest_all calls (init window))
  = drop (length readings - Nat.min (Z.to_nat n) window) readings.
Proof.
  intros Hn. cbv zeta.
  destruct (ingest_all_window window calls) as [_ Hw].
  unfold recent, slice_from. rewrite Hw.
  destruct (Z.ltb_spec (- n) 0) as [_ | Hge]; [ | lia ].
  rewrite drop_drop, length_drop. f_equal. lia.
Qed.

Lemma recent_returns_last_witness :
  recent 2 (ingest_all night_feed (init 3))
  = drop (length (List.map snd night_feed) - Nat.min (Z.to_nat 2) 3) (List.map snd night_feed).
Proof. apply recent_returns_last. lia. Defined.

Lemma slice_from_positive {A : Type} (k : Z) (items : list A) :
  (0 < k)%Z -> slice_from k items = drop (Z.to_nat k) items.
Proof.
  intros Hk. unfold slice_from.
  destruct (Z.ltb_spec k 0) as [Hlt | _]; [ lia | ].
  destruct (Z.le_gt_cases k (Z.of_nat (length items))) as [Hle | Hgt].
  - rewrite Z.min_l by lia. reflexivity.
  - rewrite Z.min_r by lia. rewrite Nat2Z.id, drop_all. symmetry. apply drop_ge. lia.
Qed.

Lemma drop_nil_iff {A : Type} (k : nat) (items : list A) :
  drop k items = [] <-> (length items <= k)%nat.
Proof.
  split; intros H.
  - apply (f_equal length) in H. rewrite length_drop in H. cbn [length] in H. lia.
  - apply drop_ge, H.
Qed.

(** X20: a negative [n] is not rejected by the two queries, and it does
    not select "the last n" of anything: [recent(n)] and [aggregates(n)]
    then return everything except the first [-n] items, because
    [items[-n:]] is a slice from a positive index.  The answer is empty
    exactly when there are no more than [-n] items. *)
Theorem negative_count_drops_front (n : Z) (p : IngestionPipeline) :
  (n < 0)%Z ->
  recent n p = drop (Z.to_nat (- n)) (_window p)
  /\ aggregates n p = drop (Z.to_nat (- n)) (_aggs p)
  /\ (recent n p = [] <-> (Z.of_nat (length (_window p)) <= - n)%Z)
  /\ (aggregates n p = [] <-> (Z.of_nat (length (_aggs p)) <= - n)%Z).
Proof.
  intros Hn. unfold recent, aggregates.
  rewrite !slice_from_positive by lia. rewrite !drop_nil_iff.
  repeat split; lia.
Qed.

Lemma negative_count_drops_front_witness :
  recent (-1) (ingest_all night_feed (init 3))
  = drop (Z.to_nat (- (-1))) (_window (ingest_all night_feed (init 3)))
  /\ aggregates (-1) (ingest_all night_feed (init 3))
     = drop (Z.to_nat (- (-1))) (_aggs (ingest_all night_feed (init 3)))
  /\ (recent (-1) (ingest_all night_feed (init 3)) = []
      <-> (Z.of_nat (length (_window (ingest_all night_feed (init 3)))) <= - (-1))%Z)
  /\ (aggregates (-1) (ingest_all night_feed (init 3)) = []
      <-> (Z.of_nat (length (_aggs (ingest_all night_feed (init 3)))) <= - (-1))%Z).
Proof. apply negative_count_drops_front. lia. Defined.

(** Aggregation never raises: [ingest] returns what the detector answers
    on the window that holds the new reading. *)
Lemma ingest_snd (ts : Z) (r : reading) (p : IngestionPipeline) :
  snd (ingest ts r p) = _detect_anomalies (_window (fst (ingest ts r p))) r.
Proof.
  unfold ingest. destruct (_ <=? ts)%Z; [ | reflexivity ].
  match goal with
  | |- context [_flush_aggregate ?c ?p1] =>
      destruct (flush_aggregate_bin c p1) as (p2 & bin & E & _);
      [ cbn [_agg_buf]; destruct (_agg_buf p); discriminate | rewrite E ]
  end.
  reflexivity.
Qed.

(** What one turn of the detector's loop returns: nothing, or one flag
    built from the reading's value, the mean and the deviation of the
    buffered values. *)
Lemma check_field_flag (window : list reading) (r : reading) (f : string)
    (flags : list AnomalyFlag) :
  check_field window r f = Some flags ->
  flags = []
  \/ exists val mu sg floats,
       flags = [mkAnomalyFlag f val mu sg]
       /\ (10 <= length (field_values f window))%nat
       /\ mapM id (field_values f window) = Some floats
       /\ Py.mean floats = Some mu
       /\ Py.stdev floats = Some sg
       /\ default (Some 0.0) (r !! f) = Some val
       /\ (sg <? 0.1) = false
       /\ (ANOMALY_SIGMA * sg <? abs (val - mu)) = true.
Proof.
  unfold check_field.
  destruct (Nat.ltb_spec (length (field_values f window)) 10) as [Hlt | Hge];
    [ intros [= <-]; auto | ].
  destruct (mapM id _) as [floats|] eqn:Em; [ | discriminate ]. cbn [mbind option_bind].
  destruct (Py.mean floats) as [mu|] eqn:Emu; [ | discriminate ]. cbn [mbind option_bind].
  destruct (Nat.ltb_spec 1 (length (field_values f window))) as [_ | Hone]; [ | lia ].
  destruct (Py.stdev floats) as [sg|] eqn:Esg; [ | discriminate ].
  cbn [mbind option_bind].
  destruct (sg <? 0.1) eqn:Eflat; [ intros [= <-]; auto | ].
  destruct (default _ _) as [val|] eqn:Ev; [ | discriminate ]. cbn [mbind option_bind].
  destruct (ANOMALY_SIGMA * sg <? abs (val - mu)) eqn:Edev; intros H;
    injection H as <-; [ | auto ].
  right. exists val, mu, sg, floats. repeat split; assumption || reflexivity.
Qed.

(** X21: every flag the detector returns is justified.  It names one of
    the four monitored fields; the window then holds at least 30 readings
    and at least 10 values of that field; the flag's value is the
    reading's own (0.0 when the reading lacks the field), its mean is the
    mean of the buffered values and its deviation is their standard
    deviation, which is not below the flatness floor 0.1; the value lies
    more than three deviations from the mean; the severity is HIGH exactly
    beyond six deviations.  The flags come in the fixed order of the
    monitored fields, at most one for each. *)
Theorem anomaly_flags_justified (window : list reading) (r : reading)
    (flags : list AnomalyFlag) :
  _detect_anomalies window r = Some flags ->
  sublist (List.map field flags) MONITORED_FIELDS
  /\ forall flag, In flag flags ->
       In (field flag) MONITORED_FIELDS
       /\ (30 <= length window)%nat
       /\ (10 <= length (field_values (field flag) window))%nat
       /\ default (Some 0.0) (r !! field flag) = Some (value flag)
       /\ (exists floats, mapM id (field_values (field flag) window) = Some floats
                          /\ Py.mean floats = Some (mean flag)
                          /\ Py.stdev floats = Some (sigma flag))
       /\ (sigma flag <? 0.1) = false
       /\ (ANOMALY_SIGMA * sigma flag <? abs (value flag - mean flag)) = true
       /\ (severity flag = HIGH
           <-> (ANOMALY_SIGMA * 2 * sigma flag <? abs (value flag - mean flag)) = true).
Proof.
  unfold _detect_anomalies.
  destruct (Nat.ltb_spec (length window) 30) as [Hlt | Hge].
  { intros [= <-]. split; [ apply sublist_nil_l | intros flag [] ]. }
  unfold MONITORED_FIELDS. cbn [mapM mbind option_bind mret option_ret].
  destruct (check_field window r "solar_kw") as [l1|] eqn:E1; [ | discriminate ].
  destruct (check_field window r "wind_kw") as [l2|] eqn:E2; [ | discriminate ].
  destruct (check_field window r "load_kw") as [l3|] eqn:E3; [ | discriminate ].
  destruct (check_field window r "grid_import_kw") as [l4|] eqn:E4; [ | discriminate ].
  cbn [mbind option_bind mret option_ret List.concat]. intros [= <-].
  rewrite app_nil_r.
  assert (Hone : forall f l flag,
    check_field window r f = Some l -> In flag l ->
    field flag = f
    /\ (10 <= length (field_values f window))%nat
    /\ default (Some 0.0) (r !! f) = Some (value flag)
    /\ (exists floats, mapM id (field_values f window) = Some floats
                       /\ Py.mean floats = Some (mean flag)
                       /\ Py.stdev floats = Some (sigma flag))
    /\ (sigma flag <? 0.1) = false
    /\ (ANOMALY_SIGMA * sigma flag <? abs (value flag - mean flag)) = true
    /\ (severity flag = HIGH
        <-> (ANOMALY_SIGMA * 2 * sigma flag <? abs (value flag - mean flag)) = true)).
  { intros f l flag E Hin.
    destruct (check_field_flag _ _ _ _ E)
      as [-> | (val & mu & sg & floats & -> & H10 & Hm & Hmu & Hsg & Hv & Hflat & Hdev)];
      [ destruct Hin | ].
    destruct Hin as [<- | []]. cbn [field value mean sigma severity mkAnomalyFlag].
    repeat split; eauto.
    - destruct (ANOMALY_SIGMA * 2 * sg <? abs (val - mu)); [ reflexivity | discriminate ].
    - intros ->. reflexivity. }
  split.
  - assert (Hfields : forall f l, check_field window r f = Some l ->
              List.map field l = [] \/ List.map field l = [f]).
    { intros f l E.
      destruct (check_field_flag _ _ _ _ E) as [-> | (val & mu & sg & floats & -> & _)];
        auto. }
    rewrite !List.map_app.
    destruct (Hfields _ _ E1) as [-> | ->], (Hfields _ _ E2) as [-> | ->],
      (Hfields _ _ E3) as [-> | ->], (Hfields _ _ E4) as [-> | ->];
      cbn [app];
      repeat first [ apply sublist_nil_l | apply sublist_skip | apply sublist_cons ].
  - intros flag Hin.
    assert (Hcase : exists f l, In f ["solar_kw"; "wind_kw"; "load_kw"; "grid_import_kw"]%string
                                /\ check_field window r f = Some l /\ In flag l).
    { repeat (apply in_app_or in Hin as [Hin | Hin]);
        [ exists "solar_kw"%string, l1 | exists "wind_kw"%string, l2
        | exists "load_kw"%string, l3 | exists "grid_import_kw"%string, l4 ];
        (split; [ cbn; tauto | auto ]). }
    destruct Hcase as (f & l & Hf & E & Hl).
    destruct (Hone f l flag E Hl) as (<- & H10 & Hv & Hm & Hflat & Hdev & Hsev).
    repeat split; try assumption; apply Hsev.
Qed.

Lemma anomaly_flags_justified_witness :
  exists flags,
    _detect_anomalies steady_window (day_reading 50) = Some flags
    /\ sublist (List.map field flags) MONITORED_FIELDS.
Proof.
  assert (Hsome : match _detect_anomalies steady_window (day_reading 50) with
                  | Some _ => true
                  | None => false
                  end = true) by (vm_compute; reflexivity).
  destruct (_detect_anomalies steady_window (day_reading 50)) as [flags|] eqn:E;
    [ | discriminate Hsome ].
  exists flags. split; [ reflexivity | ].
  exact (proj1 (anomaly_flags_justified _ _ _ E)).
Defined.

(** X22: the detector does not tolerate what the aggregator does.  Once
    the window holds 30 readings and 10 of them carry a monitored field, a
    single reading whose entry for that field is [None] makes
    [_detect_anomalies] raise, and [ingest] with it, on every call for as
    long as that reading stays in the window; the reading has been
    appended all the same. *)
Theorem none_value_breaks_detection (ts : Z) (r r0 : reading) (p : IngestionPipeline)
    (f : string) :
  let window := _window (fst (ingest ts r p)) in
  In f MONITORED_FIELDS ->
  (30 <= length window)%nat ->
  (10 <= length (field_values f window))%nat ->
  In r0 window -> r0 !! f = Some None ->
  snd (ingest ts r p) = None
  /\ window = deque_append (maxlen p) (_window p) r.
Proof.
  cbv zeta. intros Hf H30 H10 Hin Hnone.
  split; [ | apply ingest_window ].
  rewrite ingest_snd. set (window := _window (fst (ingest ts r p))) in *.
  assert (Hcheck : check_field window r f = None).
  { unfold check_field.
    destruct (Nat.ltb_spec (length (field_values f window)) 10) as [Hlt | _]; [ lia | ].
    assert (Hm : mapM id (field_values f window) = None).
    { apply mapM_None_2, Exists_exists. exists None. split; [ | reflexivity ].
      unfold field_values. apply list_elem_of_omap. exists r0.
      split; [ apply list_elem_of_In, Hin | exact Hnone ]. }
    rewrite Hm. reflexivity. }
  unfold _detect_anomalies.
  destruct (Nat.ltb_spec (length window) 30) as [Hlt | _]; [ lia | ].
  assert (Hm : mapM (check_field window r) MONITORED_FIELDS = None).
  { apply mapM_None_2, Exists_exists. exists f.
    split; [ apply list_elem_of_In, Hf | exact Hcheck ]. }
  rewrite Hm. reflexivity.
Qed.

Lemma none_value_breaks_detection_witness :
  snd (ingest 145000000 unset_solar (ingest_all warm_feed (init WINDOW_SIZE))) = None
  /\ _window (fst (ingest 145000000 unset_solar (ingest_all warm_feed (init WINDOW_SIZE))))
     = deque_append (maxlen (ingest_all warm_feed (init WINDOW_SIZE)))
         (_window (ingest_all warm_feed (init WINDOW_SIZE))) unset_solar.
Proof.
  assert (Hlen : length (_window (fst (ingest 145000000 unset_solar
                                        (ingest_all warm_feed (init WINDOW_SIZE)))))
                 = 30%nat) by (vm_compute; reflexivity).
  assert (Hval : length (field_values "solar_kw"
                           (_window (fst (ingest 145000000 unset_solar
                                            (ingest_all warm_feed (init WINDOW_SIZE))))))
                 = 30%nat) by (vm_compute; reflexivity).
  assert (Hlast : last (_window (fst (ingest 145000000 unset_solar
                                        (ingest_all warm_feed (init WINDOW_SIZE)))))
                  = Some unset_solar) by (vm_compute; reflexivity).
  apply (none_value_breaks_detection 145000000 unset_solar unset_solar
           (ingest_all warm_feed (init WINDOW_SIZE)) "solar_kw").
  - left. reflexivity.
  - rewrite Hlen. lia.
  - rewrite Hval. lia.
  - apply last_Some in Hlast as [l' ->]. apply in_or_app. right. left. reflexivity.
  - reflexivity.
Defined.

End PipelineInvariants.

(* ===================================================================== *)
(** ** Rolling statistics and the load profile                            *)
(* ===================================================================== *)

Section RollingStatistics.
Import Engine.
Local Open Scope float_scope.

(** The deviation of the largest float and its opposite is beyond the
    float range: [statistics.stdev] raises [OverflowError]; with 1e308 in
    their place it returns. *)
Example stdev_overflow :
  Py.stdev [0x1.fffffffffffffp+1023; -0x1.fffffffffffffp+1023] = None
  /\ Py.stdev [1e308; -1e308] = Some 1.4142135623730951e308.
Proof. split; vm_compute; reflexivity. Qed.

Lemma length_omap_le {A B : Type} (f : A -> option B) (l : list A) :
  (length (omap f l) <= length l)%nat.
Proof.
  induction l as [|a l IH]; [ cbn; lia | ].
  cbn [omap list_omap]. destruct (f a); cbn [length]; fold (omap f l); lia.
Qed.

(** The entry [rolling_stats] stores for one field, and when the turn of
    the loop raises. *)
Lemma field_stats_spec (f : string) (snap : list reading) :
  (field_stats f snap = None <-> stdev_fails f snap)
  /\ forall entry,
       field_stats f snap = Some entry ->
       (entry = None <-> present_values f snap = [])
       /\ forall s, entry = Some s ->
            stats_n s = length (present_values f snap)
            /\ (stats_n s <= length snap)%nat
            /\ exists x, last (present_values f snap) = Some x
                         /\ stats_current s = Py.round x 3.
Proof.
  unfold field_stats, stdev_fails.
  pose proof (length_omap_le (fun r : reading => mjoin (r !! f)) snap) as Hlen.
  fold (present_values f snap) in Hlen.
  destruct (present_values f snap) as [|x xs] eqn:Ev.
  - split; [ split; [ discriminate | cbn; lia ] | ].
    intros entry H. injection H as <-. split; [ tauto | discriminate ].
  - destruct (mean_nonempty x xs) as [mu ->]. cbn [mbind option_bind].
    assert (Hret : forall sd entry,
              (lo ← Py.min_list (x :: xs); hi ← Py.max_list (x :: xs);
               current ← last (x :: xs);
               Some (Some {| stats_mean := Py.round mu 3; stats_std := Py.round sd 3;
                             stats_min := Py.round lo 3; stats_max := Py.round hi 3;
                             stats_current := Py.round current 3;
                             stats_n := length (x :: xs) |})) = Some entry ->
              (entry = None <-> x :: xs = [])
              /\ forall s, entry = Some s ->
                   stats_n s = length (x :: xs)
                   /\ (stats_n s <= length snap)%nat
                   /\ exists c, last (x :: xs) = Some c /\ stats_current s = Py.round c 3).
    { intros sd entry. cbn [mbind option_bind Py.min_list Py.max_list].
      destruct (last (x :: xs)) as [cur|] eqn:El;
        [ | apply last_None in El; discriminate El ].
      cbn [mbind option_bind]. intros H. injection H as <-.
      split; [ split; discriminate | ].
      intros s Hs. injection Hs as <-. cbn [stats_n stats_current].
      split; [ reflexivity | ]. split; [ exact Hlen | ]. eauto. }
    assert (Hsome : forall sd,
              (lo ← Py.min_list (x :: xs); hi ← Py.max_list (x :: xs);
               current ← last (x :: xs);
               Some (Some {| stats_mean := Py.round mu 3; stats_std := Py.round sd 3;
                             stats_min := Py.round lo 3; stats_max := Py.round hi 3;
                             stats_current := Py.round current 3;
                             stats_n := length (x :: xs) |})) <> None).
    { intros sd. cbn [mbind option_bind Py.min_list Py.max_list].
      destruct (last (x :: xs)) as [cur|] eqn:El;
        [ discriminate | apply last_None in El; discriminate El ]. }
    destruct xs as [|y xs].
    + change (1 <? length [x])%nat with false. cbv iota. cbn [mbind option_bind].
      split; [ | apply Hret ].
      split; [ intros H; destruct (Hsome _ H) | cbn; lia ].
    + change (1 <? length (x :: y :: xs))%nat with true. cbv iota.
      destruct (Py.stdev (x :: y :: xs)) as [sd|]; cbn [mbind option_bind].
      * split; [ | apply Hret ].
        split; [ intros H; destruct (Hsome _ H) | intros [_ H]; discriminate H ].
      * split; [ | discriminate ].
        split; [ intros _; split; [ cbn; lia | reflexivity ] | reflexivity ].
Qed.

(** X23: [rolling_stats] raises exactly when, for one of the eleven
    numeric fields, the window holds two or more values and their standard
    deviation fails (a NaN or an infinity among them, or a deviation
    beyond the float range, which finite values can reach).  When it
    returns, it returns one entry for each field: the empty dict exactly
    when no reading of the window carries a value for the field, and
    otherwise statistics whose [n] is the number of readings that do
    (never more than the window holds) and whose [current] is the last
    such value, rounded to 3 decimals. *)
Theorem rolling_stats_entries (p : IngestionPipeline) :
  (rolling_stats p = None
   <-> exists f, In f NUMERIC_FIELDS /\ stdev_fails f (_window p))
  /\ forall stats,
       rolling_stats p = Some stats ->
       forall f, In f NUMERIC_FIELDS ->
         exists entry,
           stats !! f = Some entry
           /\ (entry = None <-> present_values f (_window p) = [])
           /\ forall s, entry = Some s ->
                stats_n s = length (present_values f (_window p))
                /\ (stats_n s <= length (_window p))%nat
                /\ exists x, last (present_values f (_window p)) = Some x
                             /\ stats_current s = Py.round x 3.
Proof.
  unfold rolling_stats. set (snap := _window p).
  unfold NUMERIC_FIELDS. cbn [mapM].
  repeat match goal with
  | |- context [field_stats ?f snap] =>
      let e := fresh "e" in let He := fresh "He" in
      destruct (field_stats f snap) as [e|] eqn:He;
      [ cbn [mbind option_bind mret option_ret]
      | cbn [mbind option_bind mret option_ret];
        split; [ | discriminate ];
        split; [ | reflexivity ];
        intros _; exists f; split; [ cbn [In]; tauto | apply field_stats_spec, He ] ]
  end.
  split.
  - split; [ discriminate | ].
    intros (f & Hin & Hf). apply field_stats_spec in Hf. cbn [In] in Hin.
    repeat (destruct Hin as [<- | Hin]; [ congruence | ]).
    destruct Hin.
  - intros stats H. injection H as <-.
    intros f Hin. cbn [In] in Hin.
    repeat (destruct Hin as [<- | Hin];
            [ eexists; split;
              [ repeat first [ apply lookup_insert_eq
                             | rewrite lookup_insert_ne by discriminate ]
              | match goal with
                | H : field_stats ?g snap = Some _ |- _ =>
                    exact (proj2 (field_stats_spec g snap) _ H)
                end ]
            | ]).
    destruct Hin.
Qed.

Lemma rolling_stats_entries_witness :
  (exists stats,
     rolling_stats (ingest_all night_feed (init 3)) = Some stats
     /\ exists entry, stats !! "solar_kw"%string = Some entry)
  /\ rolling_stats (ingest_all extreme_feed (init 3)) = None.
Proof.
  split.
  - assert (Hsome :
      match rolling_stats (ingest_all night_feed (init 3)) with
      | Some _ => true
      | None => false
      end = true) by (vm_compute; reflexivity).
    destruct (rolling_stats (ingest_all night_feed (init 3))) as [stats|] eqn:E;
      [ | discriminate Hsome ].
    exists stats. split; [ reflexivity | ].
    destruct (proj2 (rolling_stats_entries (ingest_all night_feed (init 3))) stats E
                "solar_kw"%string ltac:(left; reflexivity)) as (entry & He & _).
    exists entry. exact He.
  - apply (proj1 (rolling_stats_entries (ingest_all extreme_feed (init 3)))).
    exists "solar_kw"%string. split; [ left; reflexivity | ].
    split; vm_compute; [ lia | reflexivity ].
Defined.

End RollingStatistics.

Section LoadProfile.
Import Forecast Simulator.
Local Open Scope float_scope.

Lemma max2_5_floor (x : float) : (5 <=? Py.max2 5 x) = true.
Proof.
  unfold Py.max2. destruct (5 <? x) eqn:E; [ apply ltb_leb, E | reflexivity ].
Qed.

(** X24: the campus load profile never raises and never returns less
    than 5 kW, whatever the hour and the noise drawn (NaN included); and
    at every clock time of the day, hour 0 to 23 and minute 0 to 59, the
    profile before noise lies between 15 and 58 kW. *)
Theorem load_profile_bounds :
  (forall hour noise : float,
     exists v, _load_profile_kw hour noise = Some v /\ (5 <=? v) = true)
  /\ (forall h m : Z,
        (0 <= h < 24)%Z -> (0 <= m < 60)%Z ->
        exists v, _load_profile_kw (hour_utc h m) 0 = Some v /\ within 15 58 v = true).
Proof.
  split.
  - intros hour noise. unfold _load_profile_kw.
    destruct (mod_24_total (hour + 5.5)) as [lh ->]. cbn [mbind option_bind].
    eexists. split; [ reflexivity | apply max2_5_floor ].
  - intros h m Hh Hm.
    assert (Hall : forallb profile_in_band (list_prod (seqZ 0 24) (seqZ 0 60)) = true)
      by (vm_compute; reflexivity).
    rewrite forallb_forall in Hall.
    specialize (Hall (h, m)).
    unfold profile_in_band in Hall. cbn [fst snd] in Hall.
    destruct (_load_profile_kw (hour_utc h m) 0) as [v|].
    + exists v. split; [ reflexivity | ]. apply Hall, in_prod;
        apply list_elem_of_In, elem_of_seqZ; lia.
    + discriminate Hall. apply in_prod; apply list_elem_of_In, elem_of_seqZ; lia.
Qed.

Lemma load_profile_bounds_witness :
  exists v, _load_profile_kw (hour_utc 7%Z 30%Z) 0 = Some v /\ within 15 58 v = true.
Proof.
  apply (proj2 load_profile_bounds 7%Z 30%Z); lia.
Defined.

End LoadProfile.
